(** * EcosolGIS project archive: catalog store and catalog view

    A shallow embedding of the three JavaScript programs of the repository
    that read, filter and mutate the project catalog:

    - the Express admin server (readProjects, writeProjects,
      authenticateToken, validateProject and the three /api/projects
      routes);
    - the serverless add-project function (exports.handler, POST only);
    - the archive page script (filterProjects, renderTagFilters,
      escapeHtml).

    A string is the sequence of its code units, each held in one
    character (the texts of the model are those whose code units fit a
    character); splitting, searching, replacing, comparing and sorting
    work on that sequence as they do in JavaScript.  The two string
    methods whose result depends on the Unicode tables of the platform,
    [toLowerCase] and [trim], are taken from the platform as they are
    (class [JS.Platform]): every property of Parts II and III holds for
    whatever letters the platform folds and whatever white space it
    trims.  Part IV evaluates the programs on sample inputs, which are
    ASCII texts, with stand-ins for the platform.  JSON numbers are kept
    as integers: the programs never compute with them.  The file system
    is a state that is passed explicitly, together with the list of
    file-system calls made so far. *)

From Stdlib Require Import String Ascii List Bool ZArith Arith Lia.
From Stdlib Require Import Sorting.Sorted.
Import ListNotations.
Open Scope string_scope.
Open Scope list_scope.
Set Warnings "-register-all".

(* ================================================================== *)
(** * Part I: the programs *)
(* ================================================================== *)

(** ** JavaScript string primitives used by the sources *)
Module JS.

(** The two methods of [String.prototype] that depend on the Unicode
    tables of the platform.  [toLowerCase] folds every cased letter, not
    only A to Z; [trim] removes every code point that ECMAScript counts as
    WhiteSpace or LineTerminator (among them U+00A0 and U+FEFF) from both
    ends.  Both are taken from the platform, with the three facts that
    the properties below rest on: the empty string has nothing to fold,
    and nothing is left to remove from the empty string, nor from a
    string that was trimmed. *)
Class Platform : Type := {
  toLowerCase : string -> string;
  trim : string -> string;
  fold_nothing : toLowerCase "" = "";
  trim_nothing : trim "" = "";
  trim_twice : forall s : string, trim (trim s) = trim s
}.

(** [s.split(sep)] for a one-character separator: never the empty list. *)
Fixpoint split (sep : ascii) (s : string) : list string :=
  match s with
  | EmptyString => [EmptyString]
  | String c r =>
      if Ascii.eqb c sep then EmptyString :: split sep r
      else match split sep r with
           | h :: t => String c h :: t
           | [] => [String c EmptyString]
           end
  end.

(** [hay.includes(needle)]. *)
Fixpoint includes (hay needle : string) : bool :=
  String.prefix needle hay ||
  match hay with
  | EmptyString => false
  | String _ r => includes r needle
  end.

(** [s.replace(/c/g, rep)] for a one-character pattern [c] and a
    replacement text without dollar patterns. *)
Fixpoint replaceAll (c : ascii) (rep : string) (s : string) : string :=
  match s with
  | EmptyString => EmptyString
  | String d r =>
      if Ascii.eqb d c then (rep ++ replaceAll c rep r)%string
      else String d (replaceAll c rep r)
  end.

(** Insertion of one string in a list ordered by code units. *)
Fixpoint insert (x : string) (l : list string) : list string :=
  match l with
  | [] => [x]
  | y :: r => if String.leb x y then x :: l else y :: insert x r
  end.

(** [Array.prototype.sort()] without a comparator, on an array of strings:
    ascending order of code units. *)
Fixpoint sort (l : list string) : list string :=
  match l with
  | [] => []
  | x :: r => insert x (sort r)
  end.

(** A [Set] of strings, in insertion order. *)
Definition has (s : list string) (x : string) : bool :=
  existsb (String.eqb x) s.

Definition add (s : list string) (x : string) : list string :=
  if has s x then s else s ++ [x].

End JS.

(** ** JSON values, as [JSON.parse] returns them *)
Module Json.

Inductive json : Type :=
| JNull
| JBool (b : bool)
| JNum (n : Z)
| JStr (s : string)
| JArr (items : list json)
| JObj (members : list (string * json)).

(** The members of an object, looked up by key. *)
Fixpoint lookup (k : string) (ms : list (string * json)) : option json :=
  match ms with
  | [] => None
  | (k', v) :: r => if String.eqb k k' then Some v else lookup k r
  end.

(** [o.k = v]: an existing member keeps its place, a new one goes last. *)
Fixpoint assign (k : string) (v : json) (ms : list (string * json))
  : list (string * json) :=
  match ms with
  | [] => [(k, v)]
  | (k', v') :: r =>
      if String.eqb k k' then (k, v) :: r else (k', v') :: assign k v r
  end.

(** A JavaScript value read from a variable or a member: [None] is
    [undefined]. *)
Definition value := option json.

(** [ToBoolean]. *)
Definition truthy (v : value) : bool :=
  match v with
  | None => false
  | Some JNull => false
  | Some (JBool b) => b
  | Some (JNum n) => negb (n =? 0)%Z
  | Some (JStr s) => negb (String.eqb s "")
  | Some (JArr _) => true
  | Some (JObj _) => true
  end.

(** [typeof v === 'string']. *)
Definition isString (v : value) : bool :=
  match v with Some (JStr _) => true | _ => false end.

(** [Array.isArray(v)]. *)
Definition isArray (v : value) : bool :=
  match v with Some (JArr _) => true | _ => false end.

(** The text of a value known to be a string. *)
Definition text (v : value) : string :=
  match v with Some (JStr s) => s | _ => "" end.

(** [v.k] for a value [v] that is not [null]: only objects have members
    of their own with the names the programs use. *)
Definition member (k : string) (v : json) : value :=
  match v with JObj ms => lookup k ms | _ => None end.

Section Titles.
Context {platform : JS.Platform}.

(** [p.title.toLowerCase()]; [None] when the expression throws a
    TypeError ([p] is null, or [p.title] is not a string). *)
Definition lowerTitle (p : json) : option string :=
  match member "title" p with
  | Some (JStr s) => Some (JS.toLowerCase s)
  | _ => None
  end.

End Titles.

End Json.

(** ** The file system and the HTTP replies shared by the two back ends *)
Module Sys.
Import Json.

(** What [JSON.parse] makes of a text: a SyntaxError or a value. *)
Inductive document : Type :=
| Garbled
| Parsed (v : json).

(** The projects file: missing (ENOENT), present but failing every access
    with another error code, or holding a text. *)
Inductive file_state : Type :=
| Absent
| Faulty
| Holds (d : document).

Inductive fs_call : Type := ReadFile | CopyFile | WriteFile.

Record World : Type := mkWorld {
  projectsFile : file_state;
  (** whether [fs.writeFile] can write the projects file *)
  writable : bool;
  (** the backup files, each with the clock value its name carries *)
  backups : list (Z * document);
  (** file-system calls made so far, newest first *)
  calls : list fs_call;
  (** whether [fs.copyFile] can write a backup file *)
  copyable : bool
}.

Definition called (c : fs_call) (w : World) : World :=
  mkWorld (projectsFile w) (writable w) (backups w) (c :: calls w) (copyable w).

(** [fs.copyFile(src, dest)] on the backup files: the copy takes the place
    of a file of the same name. *)
Definition copied (name : Z) (d : document) (files : list (Z * document))
  : list (Z * document) :=
  (name, d) :: filter (fun b => negb (Z.eqb (fst b) name)) files.

(** The two readings of the clock a request makes. *)
Record Clock : Type := mkClock {
  nowMs : Z;          (* Date.now() *)
  nowISO : string     (* new Date().toISOString() *)
}.

(** Outcome of an asynchronous function: a value or a thrown error. *)
Inductive result (A : Type) : Type :=
| Ok (a : A)
| Thrown (code : option string) (message : string).
Arguments Ok {A} a.
Arguments Thrown {A} code message.

(** HTTP replies: the status and the members of the JSON body that carry
    data. *)
Inductive response : Type :=
| Failure (status : nat) (error : string)
| Listed (projects : list json) (count : nat)
| Added (project : json) (totalProjects : nat)
| Deleted (deletedProject : json) (totalProjects : nat).

Definition status (r : response) : nat :=
  match r with
  | Failure s _ => s
  | Listed _ _ => 200
  | Added _ _ => 201
  | Deleted _ _ => 200
  end.

Section Search.
Context {platform : JS.Platform}.

(** The callback of [find] and [findIndex] in both back ends:
    [p.title.toLowerCase() === t.toLowerCase()], where [key] is the value
    of the right-hand side, [None] when it throws. *)
Definition sameTitle (key : option string) (p : json) : option bool :=
  match lowerTitle p, key with
  | Some a, Some b => Some (String.eqb a b)
  | _, _ => None
  end.

(** [projects.find(callback)]: [Thrown] when a call of the callback
    throws, [Ok None] for [undefined]. *)
Fixpoint find (key : option string) (ps : list json) : result (option json) :=
  match ps with
  | [] => Ok None
  | p :: r =>
      match sameTitle key p with
      | None => Thrown None "TypeError"
      | Some true => Ok (Some p)
      | Some false => find key r
      end
  end.

(** [projects.findIndex(callback)]: [Ok None] for [-1]. *)
Fixpoint findIndex (key : option string) (ps : list json) : result (option nat) :=
  match ps with
  | [] => Ok None
  | p :: r =>
      match sameTitle key p with
      | None => Thrown None "TypeError"
      | Some true => Ok (Some 0)
      | Some false =>
          match findIndex key r with
          | Ok (Some i) => Ok (Some (S i))
          | other => other
          end
      end
  end.

End Search.

(** [projects.splice(i, 1)]: the array that is left. *)
Fixpoint splice1 (i : nat) (ps : list json) : list json :=
  match i, ps with
  | _, [] => []
  | 0, _ :: r => r
  | S j, p :: r => p :: splice1 j r
  end.

End Sys.

(** ** The Express admin server *)
Module Server.
Import Json Sys.

(** The request object as the middlewares and handlers of a route receive
    it, that is once [express.json()] has filled [req.body] and the router
    has filled [req.params]. *)
Record Request : Type := mkRequest {
  authorization : option string;    (* req.headers['authorization'] *)
  body : list (string * json);      (* req.body, the members of the object
                                       express.json() leaves there *)
  paramTitle : string               (* req.params.title *)
}.

(** A request as it reaches the application, before anything has run:
    its Authorization header, what [express.json()] makes of its body and
    what the router makes of the [:title] segment of its path.  [None] is
    the error that either of them passes on instead (a body that is not
    JSON, a segment that is not percent-encoded text); a POST has no such
    segment. *)
Record Arrival : Type := mkArrival {
  header : option string;
  parsedBody : option (list (string * json));
  pathTitle : option string
}.

Definition handler : Type := World -> response * World.

(** The error-handling middleware [app.use((error, req, res, next) => ...)],
    which receives every error passed on before or inside a route. *)
Definition errorMiddleware : handler :=
  fun w => (Failure 500 "Internal server error", w).

Section Config.
Context {platform : JS.Platform}.

(** The configured secret. *)
Variable SECRET_TOKEN : string.
(** Whether the platform's [new URL(s)] returns (true) or throws. *)
Variable URL : string -> bool.
(** The platform's [decodeURIComponent]; [None] when it throws URIError. *)
Variable decodeURIComponent : string -> option string.

(** [authHeader && authHeader.split(' ')[1]]; [None] is [undefined]. *)
Definition tokenOf (authHeader : option string) : option string :=
  match authHeader with
  | None => None
  | Some h => if String.eqb h "" then Some "" else nth_error (JS.split " " h) 1
  end.

Definition truthyText (t : option string) : bool :=
  match t with
  | None => false
  | Some s => negb (String.eqb s "")
  end.

Definition authenticateToken (req : Request) (next : handler) : handler :=
  fun w =>
    let token := tokenOf (authorization req) in
    if negb (truthyText token) then
      (Failure 401 "Access token is required", w)
    else if negb (String.eqb (match token with Some t => t | None => "" end)
                             SECRET_TOKEN) then
      (Failure 403 "Invalid access token", w)
    else next w.

(** [!v || typeof v !== 'string' || !v.trim()] *)
Definition notText (v : value) : bool :=
  negb (truthy v) || negb (isString v)
  || negb (truthy (Some (JStr (JS.trim (text v))))).

(** [tags.filter(tag => typeof tag === 'string' && tag.trim().length > 0)
         .map(tag => tag.trim())] *)
Definition cleanTags (tags : list json) : list json :=
  map (fun tag => JStr (JS.trim (text (Some tag))))
      (filter (fun tag => isString (Some tag)
                          && (0 <? String.length (JS.trim (text (Some tag))))%nat)
              tags).

(** [Array.isArray(tags) ? tags.filter(...).map(...) : []] *)
Definition normalTags (tags : value) : list json :=
  match tags with
  | Some (JArr l) => cleanTags l
  | _ => []
  end.

Definition validateProject (reqBody : list (string * json))
    (next : list (string * json) -> handler) : handler :=
  fun w =>
    let title := lookup "title" reqBody in
    let file := lookup "file" reqBody in
    let tags := lookup "tags" reqBody in
    if notText title then (Failure 400 "Invalid title", w)
    else if notText file then (Failure 400 "Invalid file", w)
    else if negb (URL (text file)) then (Failure 400 "Invalid file URL", w)
    else if (match tags with None => false | Some _ => true end)
            && negb (isArray tags) then (Failure 400 "Invalid tags", w)
    else next [ ("title", JStr (JS.trim (text title)));
                ("file", JStr (JS.trim (text file)));
                ("tags", JArr (normalTags tags)) ] w.

(** The body of the [try] block of [readProjects]. *)
Definition readProjectsTry (w : World) : result (list json) :=
  match projectsFile w with
  | Absent => Thrown (Some "ENOENT") "no such file or directory"
  | Faulty => Thrown (Some "EIO") "i/o error"
  | Holds Garbled => Thrown None "SyntaxError"
  | Holds (Parsed (JArr projects)) => Ok projects
  | Holds (Parsed _) => Thrown None "Projects file does not contain a valid array"
  end.

Definition readProjects (w : World) : result (list json) * World :=
  let w' := called ReadFile w in
  match readProjectsTry w with
  | Ok projects => (Ok projects, w')
  | Thrown code _ =>
      if match code with Some k => String.eqb k "ENOENT" | None => false end
      then (Ok [], w')
      else (Thrown None "Failed to read projects file", w')
  end.

(** [fs.copyFile(PROJECTS_FILE, backupFile)] inside its own [try], the
    name of [backupFile] being made of [Date.now()]: every failure is
    swallowed. *)
Definition backup (c : Clock) (w : World) : World :=
  let w' := called CopyFile w in
  match projectsFile w with
  | Holds d =>
      if copyable w then
        mkWorld (projectsFile w') (writable w')
                (copied (nowMs c) d (backups w')) (calls w') (copyable w')
      else w'
  | _ => w'
  end.

Definition writeProjects (projects : list json) (c : Clock) (w : World)
  : result unit * World :=
  let w1 := backup c w in
  let w2 := called WriteFile w1 in
  match projectsFile w2 with
  | Faulty => (Thrown None "Failed to write projects file", w2)
  | _ =>
      if writable w2 then
        (Ok tt, mkWorld (Holds (Parsed (JArr projects))) (writable w2)
                        (backups w2) (calls w2) (copyable w2))
      else (Thrown None "Failed to write projects file", w2)
  end.

(** GET /api/projects *)
Definition getProjects : handler :=
  fun w =>
    match readProjects w with
    | (Ok projects, w1) => (Listed projects (length projects), w1)
    | (Thrown _ _, w1) => (Failure 500 "Internal server error", w1)
    end.

(** The handler of POST /api/projects, behind its two middlewares. *)
Definition addProject (c : Clock) (newProject : list (string * json)) : handler :=
  fun w =>
    match readProjects w with
    | (Thrown _ _, w1) => (Failure 500 "Internal server error", w1)
    | (Ok projects, w1) =>
        match find (lowerTitle (JObj newProject)) projects with
        | Thrown _ _ => (Failure 500 "Internal server error", w1)
        | Ok (Some _) => (Failure 409 "Duplicate project", w1)
        | Ok None =>
            let stored := JObj (assign "createdAt" (JStr (nowISO c)) newProject) in
            let projects' := projects ++ [stored] in
            match writeProjects projects' c w1 with
            | (Ok _, w2) => (Added stored (length projects'), w2)
            | (Thrown _ _, w2) => (Failure 500 "Internal server error", w2)
            end
        end
    end.

(** The handler of DELETE /api/projects/:title, behind its middleware. *)
Definition deleteProject (c : Clock) (req : Request) : handler :=
  fun w =>
    match decodeURIComponent (paramTitle req) with
    | None => (Failure 500 "Internal server error", w)
    | Some titleToDelete =>
        match readProjects w with
        | (Thrown _ _, w1) => (Failure 500 "Internal server error", w1)
        | (Ok projects, w1) =>
            match findIndex (Some (JS.toLowerCase titleToDelete)) projects with
            | Thrown _ _ => (Failure 500 "Internal server error", w1)
            | Ok None => (Failure 404 "Project not found", w1)
            | Ok (Some projectIndex) =>
                let deletedProject := nth projectIndex projects JNull in
                let projects' := splice1 projectIndex projects in
                match writeProjects projects' c w1 with
                | (Ok _, w2) => (Deleted deletedProject (length projects'), w2)
                | (Thrown _ _, w2) => (Failure 500 "Internal server error", w2)
                end
            end
        end
    end.

(** app.post('/api/projects', authenticateToken, validateProject, ...) *)
Definition postRoute (c : Clock) (req : Request) : handler :=
  authenticateToken req (validateProject (body req) (addProject c)).

(** app.delete('/api/projects/:title', authenticateToken, ...) *)
Definition deleteRoute (c : Clock) (req : Request) : handler :=
  authenticateToken req (deleteProject c req).

(** POST /api/projects from the arrival of the request: [express.json()]
    runs first and its error goes to the error middleware; the route has
    no parameter. *)
Definition post (c : Clock) (a : Arrival) : handler :=
  match parsedBody a with
  | None => errorMiddleware
  | Some members => postRoute c (mkRequest (header a) members "")
  end.

(** DELETE /api/projects/:title from the arrival of the request:
    [express.json()] runs first, then the router decodes the parameter
    when it matches the route; the error of either goes to the error
    middleware. *)
Definition delete (c : Clock) (a : Arrival) : handler :=
  match parsedBody a with
  | None => errorMiddleware
  | Some members =>
      match pathTitle a with
      | None => errorMiddleware
      | Some title => deleteRoute c (mkRequest (header a) members title)
      end
  end.

(** The store operations of the design, as the routes implement them once
    the caller is authenticated. *)
Definition listAll (w : World) : result (list json) := fst (readProjects w).

Definition append (c : Clock) (candidate : list (string * json)) : handler :=
  validateProject candidate (addProject c).

End Config.
End Server.

(** ** The serverless add-project function *)
Module AddFunction.
Import Json Sys.

Record Event : Type := mkEvent {
  httpMethod : string;
  authorization : option string;    (* event.headers.authorization *)
  eventBody : document              (* what JSON.parse(event.body) gives *)
}.

(** What the function returns: [{ statusCode, body }], with the project
    the body carries on success. *)
Record Reply : Type := mkReply {
  statusCode : nat;
  project : option json
}.

(** [(event.headers.authorization || '').split(' ')[1]]; [None] is
    [undefined]. *)
Definition tokenOf (authorization : option string) : option string :=
  let authHeader :=
    match authorization with
    | Some h => if String.eqb h "" then "" else h
    | None => ""
    end in
  nth_error (JS.split " " authHeader) 1.

Section Function.
Context {platform : JS.Platform}.

Variable SECRET_TOKEN : string.

(** [exports.handler]; [None] when the returned promise rejects, which
    happens where an expression outside the [try] blocks throws. *)
Definition handler (c : Clock) (event : Event) (w : World)
  : option Reply * World :=
  if negb (String.eqb (httpMethod event) "POST") then
    (Some (mkReply 405 None), w)
  else
    let token := tokenOf (authorization event) in
    if negb (match token with
             | Some t => String.eqb t SECRET_TOKEN
             | None => false
             end) then
      (Some (mkReply 403 None), w)
    else
      match eventBody event with
      | Garbled => (Some (mkReply 400 None), w)
      | Parsed JNull => (None, w)
      | Parsed newProject =>
          if negb (truthy (member "title" newProject))
             || negb (truthy (member "file" newProject)) then
            (Some (mkReply 400 None), w)
          else
            let w1 := called ReadFile w in
            match projectsFile w with
            | Holds (Parsed (JArr projects)) =>
                match find (lowerTitle newProject) projects with
                | Thrown _ _ => (Some (mkReply 500 None), w1)
                | Ok (Some _) => (Some (mkReply 409 None), w1)
                | Ok None =>
                    let ms := match newProject with JObj ms => ms | _ => [] end in
                    let tags := if truthy (lookup "tags" ms)
                                then match lookup "tags" ms with
                                     | Some v => v
                                     | None => JArr []
                                     end
                                else JArr [] in
                    let ms1 := assign "tags" tags ms in
                    let ms2 := assign "createdAt" (JStr (nowISO c)) ms1 in
                    let w2 := called WriteFile w1 in
                    if writable w2 then
                      (Some (mkReply 201 (Some (JObj ms2))),
                       mkWorld (Holds (Parsed (JArr (projects ++ [JObj ms2]))))
                               (writable w2) (backups w2) (calls w2)
                               (copyable w2))
                    else (Some (mkReply 500 None), w2)
                end
            | _ => (Some (mkReply 500 None), w1)
            end
      end.

End Function.
End AddFunction.

(** ** The archive page *)
Module Archive.

(** A record of the snapshot, as the page reads it: [tags] may be
    missing. *)
Record Project : Type := mkProject {
  title : string;
  tags : option (list string);
  file : string
}.

(** [project.tags && project.tags.some(f)] as a condition. *)
Definition someTag (f : string -> bool) (project : Project) : bool :=
  match tags project with
  | Some ts => existsb f ts
  | None => false
  end.

Section Filtering.
Context {platform : JS.Platform}.

(** The callback of [allProjects.filter] in [filterProjects]. *)
Definition keeps (activeTagFilters : list string) (searchTerm : string)
    (project : Project) : bool :=
  let titleMatch := JS.includes (JS.toLowerCase (title project)) searchTerm in
  let tagMatch :=
    someTag (fun tag => JS.includes (JS.toLowerCase tag) searchTerm) project in
  let searchMatch := String.eqb searchTerm "" || titleMatch || tagMatch in
  let tagFilterMatch :=
    (length activeTagFilters =? 0)%nat
    || someTag (fun tag => JS.has activeTagFilters (JS.trim (JS.toLowerCase tag)))
               project in
  searchMatch && tagFilterMatch.

(** [searchInput.value.toLowerCase().trim()] *)
Definition searchTerm (searchInput : string) : string :=
  JS.trim (JS.toLowerCase searchInput).

(** [filterProjects]: the new value of [filteredProjects], from the
    snapshot, the active filters and the text of the search box. *)
Definition filterProjects (allProjects : list Project)
    (activeTagFilters : list string) (searchInput : string) : list Project :=
  filter (keeps activeTagFilters (searchTerm searchInput)) allProjects.

(** [renderTagFilters]: the sorted tags for which a control is made. *)
Definition renderTagFilters (allProjects : list Project) : list string :=
  let allTags :=
    fold_left
      (fun set project =>
         match tags project with
         | Some ts =>
             fold_left (fun set tag => JS.add set (JS.trim (JS.toLowerCase tag)))
                       ts set
         | None => set
         end)
      allProjects [] in
  JS.sort allTags.

End Filtering.

Definition quote : ascii := ascii_of_nat 34.

Definition escapeHtml (unsafe : string) : string :=
  JS.replaceAll "'" "&#039;"
    (JS.replaceAll quote "&quot;"
       (JS.replaceAll ">" "&gt;"
          (JS.replaceAll "<" "&lt;"
             (JS.replaceAll "&" "&amp;" unsafe)))).

End Archive.

(** ** Notions of the specification, stated independently of the code *)
Module Spec.
Import Json Sys.

(** [needle] occurs in [hay] as a substring. *)
Definition Substring (needle hay : string) : Prop :=
  exists before after : string, hay = (before ++ needle ++ after)%string.

(** [c] occurs in [s]. *)
Definition Occurs (c : ascii) (s : string) : Prop :=
  In c (list_ascii_of_string s).

(** [a] comes strictly before [b] in the order of code units. *)
Definition Before (a b : string) : Prop := String.ltb a b = true.

(** [tag] is one of the tags of [project]. *)
Definition HasTag (project : Archive.Project) (tag : string) : Prop :=
  exists ts, Archive.tags project = Some ts /\ In tag ts.

Section Words.
Context {platform : JS.Platform}.

(** Search match: the term is empty, or the case-folded title contains
    it, or some case-folded tag contains it. *)
Definition SearchMatch (term : string) (p : Archive.Project) : Prop :=
  term = ""
  \/ Substring term (JS.toLowerCase (Archive.title p))
  \/ exists tag, HasTag p tag /\ Substring term (JS.toLowerCase tag).

(** Tag match: no filter is active, or some tag of the record, brought to
    the form [norm], is an active filter. *)
Definition TagMatch (norm : string -> string) (active : list string)
    (p : Archive.Project) : Prop :=
  active = [] \/ exists tag, HasTag p tag /\ In (norm tag) active.

(** The tag vocabulary in the words of the design: the tags of all
    records, each case-folded and trimmed, without duplicates, sorted. *)
Definition vocabulary (allProjects : list Archive.Project) : list string :=
  JS.sort
    (nodup string_dec
       (map (fun tag => JS.trim (JS.toLowerCase tag))
            (flat_map (fun p => match Archive.tags p with
                                | Some ts => ts
                                | None => []
                                end)
                      allProjects))).

(** A record of the catalog: an object whose title is a string. *)
Definition Titled (p : json) : Prop :=
  exists a, lowerTitle p = Some a.

(** The uniqueness invariant: no two records share a case-folded title. *)
Definition UniqueTitles (catalog : list json) : Prop :=
  Forall Titled catalog /\ NoDup (map lowerTitle catalog).

(** The record [p] has exactly the title [t]. *)
Definition hasTitle (t : string) (p : json) : bool :=
  match member "title" p with
  | Some (JStr s) => String.eqb s t
  | _ => false
  end.

(** The case-folded title of [p] is not [k]. *)
Definition OtherTitle (k : string) (p : json) : Prop :=
  lowerTitle p <> Some k.

(** A record passed over by [find] and [findIndex] on the key [k]: its
    title is a string, and not [k] once case-folded. *)
Definition Passed (k : string) (p : json) : Prop :=
  Titled p /\ OtherTitle k p.

(** A field of a candidate that is missing, not a string, or blank. *)
Definition Unusable (v : value) : Prop :=
  v = None \/ (forall s, v <> Some (JStr s))
  \/ (exists s, v = Some (JStr s) /\ JS.trim s = "").

(** A candidate that passes validation: title [t] and file [f] are
    strings that are not blank, [f] parses as a URL, and [tags] is missing
    or an array. *)
Definition Valid (URL : string -> bool) (candidate : list (string * json))
    (t f : string) : Prop :=
  lookup "title" candidate = Some (JStr t) /\ JS.trim t <> ""
  /\ lookup "file" candidate = Some (JStr f) /\ JS.trim f <> ""
  /\ URL f = true
  /\ (lookup "tags" candidate = None
      \/ exists l, lookup "tags" candidate = Some (JArr l)).

(** The record the store keeps for a candidate with title [t] and file
    [f]: both trimmed, the tags normalized, and [createdAt] read from the
    clock. *)
Definition stored (c : Clock) (candidate : list (string * json))
    (t f : string) : json :=
  JObj [ ("title", JStr (JS.trim t));
         ("file", JStr (JS.trim f));
         ("tags", JArr (Server.normalTags (lookup "tags" candidate)));
         ("createdAt", JStr (nowISO c)) ].

End Words.
End Spec.

(** ** Concrete values on which the programs are evaluated below *)
Module Sample.
Import Json Sys.

(** Stand-in for the platform's [toLowerCase] on the inputs used here,
    which are ASCII texts: A to Z are folded. *)
Definition isUpper (c : ascii) : bool :=
  (65 <=? nat_of_ascii c)%nat && (nat_of_ascii c <=? 90)%nat.

Definition lowerChar (c : ascii) : ascii :=
  if isUpper c then ascii_of_nat (nat_of_ascii c + 32) else c.

Fixpoint toLowerCase (s : string) : string :=
  match s with
  | EmptyString => EmptyString
  | String c r => String (lowerChar c) (toLowerCase r)
  end.

(** Stand-in for the platform's [trim] on the inputs used here, which are
    ASCII texts: TAB, LF, VT, FF, CR and SPACE are removed. *)
Definition isWhite (c : ascii) : bool :=
  let n := nat_of_ascii c in
  ((9 <=? n)%nat && (n <=? 13)%nat) || (n =? 32)%nat.

Fixpoint trimStart (s : string) : string :=
  match s with
  | EmptyString => EmptyString
  | String c r => if isWhite c then trimStart r else s
  end.

Fixpoint trimEnd (s : string) : string :=
  match s with
  | EmptyString => EmptyString
  | String c r =>
      match trimEnd r with
      | EmptyString => if isWhite c then EmptyString else String c EmptyString
      | r' => String c r'
      end
  end.

Definition trim (s : string) : string := trimEnd (trimStart s).

(** Empty, or starting with a character that is not white space. *)
Definition startsClean (s : string) : Prop :=
  match s with
  | EmptyString => True
  | String c _ => isWhite c = false
  end.

(** The platform on which the programs are evaluated below. *)
Definition platform : JS.Platform.
Proof.
  refine (JS.Build_Platform toLowerCase trim eq_refl eq_refl _).
  assert (clean : forall s, startsClean (trimStart s)).
  { induction s as [|c r IH]; simpl; [exact I|].
    destruct (isWhite c) eqn:E; [assumption | exact E]. }
  assert (same : forall s, startsClean s -> trimStart s = s).
  { intros [|c r]; simpl; [reflexivity | now intros ->]. }
  assert (kept : forall s, startsClean s -> startsClean (trimEnd s)).
  { intros [|c r]; simpl; [trivial|]. intros H.
    destruct (trimEnd r); [rewrite H|]; exact H. }
  assert (once : forall s, trimEnd (trimEnd s) = trimEnd s).
  { induction s as [|c r IH]; simpl; [reflexivity|].
    destruct (trimEnd r) as [|d r'] eqn:E.
    - destruct (isWhite c) eqn:Ec; simpl; [reflexivity | now rewrite Ec].
    - simpl in *. now rewrite IH. }
  intros s. unfold trim.
  rewrite (same (trimEnd (trimStart s))); [apply once | apply kept, clean].
Defined.

(** Stand-in for the platform's URL parser on the inputs used here: it
    accepts the texts that start with [https://]. *)
Definition URL (s : string) : bool := String.prefix "https://" s.

(** Stand-in for the platform's [decodeURIComponent] on the inputs used
    here: texts without a percent sign are returned as they are. *)
Definition decodeURIComponent (s : string) : option string :=
  if JS.includes s "%" then None else Some s.

Definition secret : string := "s3cret".

Definition clock : Clock := mkClock 1700000000000 "2023-11-14T22:13:20.000Z".

Definition bearer : option string := Some "Bearer s3cret".

(** A candidate with the title of [wetland] in another case and a blank
    file. *)
Definition noFile : list (string * json) :=
  [ ("title", JStr "wetland survey"); ("file", JStr "") ].

(** A candidate with the title of [wetland] in another case. *)
Definition again : list (string * json) :=
  [ ("title", JStr "wetland survey"); ("file", JStr "https://x/b.pdf") ].

(** A new candidate whose title, file and tags carry blanks. *)
Definition marsh : list (string * json) :=
  [ ("title", JStr " Marsh Atlas");
    ("file", JStr "https://x/b.pdf ");
    ("tags", JArr [JStr " GIS "; JNum 3; JStr "  "]) ].

(** A candidate whose file is no URL. *)
Definition noURL : list (string * json) :=
  [ ("title", JStr "Dune Map"); ("file", JStr "a.pdf") ].

Definition wetland : json :=
  JObj [ ("title", JStr "Wetland Survey");
         ("tags", JArr [JStr "ecology"; JStr "gis"]);
         ("file", JStr "https://x/a.pdf") ].

(** Two more records of the catalog. *)
Definition dune : json :=
  JObj [ ("title", JStr "Dune Map");
         ("tags", JArr [JStr "coast"]);
         ("file", JStr "https://x/d.pdf") ].

Definition heath : json :=
  JObj [ ("title", JStr "Heath Fires");
         ("tags", JArr []);
         ("file", JStr "https://x/h.pdf") ].

(** A disk whose projects file holds the array [ps]. *)
Definition disk (ps : list json) : World :=
  mkWorld (Holds (Parsed (JArr ps))) true [] [] true.

(** A record whose tag was stored with a leading blank and in capitals. *)
Definition marshView : Archive.Project :=
  Archive.mkProject "Marsh Atlas" (Some [" GIS"]) "https://x/b.pdf".

(** A catalog that breaks the uniqueness invariant. *)
Definition twice : list json :=
  [ wetland; JObj [ ("title", JStr "WETLAND survey") ] ].

(** A DELETE request for the title of [wetland] in another case. *)
Definition removal : Server.Request :=
  Server.mkRequest bearer [] "wetland survey".

Definition wetlandView : Archive.Project :=
  Archive.mkProject "Wetland Survey" (Some ["ecology"; "gis"]) "https://x/a.pdf".

End Sample.

(** ** More string and [Set] primitives, used by the pages *)
Module Text.

(** [Set.prototype.delete]. *)
Definition delete (s : list string) (x : string) : list string :=
  filter (fun y => negb (String.eqb y x)) s.

(** [s.slice(n)]. *)
Fixpoint slice (n : nat) (s : string) : string :=
  match n, s with
  | 0, _ => s
  | S m, String _ r => slice m r
  | S _, EmptyString => EmptyString
  end.

(** [s.replace(pat, rep)] for a text pattern and a replacement without
    dollar patterns: the first occurrence only. *)
Fixpoint replaceFirst (pat rep s : string) : string :=
  if String.prefix pat s then (rep ++ slice (String.length pat) s)%string
  else match s with
       | EmptyString => EmptyString
       | String c r => String c (replaceFirst pat rep r)
       end.

(** [parts.join('')]. *)
Fixpoint join (parts : list string) : string :=
  match parts with
  | [] => EmptyString
  | x :: r => (x ++ join r)%string
  end.

(** The number of occurrences of the character [c] in [s]. *)
Fixpoint count (c : ascii) (s : string) : nat :=
  match s with
  | EmptyString => 0
  | String d r => (if Ascii.eqb d c then 1 else 0) + count c r
  end.

End Text.

(** ** The archive page: loading, display states and events *)
Module Page.
Import Json Sys.

(** What [fetch('projects.json')] resolves to: a rejection, or a response
    with its [ok] flag and what [response.json()] makes of its body. *)
Inductive Fetched : Type :=
| Rejected
| Response (ok : bool) (body : document).

(** [loadProjects] up to the assignment of [allProjects]: the array it
    keeps, [None] when it throws. *)
Definition loadProjects (f : Fetched) : option (list json) :=
  match f with
  | Rejected => None
  | Response false _ => None
  | Response true Garbled => None
  | Response true (Parsed data) =>
      let projectsArray :=
        if isArray (Some data) then Some data
        else if truthy (Some data) && isArray (member "projects" data)
             then member "projects" data
        else None in
      match projectsArray with
      | Some (JArr l) => Some l
      | _ => None
      end
  end.

Definition newline : string := String (ascii_of_nat 10) EmptyString.
Definition dquote : string := String Archive.quote EmptyString.

(** The [span] made for one tag in [createProjectCard]. *)
Definition tagSpan (tag : string) : string :=
  ("<span class=" ++ dquote ++ "project-tag" ++ dquote ++ ">"
   ++ Archive.escapeHtml tag ++ "</span>")%string.

(** [createProjectCard]: the text assigned to [card.innerHTML]. *)
Definition createProjectCard (project : Archive.Project) : string :=
  let title := if String.eqb (Archive.title project) ""
               then "Untitled Project" else Archive.title project in
  let tags := match Archive.tags project with Some ts => ts | None => [] end in
  let file := if String.eqb (Archive.file project) ""
              then "#" else Archive.file project in
  (newline
   ++ "        <h3 class=" ++ dquote ++ "project-title" ++ dquote ++ ">"
   ++ Archive.escapeHtml title ++ "</h3>" ++ newline
   ++ "        <div class=" ++ dquote ++ "project-tags" ++ dquote ++ ">" ++ newline
   ++ "            " ++ Text.join (map tagSpan tags) ++ newline
   ++ "        </div>" ++ newline
   ++ "        <a href=" ++ dquote ++ Archive.escapeHtml file ++ dquote
   ++ " target=" ++ dquote ++ "_blank" ++ dquote
   ++ " class=" ++ dquote ++ "view-pdf-btn" ++ dquote ++ ">View PDF</a>" ++ newline
   ++ "    ")%string.

(** The [style.display] of the four elements that show a state. *)
Record Display : Type := mkDisplay {
  loadingState : string;
  projectsContainer : string;
  emptyState : string;
  errorState : string
}.

Definition showEmptyState (d : Display) : Display :=
  mkDisplay (loadingState d) (projectsContainer d) "block" (errorState d).

Definition hideEmptyState (d : Display) : Display :=
  mkDisplay (loadingState d) (projectsContainer d) "none" (errorState d).

Definition hideErrorState (d : Display) : Display :=
  mkDisplay (loadingState d) (projectsContainer d) (emptyState d) "none".

Definition showLoadingState (d : Display) : Display :=
  hideErrorState
    (hideEmptyState (mkDisplay "block" "none" (emptyState d) (errorState d))).

Definition hideLoadingState (d : Display) : Display :=
  mkDisplay "none" "grid" (emptyState d) (errorState d).

Definition showErrorState (d : Display) : Display :=
  hideEmptyState (mkDisplay "none" "none" (emptyState d) "block").

(** The globals of the script and the parts of the document it writes:
    the filter controls with their [active] class, and the cards. *)
Record State : Type := mkState {
  allProjects : list Archive.Project;
  filteredProjects : list Archive.Project;
  activeTagFilters : list string;
  searchInput : string;
  tagFilters : list (string * bool);
  cards : list string;
  display : Display
}.

Definition renderProjects (st : State) : State :=
  if (length (filteredProjects st) =? 0)%nat then
    mkState (allProjects st) (filteredProjects st) (activeTagFilters st)
            (searchInput st) (tagFilters st) [] (showEmptyState (display st))
  else
    mkState (allProjects st) (filteredProjects st) (activeTagFilters st)
            (searchInput st) (tagFilters st)
            (map createProjectCard (filteredProjects st))
            (hideEmptyState (display st)).

Section Events.
Context {platform : JS.Platform}.

(** [filterProjects], with the rendering it ends with. *)
Definition filterProjects (st : State) : State :=
  renderProjects
    (mkState (allProjects st)
             (Archive.filterProjects (allProjects st) (activeTagFilters st)
                                     (searchInput st))
             (activeTagFilters st) (searchInput st) (tagFilters st)
             (cards st) (display st)).

(** [element.classList.add/remove('active')] on the control of [tag]. *)
Definition setActive (tag : string) (on : bool) (controls : list (string * bool))
  : list (string * bool) :=
  map (fun c => if String.eqb (fst c) tag then (fst c, on) else c) controls.

(** [toggleTagFilter(tag, element)], [element] being the control made for
    [tag]. *)
Definition toggleTagFilter (tag : string) (st : State) : State :=
  if JS.has (activeTagFilters st) tag then
    filterProjects
      (mkState (allProjects st) (filteredProjects st)
               (Text.delete (activeTagFilters st) tag) (searchInput st)
               (setActive tag false (tagFilters st)) (cards st) (display st))
  else
    filterProjects
      (mkState (allProjects st) (filteredProjects st)
               (JS.add (activeTagFilters st) tag) (searchInput st)
               (setActive tag true (tagFilters st)) (cards st) (display st)).

(** The user edits the search box; the debounce timer is pending. *)
Definition typed (value : string) (st : State) : State :=
  mkState (allProjects st) (filteredProjects st) (activeTagFilters st)
          value (tagFilters st) (cards st) (display st).

(** The keydown listener on Escape. *)
Definition escape (st : State) : State :=
  filterProjects (typed "" st).

(** [debugArchive.clearFilters]. *)
Definition clearFilters (st : State) : State :=
  filterProjects
    (mkState (allProjects st) (filteredProjects st) [] ""
             (map (fun c => (fst c, false)) (tagFilters st))
             (cards st) (display st)).

(** [initializeArchive], from the outcome of [loadProjects] ([None] when
    it throws), the records being read as [Archive.Project]. *)
Definition initializeArchive (loaded : option (list Archive.Project))
    (st : State) : State :=
  let d := showLoadingState (display st) in
  match loaded with
  | None =>
      mkState (allProjects st) (filteredProjects st) (activeTagFilters st)
              (searchInput st) (tagFilters st) (cards st) (showErrorState d)
  | Some projects =>
      let st1 :=
        renderProjects
          (mkState projects projects (activeTagFilters st) (searchInput st)
                   (map (fun tag => (tag, false))
                        (Archive.renderTagFilters projects))
                   (cards st) d) in
      mkState (allProjects st1) (filteredProjects st1) (activeTagFilters st1)
              (searchInput st1) (tagFilters st1) (cards st1)
              (hideLoadingState (display st1))
  end.

(** What happens on the page once it is initialized. *)
Inductive event : Type :=
| Click (tag : string)
| Typed (value : string)
| TimerFired
| Escape
| ClearFilters.

Definition react (e : event) (st : State) : State :=
  match e with
  | Click tag => toggleTagFilter tag st
  | Typed value => typed value st
  | TimerFired => filterProjects st
  | Escape => escape st
  | ClearFilters => clearFilters st
  end.

(** The page as the script finds it: nothing loaded, no filter, an empty
    search box. *)
Definition fresh (d : Display) : State :=
  mkState [] [] [] "" [] [] d.

(** The states the page goes through after a successful initialization;
    only the controls that were made can be clicked. *)
Inductive reachable (projects : list Archive.Project) (d : Display)
  : State -> Prop :=
| reach_init : reachable projects d (initializeArchive (Some projects) (fresh d))
| reach_step (st : State) (e : event) :
    reachable projects d st ->
    (forall tag, e = Click tag -> In tag (map fst (tagFilters st))) ->
    reachable projects d (react e st).

End Events.
End Page.

(** ** The admin page *)
Module Admin.
Import Json Sys.

(** The values of the four inputs of the form. *)
Record Form : Type := mkForm {
  tokenInput : string;
  titleInput : string;
  tagsInput : string;
  fileInput : string
}.

Record FormData : Type := mkFormData {
  title : string;
  tags : list string;
  file : string;
  token : string
}.

Section Browser.
Context {platform : JS.Platform}.

Definition collectFormData (f : Form) : FormData :=
  mkFormData
    (JS.trim (titleInput f))
    (filter (fun tag => (0 <? String.length tag)%nat)
            (map JS.trim (JS.split "," (tagsInput f))))
    (JS.trim (fileInput f))
    (JS.trim (tokenInput f)).

(** Whether the browser's [new URL(s)] returns (true) or throws. *)
Variable URL : string -> bool.

Definition validateForm (f : Form) : bool :=
  let token := JS.trim (tokenInput f) in
  let title := JS.trim (titleInput f) in
  let file := JS.trim (fileInput f) in
  if String.eqb token "" then false
  else if String.eqb title "" then false
  else if String.eqb file "" then false
  else URL file.

(** The request [submitProject] sends, as the server finds it after
    [express.json()]. *)
Definition submitProject (projectData : FormData) : Server.Request :=
  Server.mkRequest
    (Some ("Bearer " ++ token projectData)%string)
    [ ("title", JStr (title projectData));
      ("tags", JArr (map JStr (tags projectData)));
      ("file", JStr (file projectData)) ]
    "".

(** [handleFormSubmit] up to the request: [None] when the form is
    refused and nothing is sent. *)
Definition handleFormSubmit (f : Form) : option Server.Request :=
  if negb (validateForm f) then None
  else Some (submitProject (collectFormData f)).

(** [processDropboxLink]: the new value of the file input. *)
Definition processDropboxLink (value : string) : string :=
  let url := JS.trim value in
  if negb (String.eqb url "") && JS.includes url "dropbox.com" then
    if JS.includes url "?dl=0" then Text.replaceFirst "?dl=0" "?dl=1" url
    else if negb (JS.includes url "?dl=1") then
      (url ++ (if JS.includes url "?" then "&" else "?") ++ "dl=1")%string
    else url
  else value.

End Browser.
End Admin.

(** ** The serverless list function *)
Module ListFunction.
Import Json Sys.

(** What the function returns: the status and, on success, the
    [projects] and [count] members of the body ([count] is [None] when
    [projects.length] is [undefined]). *)
Record Reply : Type := mkReply {
  statusCode : nat;
  projects : option json;
  count : option json
}.

(** [projects.length] for a value that is not [null]. *)
Definition lengthOf (v : json) : option json :=
  match v with
  | JArr l => Some (JNum (Z.of_nat (length l)))
  | JStr s => Some (JNum (Z.of_nat (String.length s)))
  | JObj ms => lookup "length" ms
  | _ => None
  end.

Definition handler (w : World) : Reply * World :=
  let w1 := called ReadFile w in
  match projectsFile w with
  | Holds (Parsed JNull) => (mkReply 500 None None, w1)
  | Holds (Parsed v) => (mkReply 200 (Some v) (lengthOf v), w1)
  | _ => (mkReply 500 None None, w1)
  end.

End ListFunction.

(** ** Notions used by the further properties *)
Module Notion.
Import Json Sys.

Section Notions.
Context {platform : JS.Platform}.

(** [s] has no white space at either end. *)
Definition Trimmed (s : string) : Prop := JS.trim s = s.

(** [s] holds no space. *)
Definition SpaceFree (s : string) : Prop := ~ Spec.Occurs " " s.

(** The element is shown. *)
Definition Visible (displayValue : string) : Prop := displayValue <> "none".

(** A tag as the Express server stores it: a string that is not empty and
    has no white space at either end. *)
Definition StoredTag (v : json) : Prop :=
  exists s, v = JStr s /\ s <> "" /\ Trimmed s.

(** The page is initialized: the snapshot is [projects], the loading and
    error elements are hidden and the container is shown, the active
    filters are distinct tags for which a control was made, the controls
    are those of [renderTagFilters], and a control carries the [active]
    class exactly when its tag is an active filter. *)
Definition Ready (projects : list Archive.Project) (st : Page.State) : Prop :=
  Page.allProjects st = projects
  /\ Page.loadingState (Page.display st) = "none"
  /\ Page.errorState (Page.display st) = "none"
  /\ Page.projectsContainer (Page.display st) = "grid"
  /\ NoDup (Page.activeTagFilters st)
  /\ incl (Page.activeTagFilters st) (Archive.renderTagFilters projects)
  /\ map fst (Page.tagFilters st) = Archive.renderTagFilters projects
  /\ (forall t b, In (t, b) (Page.tagFilters st) ->
                  b = JS.has (Page.activeTagFilters st) t).

(** What is on screen matches the filtered list: the empty-state element
    is shown exactly when the list is empty, there is one card for each
    record of the list, in order, and the list holds records of the
    snapshot only. *)
Definition Rendered (st : Page.State) : Prop :=
  Page.emptyState (Page.display st)
  = (if (length (Page.filteredProjects st) =? 0)%nat then "block" else "none")
  /\ Page.cards st = map Page.createProjectCard (Page.filteredProjects st)
  /\ incl (Page.filteredProjects st) (Page.allProjects st).

End Notions.

(** The form of the admin page on which the samples are evaluated. *)
Definition dunes : Admin.Form :=
  Admin.mkForm " s3cret " " Dune Map " "coast, GIS ,, " " https://x/d.pdf".

End Notion.

Import Json Sys.

(* ================================================================== *)
(** * Part II: properties *)
(* ================================================================== *)

Section Properties.
Context {platform : JS.Platform}.

(** ** Strings *)

Lemma chars_app (a b : string) :
  list_ascii_of_string (a ++ b)%string
  = list_ascii_of_string a ++ list_ascii_of_string b.
Proof.
  induction a as [|c a IH]; simpl; [reflexivity | now rewrite IH].
Qed.

(** A character of [replaceAll c rep s] is a character of [s] other than
    [c], or a character of the replacement text. *)
Lemma replaceAll_occurs (c : ascii) (rep s : string) (x : ascii) :
  Spec.Occurs x (JS.replaceAll c rep s) ->
  (Spec.Occurs x s /\ x <> c) \/ Spec.Occurs x rep.
Proof.
  unfold Spec.Occurs.
  induction s as [|d r IH]; simpl; [tauto|].
  destruct (Ascii.eqb d c) eqn:E.
  - rewrite chars_app, in_app_iff. intros [H | H]; [now right|].
    destruct (IH H) as [[H1 H2] | H1]; [left | right]; simpl; auto.
  - simpl. intros [H | H].
    + subst x. left. split; [now left|].
      intros ->. now rewrite Ascii.eqb_refl in E.
    + destruct (IH H) as [[H1 H2] | H1]; [left | right]; simpl; auto.
Qed.

(** One pass of [escapeHtml] seen from its result: either the character
    was already there, or it comes from the entity, which is excluded by
    evaluation. *)
Ltac peel H :=
  apply replaceAll_occurs in H;
  destruct H as [[H ?] | H];
  [ | cbv in H; intuition discriminate ].

Lemma prefix_app (a b : string) :
  String.prefix a b = true <-> exists rest, b = (a ++ rest)%string.
Proof.
  revert b. induction a as [|c a IH]; intros b; simpl.
  - split; [intros _; now exists b | intros _; now destruct b].
  - destruct b as [|d b].
    + split; [discriminate | intros [rest H]; discriminate].
    + simpl. destruct (ascii_dec c d) as [-> | N].
      * rewrite IH. split; intros [rest H]; exists rest.
        -- now rewrite H.
        -- now inversion H.
      * split; [discriminate | intros [rest H]; inversion H; congruence].
Qed.

Lemma includes_unfold (hay needle : string) :
  JS.includes hay needle
  = String.prefix needle hay
    || match hay with
       | EmptyString => false
       | String _ r => JS.includes r needle
       end.
Proof. destruct hay; reflexivity. Qed.

(** [includes] decides the substring relation. *)
Lemma includes_Substring (hay needle : string) :
  JS.includes hay needle = true <-> Spec.Substring needle hay.
Proof.
  unfold Spec.Substring. split.
  - induction hay as [|c hay IH]; rewrite includes_unfold, orb_true_iff.
    + intros [H | H]; [|discriminate].
      apply prefix_app in H. destruct H as [rest H].
      now exists EmptyString, rest.
    + intros [H | H].
      * apply prefix_app in H. destruct H as [rest H].
        now exists EmptyString, rest.
      * destruct (IH H) as (b & a & E).
        exists (String c b), a. simpl. now rewrite E.
  - intros (b & a & E). revert hay E.
    induction b as [|c b IH]; intros hay E; rewrite includes_unfold.
    + apply orb_true_iff. left. apply prefix_app. now exists a.
    + subst hay. simpl. apply orb_true_iff. right. now apply IH.
Qed.

Lemma has_In (s : list string) (x : string) :
  JS.has s x = true <-> In x s.
Proof.
  unfold JS.has. rewrite existsb_exists. split.
  - intros (y & Hy & E). apply String.eqb_eq in E. now subst.
  - intros H. exists x. split; [assumption | apply String.eqb_refl].
Qed.

Lemma someTag_HasTag (f : string -> bool) (p : Archive.Project) :
  Archive.someTag f p = true <-> exists tag, Spec.HasTag p tag /\ f tag = true.
Proof.
  unfold Archive.someTag, Spec.HasTag.
  destruct (Archive.tags p) as [ts|].
  - rewrite existsb_exists. split.
    + intros (tag & Hin & Hf). exists tag. split; [now exists ts | assumption].
    + intros (tag & (ts' & E & Hin) & Hf). inversion E; subst. now exists tag.
  - split; [discriminate | intros (tag & (ts & E & _) & _); discriminate].
Qed.

(** ** The order of code units and [sort] *)

Lemma ascii_compare_refl (a : ascii) : Ascii.compare a a = Eq.
Proof. unfold Ascii.compare. apply N.compare_refl. Qed.

Lemma ascii_compare_lt_trans (a b c : ascii) :
  Ascii.compare a b = Lt -> Ascii.compare b c = Lt -> Ascii.compare a c = Lt.
Proof.
  unfold Ascii.compare. rewrite !N.compare_lt_iff. apply N.lt_trans.
Qed.

Lemma string_compare_lt_trans (a b c : string) :
  String.compare a b = Lt -> String.compare b c = Lt -> String.compare a c = Lt.
Proof.
  revert b c. induction a as [|x a IH]; intros [|y b] [|z c]; simpl;
    try discriminate; try reflexivity.
  destruct (Ascii.compare x y) eqn:Exy; destruct (Ascii.compare y z) eqn:Eyz;
    try discriminate; intros H1 H2.
  - apply Ascii.compare_eq_iff in Exy, Eyz. subst.
    rewrite ascii_compare_refl. eauto.
  - apply Ascii.compare_eq_iff in Exy. subst. now rewrite Eyz.
  - apply Ascii.compare_eq_iff in Eyz. subst. now rewrite Exy.
  - now rewrite (ascii_compare_lt_trans _ _ _ Exy Eyz).
Qed.

Lemma Before_trans (a b c : string) :
  Spec.Before a b -> Spec.Before b c -> Spec.Before a c.
Proof.
  unfold Spec.Before, String.ltb. intros H1 H2.
  destruct (String.compare a b) eqn:E1; try discriminate.
  destruct (String.compare b c) eqn:E2; try discriminate.
  now rewrite (string_compare_lt_trans _ _ _ E1 E2).
Qed.

Lemma Before_irrefl (a : string) : ~ Spec.Before a a.
Proof.
  unfold Spec.Before, String.ltb. intros H.
  pose proof (String.compare_antisym a a) as E.
  destruct (String.compare a a); simpl in E; discriminate.
Qed.

Lemma not_leb_Before (x y : string) :
  String.leb x y = false -> Spec.Before y x.
Proof.
  unfold Spec.Before, String.leb, String.ltb.
  rewrite (String.compare_antisym y x).
  destruct (String.compare x y); simpl; congruence.
Qed.

Lemma leb_neq_Before (x y : string) :
  String.leb x y = true -> x <> y -> Spec.Before x y.
Proof.
  unfold Spec.Before, String.leb, String.ltb. intros H N.
  destruct (String.compare x y) eqn:E; try congruence.
  apply String.compare_eq_iff in E. contradiction.
Qed.

Lemma insert_In (x y : string) (l : list string) :
  In y (JS.insert x l) <-> y = x \/ In y l.
Proof.
  induction l as [|z l IH]; simpl.
  - intuition.
  - destruct (String.leb x z); simpl; rewrite ?IH; intuition.
Qed.

Lemma sort_In (y : string) (l : list string) :
  In y (JS.sort l) <-> In y l.
Proof.
  induction l as [|x l IH]; simpl; [tauto|].
  rewrite insert_In, IH. intuition.
Qed.

Lemma insert_sorted (x : string) (l : list string) :
  StronglySorted Spec.Before l -> ~ In x l ->
  StronglySorted Spec.Before (JS.insert x l).
Proof.
  induction 1 as [|y l Hs IH Hy]; intros Hx; simpl.
  - constructor; constructor.
  - destruct (String.leb x y) eqn:E.
    + assert (Hxy : Spec.Before x y).
      { apply leb_neq_Before; [assumption|]. intros ->. apply Hx. now left. }
      constructor; [now constructor|].
      constructor; [assumption|].
      rewrite Forall_forall in *. intros z Hz.
      exact (Before_trans _ _ _ Hxy (Hy z Hz)).
    + constructor.
      * apply IH. intros H. apply Hx. now right.
      * rewrite Forall_forall in *. intros z Hz.
        apply insert_In in Hz. destruct Hz as [-> | Hz].
        -- now apply not_leb_Before.
        -- now apply Hy.
Qed.

(** Sorting a duplicate-free array of strings gives a strictly ascending
    array. *)
Lemma sort_sorted (l : list string) :
  NoDup l -> StronglySorted Spec.Before (JS.sort l).
Proof.
  induction 1 as [|x l Hx Hn IH]; simpl.
  - constructor.
  - apply insert_sorted; [assumption|]. now rewrite sort_In.
Qed.

(** A strictly ascending list is determined by its elements. *)
Lemma sorted_unique (l1 l2 : list string) :
  StronglySorted Spec.Before l1 -> StronglySorted Spec.Before l2 ->
  (forall x, In x l1 <-> In x l2) -> l1 = l2.
Proof.
  intros H1. revert l2.
  induction H1 as [|a l1 Hs1 IH Ha]; intros l2 H2 Hin.
  - destruct l2 as [|b l2]; [reflexivity|].
    exfalso. apply (Hin b). now left.
  - destruct H2 as [|b l2 Hs2 Hb].
    + exfalso. apply (Hin a). now left.
    + rewrite Forall_forall in Ha, Hb.
      assert (E : a = b).
      { destruct (string_dec a b) as [E | N]; [assumption | exfalso].
        assert (Ia : In a l2).
        { destruct (proj1 (Hin a) (or_introl eq_refl)); [congruence | assumption]. }
        assert (Ib : In b l1).
        { destruct (proj2 (Hin b) (or_introl eq_refl)); [congruence | assumption]. }
        exact (Before_irrefl a (Before_trans _ _ _ (Ha b Ib) (Hb a Ia))). }
      subst b. f_equal. apply IH; [assumption|].
      intros x. split; intros Hx.
      * destruct (proj1 (Hin x) (or_intror Hx)) as [<- | ?]; [|assumption].
        exfalso. exact (Before_irrefl a (Ha a Hx)).
      * destruct (proj2 (Hin x) (or_intror Hx)) as [<- | ?]; [|assumption].
        exfalso. exact (Before_irrefl a (Hb a Hx)).
Qed.

(** ** The [Set] of tags built by [renderTagFilters] *)

Lemma add_In (s : list string) (x y : string) :
  In y (JS.add s x) <-> In y s \/ y = x.
Proof.
  unfold JS.add. destruct (JS.has s x) eqn:E.
  - apply has_In in E. split; [now left | intros [H | ->]; assumption].
  - rewrite in_app_iff. simpl. intuition.
Qed.

Lemma add_NoDup (s : list string) (x : string) :
  NoDup s -> NoDup (JS.add s x).
Proof.
  intros H. unfold JS.add. destruct (JS.has s x) eqn:E; [assumption|].
  apply NoDup_app; [assumption | repeat constructor; auto |].
  intros a Ha [<- | []].
  apply has_In in Ha. congruence.
Qed.

Lemma addTags_spec (f : string -> string) (ts : list string) (s : list string) :
  NoDup s ->
  NoDup (fold_left (fun set tag => JS.add set (f tag)) ts s)
  /\ forall y, In y (fold_left (fun set tag => JS.add set (f tag)) ts s)
               <-> In y s \/ exists tag, In tag ts /\ y = f tag.
Proof.
  revert s. induction ts as [|t ts IH]; intros s Hs; simpl.
  - split; [assumption|]. intros y. split; [now left|].
    intros [H | (tag & [] & _)]. assumption.
  - destruct (IH (JS.add s (f t)) (add_NoDup _ _ Hs)) as [Hn Hin].
    split; [assumption|]. intros y. rewrite Hin, add_In. split.
    + intros [[H | ->] | (tag & Ht & ->)]; eauto.
    + intros [H | (tag & [<- | Ht] & ->)]; eauto.
Qed.

Lemma allTags_spec (ps : list Archive.Project) (s : list string) :
  NoDup s ->
  let step := fun set project =>
    match Archive.tags project with
    | Some ts =>
        fold_left (fun set tag => JS.add set (JS.trim (JS.toLowerCase tag))) ts set
    | None => set
    end in
  NoDup (fold_left step ps s)
  /\ forall y, In y (fold_left step ps s)
               <-> In y s
                   \/ exists p tag, In p ps /\ Spec.HasTag p tag
                                    /\ y = JS.trim (JS.toLowerCase tag).
Proof.
  intros Hs step. revert s Hs.
  induction ps as [|p ps IH]; intros s Hs; simpl.
  - split; [assumption|]. intros y. split; [now left|].
    intros [H | (p & tag & [] & _)]. assumption.
  - assert (Hstep : NoDup (step s p)
              /\ forall y, In y (step s p)
                   <-> In y s \/ exists tag, Spec.HasTag p tag
                                    /\ y = JS.trim (JS.toLowerCase tag)).
    { unfold step, Spec.HasTag. destruct (Archive.tags p) as [ts|].
      - destruct (addTags_spec (fun tag => JS.trim (JS.toLowerCase tag)) ts s Hs)
          as [Hn Hin].
        split; [assumption|]. intros y. rewrite Hin. split.
        + intros [H | (tag & Ht & ->)]; eauto 6.
        + intros [H | (tag & (ts' & E & Ht) & ->)]; [now left|].
          inversion E; subst. eauto.
      - split; [assumption|]. intros y. split; [now left|].
        intros [H | (tag & (ts & E & _) & _)]; [assumption | discriminate]. }
    destruct Hstep as [Hn1 Hin1].
    destruct (IH _ Hn1) as [Hn Hin].
    split; [assumption|]. intros y. rewrite Hin, Hin1. split.
    + intros [[H | (tag & Ht & ->)] | (q & tag & Hq & Ht & ->)]; eauto 8.
    + intros [H | (q & tag & [<- | Hq] & Ht & ->)]; eauto 8.
Qed.

(** ** The archive page *)

(** C10: for every text [s], [escapeHtml s] contains none of the
    characters [<], [>], the double quote and the single quote. *)
Theorem escapeHtml_no_markup (s : string) :
  ~ Spec.Occurs "<" (Archive.escapeHtml s)
  /\ ~ Spec.Occurs ">" (Archive.escapeHtml s)
  /\ ~ Spec.Occurs Archive.quote (Archive.escapeHtml s)
  /\ ~ Spec.Occurs "'" (Archive.escapeHtml s).
Proof.
  unfold Archive.escapeHtml. repeat split; intros H.
  - peel H. peel H. peel H. peel H. congruence.
  - peel H. peel H. peel H. congruence.
  - peel H. peel H. congruence.
  - peel H. congruence.
Qed.

(** The callback of [filterProjects] decides the two conditions, the tag
    condition on tags that are case-folded and trimmed. *)
Lemma keeps_spec (active : list string) (term : string) (p : Archive.Project) :
  Archive.keeps active term p = true
  <-> Spec.SearchMatch term p
      /\ Spec.TagMatch (fun tag => JS.trim (JS.toLowerCase tag)) active p.
Proof.
  unfold Archive.keeps, Spec.SearchMatch, Spec.TagMatch.
  rewrite andb_true_iff, !orb_true_iff, String.eqb_eq, includes_Substring,
    !someTag_HasTag, Nat.eqb_eq, length_zero_iff_nil.
  assert (E1 : (exists tag, Spec.HasTag p tag
                  /\ JS.includes (JS.toLowerCase tag) term = true)
               <-> exists tag, Spec.HasTag p tag
                  /\ Spec.Substring term (JS.toLowerCase tag)).
  { split; intros (tag & H1 & H2); exists tag; split; try assumption;
      now apply includes_Substring. }
  assert (E2 : (exists tag, Spec.HasTag p tag
                  /\ JS.has active (JS.trim (JS.toLowerCase tag)) = true)
               <-> exists tag, Spec.HasTag p tag
                  /\ In (JS.trim (JS.toLowerCase tag)) active).
  { split; intros (tag & H1 & H2); exists tag; split; try assumption;
      now apply has_In. }
  rewrite E1, E2. tauto.
Qed.

(** C2, amended: [filterProjects] includes a record of the snapshot if
    and only if (1) the search term is empty, or the case-folded title
    contains it, or some case-folded tag contains it, and (2) no tag
    filter is active, or some tag of the record, case-folded and trimmed,
    is an active filter. *)
Theorem filterProjects_includes_iff
    (allProjects : list Archive.Project) (activeTagFilters : list string)
    (searchInput : string) (p : Archive.Project) :
  In p (Archive.filterProjects allProjects activeTagFilters searchInput)
  <-> In p allProjects
      /\ Spec.SearchMatch (Archive.searchTerm searchInput) p
      /\ Spec.TagMatch (fun tag => JS.trim (JS.toLowerCase tag))
                       activeTagFilters p.
Proof.
  unfold Archive.filterProjects. rewrite filter_In, keeps_spec. tauto.
Qed.

(** C8: the tags for which [renderTagFilters] makes a control are the
    tags of all records, each case-folded and trimmed, without
    duplicates, in ascending order: the list equals the vocabulary of the
    design, is strictly ascending, and holds exactly those tags. *)
Theorem renderTagFilters_vocabulary (allProjects : list Archive.Project) :
  Archive.renderTagFilters allProjects = Spec.vocabulary allProjects
  /\ StronglySorted Spec.Before (Archive.renderTagFilters allProjects)
  /\ forall x, In x (Archive.renderTagFilters allProjects)
               <-> exists p tag, In p allProjects /\ Spec.HasTag p tag
                                 /\ x = JS.trim (JS.toLowerCase tag).
Proof.
  destruct (allTags_spec allProjects [] (NoDup_nil _)) as [Hn Hin].
  assert (Hmem : forall x, In x (Archive.renderTagFilters allProjects)
               <-> exists p tag, In p allProjects /\ Spec.HasTag p tag
                                 /\ x = JS.trim (JS.toLowerCase tag)).
  { intros x. unfold Archive.renderTagFilters. rewrite sort_In, Hin.
    simpl. tauto. }
  assert (Hsorted : StronglySorted Spec.Before
                      (Archive.renderTagFilters allProjects)).
  { unfold Archive.renderTagFilters. now apply sort_sorted. }
  split; [|split; assumption].
  apply sorted_unique; [assumption | |].
  - unfold Spec.vocabulary. apply sort_sorted, NoDup_nodup.
  - intros x. rewrite Hmem. unfold Spec.vocabulary.
    rewrite sort_In, nodup_In, in_map_iff. split.
    + intros (p & tag & Hp & (ts & E & Ht) & ->).
      exists tag. split; [reflexivity|].
      apply in_flat_map. exists p. split; [assumption|]. now rewrite E.
    + intros (tag & <- & H). apply in_flat_map in H.
      destruct H as (p & Hp & Ht). exists p, tag.
      split; [assumption|]. split; [|reflexivity].
      unfold Spec.HasTag. destruct (Archive.tags p) as [ts|]; [|destruct Ht].
      now exists ts.
Qed.

(** ** The Express admin server: reading *)

Lemma readProjects_world (w : World) :
  snd (Server.readProjects w) = called ReadFile w.
Proof.
  unfold Server.readProjects.
  destruct (Server.readProjectsTry w) as [ps | code m]; [reflexivity|].
  destruct (match code with Some k => String.eqb k "ENOENT" | None => false end);
    reflexivity.
Qed.

Lemma readProjects_pair (w : World) :
  Server.readProjects w = (Server.listAll w, called ReadFile w).
Proof.
  unfold Server.listAll. rewrite <- readProjects_world.
  now destruct (Server.readProjects w).
Qed.

(** What [listAll] returns depends on the projects file only. *)
Lemma listAll_file (w w' : World) :
  projectsFile w' = projectsFile w -> Server.listAll w' = Server.listAll w.
Proof.
  unfold Server.listAll, Server.readProjects, Server.readProjectsTry.
  intros ->.
  destruct (projectsFile w) as [| |[|[]]]; reflexivity.
Qed.

Lemma listAll_Ok (w : World) (cat : list json) :
  Server.listAll w = Ok cat ->
  (projectsFile w = Absent /\ cat = [])
  \/ projectsFile w = Holds (Parsed (JArr cat)).
Proof.
  unfold Server.listAll, Server.readProjects, Server.readProjectsTry.
  destruct (projectsFile w) as [| |[|[]]]; simpl; intros H;
    inversion H; auto.
Qed.

Lemma listAll_holds (w : World) (cat : list json) :
  projectsFile w = Holds (Parsed (JArr cat)) -> Server.listAll w = Ok cat.
Proof.
  unfold Server.listAll, Server.readProjects, Server.readProjectsTry.
  now intros ->.
Qed.

(** C6, amended: [readProjects] returns the empty catalog when the
    projects file is absent; it fails when the parsed content is not an
    array, when the text is not JSON, and on every other failure of the
    read; it returns the array otherwise, whatever its elements are.
    GET /api/projects answers accordingly. *)
Theorem readProjects_outcomes (w : World) :
  (projectsFile w = Absent ->
     fst (Server.readProjects w) = Ok []
     /\ fst (Server.getProjects w) = Listed [] 0)
  /\ (forall v, projectsFile w = Holds (Parsed v) -> isArray (Some v) = false ->
        fst (Server.readProjects w) = Thrown None "Failed to read projects file"
        /\ status (fst (Server.getProjects w)) = 500)
  /\ (projectsFile w = Holds Garbled ->
        fst (Server.readProjects w) = Thrown None "Failed to read projects file"
        /\ status (fst (Server.getProjects w)) = 500)
  /\ (projectsFile w = Faulty ->
        fst (Server.readProjects w) = Thrown None "Failed to read projects file"
        /\ status (fst (Server.getProjects w)) = 500)
  /\ (forall ps, projectsFile w = Holds (Parsed (JArr ps)) ->
        fst (Server.readProjects w) = Ok ps
        /\ fst (Server.getProjects w) = Listed ps (length ps)).
Proof.
  unfold Server.getProjects, Server.readProjects, Server.readProjectsTry.
  repeat split; intros; try (rewrite H; reflexivity);
    rewrite H; destruct v; try reflexivity; discriminate.
Qed.

(** ** The Express admin server: the two middlewares *)

(** C4, amended: on the Express server, a POST /api/projects or DELETE
    /api/projects/:title request whose body [express.json()] has parsed
    and whose path the router has decoded is answered 401 when its
    Authorization header carries no token and 403 when it carries a token
    other than the secret, whatever handler follows and with no
    file-system call; a request whose body or path is malformed never
    reaches the authentication: the error middleware answers it 500,
    whatever its token.  The serverless add-project function answers 403
    both to a missing and to a wrong token, again with no file-system
    call. *)
Theorem unauthenticated_requests_rejected
    (SECRET_TOKEN : string) (URL : string -> bool)
    (decodeURIComponent : string -> option string) (c : Clock) (w : World) :
  (forall req next,
      Server.truthyText (Server.tokenOf (Server.authorization req)) = false ->
      Server.authenticateToken SECRET_TOKEN req next w
        = (Failure 401 "Access token is required", w)
      /\ status (fst (Server.postRoute SECRET_TOKEN URL c req w)) = 401
      /\ snd (Server.postRoute SECRET_TOKEN URL c req w) = w
      /\ status (fst (Server.deleteRoute SECRET_TOKEN decodeURIComponent c req w)) = 401
      /\ snd (Server.deleteRoute SECRET_TOKEN decodeURIComponent c req w) = w)
  /\ (forall req next t,
      Server.tokenOf (Server.authorization req) = Some t ->
      t <> "" -> t <> SECRET_TOKEN ->
      Server.authenticateToken SECRET_TOKEN req next w
        = (Failure 403 "Invalid access token", w)
      /\ status (fst (Server.postRoute SECRET_TOKEN URL c req w)) = 403
      /\ snd (Server.postRoute SECRET_TOKEN URL c req w) = w
      /\ status (fst (Server.deleteRoute SECRET_TOKEN decodeURIComponent c req w)) = 403
      /\ snd (Server.deleteRoute SECRET_TOKEN decodeURIComponent c req w) = w)
  /\ (forall a members,
      Server.parsedBody a = Some members ->
      Server.truthyText (Server.tokenOf (Server.header a)) = false ->
      Server.post SECRET_TOKEN URL c a w
        = (Failure 401 "Access token is required", w)
      /\ (forall title,
            Server.pathTitle a = Some title ->
            Server.delete SECRET_TOKEN decodeURIComponent c a w
            = (Failure 401 "Access token is required", w)))
  /\ (forall a members t,
      Server.parsedBody a = Some members ->
      Server.tokenOf (Server.header a) = Some t ->
      t <> "" -> t <> SECRET_TOKEN ->
      Server.post SECRET_TOKEN URL c a w
        = (Failure 403 "Invalid access token", w)
      /\ (forall title,
            Server.pathTitle a = Some title ->
            Server.delete SECRET_TOKEN decodeURIComponent c a w
            = (Failure 403 "Invalid access token", w)))
  /\ (forall a,
      Server.parsedBody a = None ->
      Server.post SECRET_TOKEN URL c a w
        = (Failure 500 "Internal server error", w)
      /\ Server.delete SECRET_TOKEN decodeURIComponent c a w
         = (Failure 500 "Internal server error", w))
  /\ (forall a,
      Server.pathTitle a = None ->
      Server.delete SECRET_TOKEN decodeURIComponent c a w
      = (Failure 500 "Internal server error", w))
  /\ (forall event,
      AddFunction.httpMethod event = "POST" ->
      AddFunction.tokenOf (AddFunction.authorization event) <> Some SECRET_TOKEN ->
      AddFunction.handler SECRET_TOKEN c event w
        = (Some (AddFunction.mkReply 403 None), w)).
Proof.
  assert (E401 : forall req k,
            Server.truthyText (Server.tokenOf (Server.authorization req)) = false ->
            Server.authenticateToken SECRET_TOKEN req k w
            = (Failure 401 "Access token is required", w)).
  { intros req k H. unfold Server.authenticateToken. now rewrite H. }
  assert (E403 : forall req k t,
            Server.tokenOf (Server.authorization req) = Some t ->
            t <> "" -> t <> SECRET_TOKEN ->
            Server.authenticateToken SECRET_TOKEN req k w
            = (Failure 403 "Invalid access token", w)).
  { intros req k t Ht N1 N2. unfold Server.authenticateToken. rewrite Ht. simpl.
    apply String.eqb_neq in N1, N2. now rewrite N1, N2. }
  repeat apply conj.
  - intros req next H.
    unfold Server.postRoute, Server.deleteRoute. rewrite !E401 by exact H. auto.
  - intros req next t Ht N1 N2.
    unfold Server.postRoute, Server.deleteRoute.
    rewrite !(E403 _ _ t) by assumption. auto.
  - intros a members Hb H. unfold Server.post, Server.delete. rewrite Hb.
    split.
    + unfold Server.postRoute. now apply E401.
    + intros title ->. unfold Server.deleteRoute. now apply E401.
  - intros a members t Hb Ht N1 N2. unfold Server.post, Server.delete.
    rewrite Hb. split.
    + unfold Server.postRoute. now apply (E403 _ _ t).
    + intros title ->. unfold Server.deleteRoute. now apply (E403 _ _ t).
  - intros a Hb. unfold Server.post, Server.delete. rewrite Hb. auto.
  - intros a Hp. unfold Server.delete. rewrite Hp.
    destruct (Server.parsedBody a); reflexivity.
  - intros event Hm Ht. unfold AddFunction.handler.
    rewrite Hm.
    destruct (AddFunction.tokenOf (AddFunction.authorization event)) as [t|];
      [|reflexivity].
    destruct (String.eqb t SECRET_TOKEN) eqn:Et; [|reflexivity].
    apply String.eqb_eq in Et. congruence.
Qed.

Lemma notText_Unusable (v : value) :
  Server.notText v = true <-> Spec.Unusable v.
Proof.
  unfold Server.notText, Spec.Unusable.
  destruct v as [[| b | n | s | l | ms]|]; simpl;
    try (split; [ intros _; right; left; intros s0; discriminate
                | intros _; now rewrite ?orb_true_r ]).
  rewrite !negb_involutive, orb_false_r, orb_true_iff, !String.eqb_eq. split.
  - intros H. right. right. exists s. split; [reflexivity|].
    destruct H as [-> | H]; [apply JS.trim_nothing | assumption].
  - intros [H | [H | (s' & E & H)]].
    + discriminate.
    + exfalso. now apply (H s).
    + inversion E; subst s'. now right.
Qed.

Lemma notText_usable (s : string) :
  JS.trim s <> "" -> Server.notText (Some (JStr s)) = false.
Proof.
  intros H. destruct (Server.notText (Some (JStr s))) eqn:E; [|reflexivity].
  apply notText_Unusable in E.
  destruct E as [E | [E | (s' & E & E')]].
  - discriminate.
  - exfalso. now apply (E s).
  - inversion E; subst. contradiction.
Qed.

Lemma notText_text (v : value) :
  Server.notText v = false -> exists s, v = Some (JStr s) /\ JS.trim s <> "".
Proof.
  intros H.
  assert (N : ~ Spec.Unusable v).
  { intros U. apply notText_Unusable in U. congruence. }
  destruct v as [[| b | n | s | l | ms]|];
    try (exfalso; apply N; right; left; intros s0; discriminate).
  exists s. split; [reflexivity|].
  intros E. apply N. right. right. eauto.
Qed.

(** A valid candidate passes [validateProject], which hands the trimmed
    title and file and the normalized tags to the next handler. *)
Lemma validateProject_accepts (URL : string -> bool)
    (candidate : list (string * json)) (t f : string)
    (next : list (string * json) -> Server.handler) (w : World) :
  Spec.Valid URL candidate t f ->
  Server.validateProject URL candidate next w
  = next [ ("title", JStr (JS.trim t)); ("file", JStr (JS.trim f));
           ("tags", JArr (Server.normalTags (lookup "tags" candidate))) ] w.
Proof.
  intros (Ht & Nt & Hf & Nf & Hu & Htags).
  unfold Server.validateProject. rewrite Ht, Hf. simpl text.
  rewrite (notText_usable _ Nt), (notText_usable _ Nf), Hu. simpl.
  destruct Htags as [-> | (l & ->)]; reflexivity.
Qed.

(** What [validateProject] does on every body: it either answers 400 and
    leaves the world alone, or it runs the next handler on a body made of
    a trimmed title, a trimmed file and normalized tags. *)
Lemma validateProject_cases (URL : string -> bool)
    (candidate : list (string * json))
    (next : list (string * json) -> Server.handler) (w : World) :
  (exists e, Server.validateProject URL candidate next w = (Failure 400 e, w))
  \/ (exists t f, Spec.Valid URL candidate t f).
Proof.
  unfold Server.validateProject.
  destruct (Server.notText (lookup "title" candidate)) eqn:Et; [left; eauto|].
  destruct (Server.notText (lookup "file" candidate)) eqn:Ef; [left; eauto|].
  destruct (URL (text (lookup "file" candidate))) eqn:Eu; [|left; simpl; eauto].
  simpl.
  apply notText_text in Et, Ef.
  destruct Et as (t & Ht & Nt), Ef as (f & Hf & Nf).
  rewrite Hf in Eu. simpl in Eu.
  destruct (lookup "tags" candidate) as [[| b | n | s | l | ms]|] eqn:Etags; simpl;
    try (left; eauto; fail); right; exists t, f; unfold Spec.Valid;
    rewrite Etags; repeat split; eauto.
Qed.

(** C5: a candidate whose title or file is missing, not a string or
    blank, or whose file does not parse as a URL, is answered 400 by
    [validateProject] whatever handler follows, so [append] answers 400
    without any file-system call and leaves the world, hence the persisted
    catalog, as it was. *)
Theorem invalid_candidate_rejected (URL : string -> bool) (c : Clock)
    (candidate : list (string * json)) (w : World) :
  Spec.Unusable (lookup "title" candidate)
  \/ Spec.Unusable (lookup "file" candidate)
  \/ (exists f, lookup "file" candidate = Some (JStr f) /\ URL f = false) ->
  (forall next, exists e,
      Server.validateProject URL candidate next w = (Failure 400 e, w))
  /\ status (fst (Server.append URL c candidate w)) = 400
  /\ snd (Server.append URL c candidate w) = w
  /\ calls (snd (Server.append URL c candidate w)) = calls w
  /\ Server.listAll (snd (Server.append URL c candidate w)) = Server.listAll w.
Proof.
  intros H.
  assert (E : forall next, exists e,
             Server.validateProject URL candidate next w = (Failure 400 e, w)).
  { intros next. unfold Server.validateProject.
    destruct (Server.notText (lookup "title" candidate)) eqn:Et; [eauto|].
    destruct (Server.notText (lookup "file" candidate)) eqn:Ef; [eauto|].
    destruct H as [H | [H | (f & Hf & Hu)]].
    - apply notText_Unusable in H. congruence.
    - apply notText_Unusable in H. congruence.
    - rewrite Hf. simpl text. rewrite Hu. simpl. eauto. }
  split; [exact E|].
  unfold Server.append. destruct (E (Server.addProject c)) as (e & ->).
  simpl. auto.
Qed.

(** ** The Express admin server: searching the catalog by title *)

Lemma sameTitle_cases (k : string) (p : json) :
  (Sys.sameTitle (Some k) p = None /\ ~ Spec.Titled p)
  \/ (Sys.sameTitle (Some k) p = Some true /\ lowerTitle p = Some k)
  \/ (Sys.sameTitle (Some k) p = Some false /\ Spec.Passed k p).
Proof.
  unfold Sys.sameTitle, Spec.Passed, Spec.Titled, Spec.OtherTitle.
  destruct (lowerTitle p) as [a|].
  - destruct (String.eqb a k) eqn:E.
    + apply String.eqb_eq in E. subst. auto.
    + apply String.eqb_neq in E. right. right.
      split; [reflexivity|]. split; [eauto | congruence].
  - left. split; [reflexivity|]. intros (a & H). discriminate.
Qed.

Lemma find_none (k : string) (ps : list json) :
  Sys.find (Some k) ps = Ok None -> Forall (Spec.Passed k) ps.
Proof.
  induction ps as [|p ps IH]; simpl; intros H; [constructor|].
  destruct (sameTitle_cases k p) as [[E _] | [[E _] | [E Hp]]];
    rewrite E in H; try discriminate.
  constructor; auto.
Qed.

(** [find] reaches a record with the key when the records before it have
    string titles: it returns that record or an earlier one. *)
Lemma find_reaches (k : string) (before after : list json) (p : json) :
  Forall Spec.Titled before -> lowerTitle p = Some k ->
  exists q, Sys.find (Some k) (before ++ p :: after) = Ok (Some q).
Proof.
  intros Hb Hp. induction Hb as [|x before Hx Hb IH]; simpl.
  - destruct (sameTitle_cases k p) as [[E N] | [[E _] | [E [_ N]]]]; rewrite E.
    + exfalso. apply N. now exists k.
    + eauto.
    + contradiction.
  - destruct (sameTitle_cases k x) as [[E N] | [[E _] | [E _]]]; rewrite E.
    + contradiction.
    + eauto.
    + exact IH.
Qed.

Lemma findIndex_none (k : string) (ps : list json) :
  Sys.findIndex (Some k) ps = Ok None -> Forall (Spec.Passed k) ps.
Proof.
  induction ps as [|p ps IH]; simpl; intros H; [constructor|].
  destruct (sameTitle_cases k p) as [[E _] | [[E _] | [E Hp]]];
    rewrite E in H; try discriminate.
  constructor; [assumption|]. apply IH.
  destruct (Sys.findIndex (Some k) ps) as [[i|]|]; congruence.
Qed.

(** [findIndex] returns the place of the first record with the key. *)
Lemma findIndex_found (k : string) (ps : list json) (i : nat) :
  Sys.findIndex (Some k) ps = Ok (Some i) ->
  exists before d after,
    ps = before ++ d :: after /\ length before = i
    /\ lowerTitle d = Some k /\ Forall (Spec.Passed k) before.
Proof.
  revert i. induction ps as [|p ps IH]; simpl; intros i H; [discriminate|].
  destruct (sameTitle_cases k p) as [[E _] | [[E Hp] | [E Hp]]];
    rewrite E in H; try discriminate.
  - inversion H; subst. exists [], p, ps. repeat split; auto.
  - destruct (Sys.findIndex (Some k) ps) as [[j|]|]; try discriminate.
    inversion H; subst.
    destruct (IH j eq_refl) as (b & d & a & -> & <- & Hd & Hb).
    exists (p :: b), d, a. repeat split; auto.
Qed.

Lemma nth_middle_json (before after : list json) (d : json) :
  nth (length before) (before ++ d :: after) JNull = d.
Proof. induction before; simpl; auto. Qed.

Lemma splice1_middle (before after : list json) (d : json) :
  Sys.splice1 (length before) (before ++ d :: after) = before ++ after.
Proof. induction before as [|x b IH]; simpl; [reflexivity | now rewrite IH]. Qed.

Lemma writeProjects_done (ps : list json) (c : Clock) (w : World) :
  (exists m, fst (Server.writeProjects ps c w) = Thrown None m)
  \/ (fst (Server.writeProjects ps c w) = Ok tt
      /\ projectsFile (snd (Server.writeProjects ps c w))
         = Holds (Parsed (JArr ps))).
Proof.
  unfold Server.writeProjects.
  destruct (projectsFile (called WriteFile (Server.backup c w))); simpl;
    eauto; destruct (writable (Server.backup c w)); simpl; eauto.
Qed.

(** ** The Express admin server: adding *)

(** What the handler of POST does once the catalog was read. *)
Lemma addProject_cases (c : Clock) (newProject : list (string * json))
    (w : World) (cat : list json) (k : string) :
  Server.listAll w = Ok cat ->
  lowerTitle (JObj newProject) = Some k ->
  let stored := JObj (assign "createdAt" (JStr (nowISO c)) newProject) in
  (status (fst (Server.addProject c newProject w)) = 500)
  \/ (Server.addProject c newProject w
        = (Failure 409 "Duplicate project", called ReadFile w)
      /\ exists q, Sys.find (Some k) cat = Ok (Some q))
  \/ (fst (Server.addProject c newProject w)
        = Added stored (length (cat ++ [stored]))
      /\ projectsFile (snd (Server.addProject c newProject w))
         = Holds (Parsed (JArr (cat ++ [stored])))
      /\ Forall (Spec.Passed k) cat).
Proof.
  intros Hcat Hk stored. unfold Server.addProject.
  rewrite readProjects_pair, Hcat, Hk.
  destruct (Sys.find (Some k) cat) as [[q|]|] eqn:Ef.
  - right. left. eauto.
  - fold stored.
    destruct (writeProjects_done (cat ++ [stored]) c (called ReadFile w))
      as [(m & E) | (E & Hw)];
      destruct (Server.writeProjects (cat ++ [stored]) c (called ReadFile w))
        as [[u|code m'] w2]; simpl in *; try discriminate.
    + now left.
    + right. right. repeat split; [assumption|]. now apply find_none.
  - now left.
Qed.

Lemma hasTitle_lowerTitle (t : string) (p : json) :
  Spec.hasTitle t p = true -> lowerTitle p = Some (JS.toLowerCase t).
Proof.
  unfold Spec.hasTitle, lowerTitle.
  destruct (member "title" p) as [[| b | n | s | l | ms]|]; try discriminate.
  intros E. apply String.eqb_eq in E. now subst.
Qed.

Lemma filter_none {A : Type} (f : A -> bool) (l : list A) :
  Forall (fun x => f x = false) l -> filter f l = [].
Proof.
  induction 1 as [|x l Hx Hl IH]; simpl; [reflexivity | now rewrite Hx].
Qed.

(** C1, amended: when the catalog on disk holds a record [p] whose
    case-folded title is that of the candidate (the records that come
    before [p] in the catalog being records with a string title), a
    candidate that passes validation is answered 409 by [append], which
    compares the trimmed title, and a candidate with a title and a file
    is answered 409 by the serverless function; in both cases the only
    file-system call is the read, and the persisted catalog is the one
    before the call. *)
Theorem duplicate_title_conflict
    (SECRET_TOKEN : string) (URL : string -> bool) (c : Clock) (w : World)
    (before after : list json) (p : json) (k : string) :
  projectsFile w = Holds (Parsed (JArr (before ++ p :: after))) ->
  Forall Spec.Titled before ->
  lowerTitle p = Some k ->
  (forall candidate t f,
      Spec.Valid URL candidate t f -> JS.toLowerCase (JS.trim t) = k ->
      Server.append URL c candidate w
      = (Failure 409 "Duplicate project", called ReadFile w))
  /\ (forall event newProject,
      AddFunction.httpMethod event = "POST" ->
      AddFunction.tokenOf (AddFunction.authorization event) = Some SECRET_TOKEN ->
      AddFunction.eventBody event = Parsed newProject ->
      lowerTitle newProject = Some k ->
      truthy (member "title" newProject) = true ->
      truthy (member "file" newProject) = true ->
      AddFunction.handler SECRET_TOKEN c event w
      = (Some (AddFunction.mkReply 409 None), called ReadFile w))
  /\ Server.listAll (called ReadFile w) = Server.listAll w
  /\ projectsFile (called ReadFile w) = projectsFile w
  /\ backups (called ReadFile w) = backups w
  /\ calls (called ReadFile w) = ReadFile :: calls w.
Proof.
  intros Hw Ht Hp.
  destruct (find_reaches k before after p Ht Hp) as (q & Hq).
  split; [|split; [|split; [now apply listAll_file | repeat split]]].
  - intros candidate t f Hv Hk. unfold Server.append.
    rewrite (validateProject_accepts _ _ _ _ _ _ Hv).
    unfold Server.addProject.
    rewrite readProjects_pair, (listAll_holds _ _ Hw).
    change (lowerTitle (JObj _)) with (Some (JS.toLowerCase (JS.trim t))).
    now rewrite Hk, Hq.
  - intros event newProject Hm Hauth Hb Hk T1 T2.
    unfold AddFunction.handler.
    rewrite Hm, Hauth, !String.eqb_refl, Hb. simpl negb. cbv iota.
    destruct newProject as [| b | n | s | l | ms]; try discriminate.
    rewrite T1, T2, Hw, Hk, Hq. reflexivity.
Qed.


(** ** The Express admin server: deleting *)

(** What the handler of DELETE does once the title was decoded and the
    catalog read. *)
Lemma deleteProject_cases (decodeURIComponent : string -> option string)
    (c : Clock) (req : Server.Request) (w : World) (t : string)
    (cat : list json) :
  decodeURIComponent (Server.paramTitle req) = Some t ->
  Server.listAll w = Ok cat ->
  (status (fst (Server.deleteProject decodeURIComponent c req w)) = 500)
  \/ (Server.deleteProject decodeURIComponent c req w
        = (Failure 404 "Project not found", called ReadFile w)
      /\ Forall (Spec.Passed (JS.toLowerCase t)) cat)
  \/ (exists before d after,
        cat = before ++ d :: after
        /\ lowerTitle d = Some (JS.toLowerCase t)
        /\ Forall (Spec.Passed (JS.toLowerCase t)) before
        /\ fst (Server.deleteProject decodeURIComponent c req w)
           = Deleted d (length (before ++ after))
        /\ projectsFile (snd (Server.deleteProject decodeURIComponent c req w))
           = Holds (Parsed (JArr (before ++ after)))).
Proof.
  intros Hd Hcat. unfold Server.deleteProject.
  rewrite Hd, readProjects_pair, Hcat.
  destruct (Sys.findIndex (Some (JS.toLowerCase t)) cat) as [[i|]|] eqn:Ef.
  - apply findIndex_found in Ef.
    destruct Ef as (before & d & after & -> & <- & Hk & Hb).
    rewrite nth_middle_json, splice1_middle.
    destruct (writeProjects_done (before ++ after) c (called ReadFile w))
      as [(m & E) | (E & Hw)];
      destruct (Server.writeProjects (before ++ after) c (called ReadFile w))
        as [[u|code m'] w2]; simpl in *; try discriminate.
    + now left.
    + right. right. exists before, d, after. repeat split; assumption.
  - right. left. split; [reflexivity|]. now apply findIndex_none.
  - now left.
Qed.

(** C9: a successful delete removes exactly one record, the first one of
    the catalog whose case-folded title is that of the request; the
    records before and after it are persisted unchanged and in the same
    order; the removed record is returned as [deletedProject], with the
    number of records that are left. *)
Theorem delete_removes_first_match
    (decodeURIComponent : string -> option string) (c : Clock)
    (req : Server.Request) (w : World) (t : string) (cat : list json)
    (d : json) (n : nat) :
  decodeURIComponent (Server.paramTitle req) = Some t ->
  Server.listAll w = Ok cat ->
  fst (Server.deleteProject decodeURIComponent c req w) = Deleted d n ->
  exists before after,
    cat = before ++ d :: after
    /\ lowerTitle d = Some (JS.toLowerCase t)
    /\ Forall (Spec.OtherTitle (JS.toLowerCase t)) before
    /\ Server.listAll (snd (Server.deleteProject decodeURIComponent c req w))
       = Ok (before ++ after)
    /\ n = length cat - 1.
Proof.
  intros Hd Hcat Hr.
  destruct (deleteProject_cases decodeURIComponent c req w t cat Hd Hcat)
    as [E | [[E _] | (before & d' & after & -> & Hk & Hb & E & Hw)]].
  - rewrite Hr in E. discriminate.
  - rewrite E in Hr. discriminate.
  - rewrite E in Hr. inversion Hr; subst d' n.
    exists before, after. repeat split.
    + assumption.
    + eapply Forall_impl; [|exact Hb]. now intros p [_ H].
    + now apply listAll_holds.
    + rewrite !length_app. simpl. lia.
Qed.

(** C3, amended: on a catalog that satisfies the uniqueness invariant,
    when DELETE answers 200 or 404 for the title [t], the catalog read
    afterwards holds no record whose case-folded title is that of [t]. *)
Theorem delete_then_list_has_no_match
    (decodeURIComponent : string -> option string) (c : Clock)
    (req : Server.Request) (w : World) (t : string) (cat : list json) :
  decodeURIComponent (Server.paramTitle req) = Some t ->
  Server.listAll w = Ok cat ->
  Spec.UniqueTitles cat ->
  status (fst (Server.deleteProject decodeURIComponent c req w)) = 200
  \/ status (fst (Server.deleteProject decodeURIComponent c req w)) = 404 ->
  exists cat',
    Server.listAll (snd (Server.deleteProject decodeURIComponent c req w))
    = Ok cat'
    /\ Forall (Spec.OtherTitle (JS.toLowerCase t)) cat'.
Proof.
  intros Hd Hcat [_ Hu] Hs.
  destruct (deleteProject_cases decodeURIComponent c req w t cat Hd Hcat)
    as [E | [[E Hp] | (before & d & after & -> & Hk & Hb & E & Hw)]].
  - rewrite E in Hs. destruct Hs; discriminate.
  - rewrite E. simpl. exists cat. split.
    + rewrite <- Hcat. now apply listAll_file.
    + eapply Forall_impl; [|exact Hp]. now intros p [_ H].
  - exists (before ++ after). split; [now apply listAll_holds|].
    apply Forall_app. split.
    + eapply Forall_impl; [|exact Hb]. now intros p [_ H].
    + rewrite map_app in Hu. simpl in Hu. apply NoDup_remove_2 in Hu.
      apply Forall_forall. intros p Hp Ep. apply Hu.
      apply in_or_app. right. rewrite Hk, <- Ep. now apply in_map.
Qed.

(** ** The mutations succeed when nothing stands in their way *)

Lemma find_passed (k : string) (ps : list json) :
  Forall (Spec.Passed k) ps -> Sys.find (Some k) ps = Ok None.
Proof.
  induction 1 as [|p ps [Ht Hp] Hps IH]; simpl; [reflexivity|].
  destruct (sameTitle_cases k p) as [[E N] | [[E Hk] | [E _]]]; rewrite E.
  - contradiction.
  - contradiction.
  - assumption.
Qed.

Lemma findIndex_middle (k : string) (before after : list json) (d : json) :
  Forall (Spec.Passed k) before -> lowerTitle d = Some k ->
  Sys.findIndex (Some k) (before ++ d :: after) = Ok (Some (length before)).
Proof.
  intros Hb Hd. induction Hb as [|p ps [Ht Hp] Hps IH]; simpl.
  - unfold Sys.sameTitle. now rewrite Hd, String.eqb_refl.
  - destruct (sameTitle_cases k p) as [[E N] | [[E Hk] | [E _]]]; rewrite E.
    + contradiction.
    + contradiction.
    + now rewrite IH.
Qed.

(** The backup leaves the projects file and its access as they are. *)
Lemma backup_frame (c : Clock) (w : World) :
  projectsFile (Server.backup c w) = projectsFile w
  /\ writable (Server.backup c w) = writable w.
Proof.
  unfold Server.backup.
  destruct (projectsFile w) eqn:E; try (split; [exact E | reflexivity]).
  destruct (copyable w); simpl; auto.
Qed.

(** The backup files after the backup: the document the projects file
    held, if any, is copied when the copy can be written. *)
Lemma backup_backups (c : Clock) (w : World) :
  backups (Server.backup c w)
  = match projectsFile w with
    | Holds d => if copyable w then copied (nowMs c) d (backups w)
                 else backups w
    | _ => backups w
    end
  /\ calls (Server.backup c w) = CopyFile :: calls w
  /\ copyable (Server.backup c w) = copyable w.
Proof.
  unfold Server.backup.
  destruct (projectsFile w); try (repeat split; reflexivity).
  destruct (copyable w) eqn:E; repeat split; try reflexivity; exact E.
Qed.

Lemma writeProjects_succeeds (ps : list json) (c : Clock) (w : World) :
  projectsFile w <> Faulty -> writable w = true ->
  fst (Server.writeProjects ps c w) = Ok tt.
Proof.
  intros Hf Hw. unfold Server.writeProjects.
  destruct (backup_frame c w) as [E1 E2].
  change (projectsFile (called WriteFile (Server.backup c w)))
    with (projectsFile (Server.backup c w)).
  change (writable (called WriteFile (Server.backup c w)))
    with (writable (Server.backup c w)).
  rewrite E1, E2, Hw. destruct (projectsFile w); try reflexivity. contradiction.
Qed.

Lemma listAll_not_faulty (w : World) (cat : list json) :
  Server.listAll w = Ok cat -> projectsFile (called ReadFile w) <> Faulty.
Proof.
  intros H. apply listAll_Ok in H. simpl.
  destruct H as [[H _] | H]; rewrite H; discriminate.
Qed.

(** A valid candidate whose case-folded trimmed title is new is added
    whenever the catalog can be read and written. *)
Lemma append_succeeds (URL : string -> bool) (c : Clock)
    (candidate : list (string * json)) (t f : string) (w : World)
    (cat : list json) :
  Spec.Valid URL candidate t f ->
  Server.listAll w = Ok cat ->
  Forall (Spec.Passed (JS.toLowerCase (JS.trim t))) cat ->
  writable w = true ->
  fst (Server.append URL c candidate w)
  = Added (Spec.stored c candidate t f) (length cat + 1).
Proof.
  intros Hv Hcat Hp Hw. unfold Server.append.
  rewrite (validateProject_accepts _ _ _ _ _ _ Hv).
  unfold Server.addProject. rewrite readProjects_pair, Hcat.
  change (lowerTitle (JObj _)) with (Some (JS.toLowerCase (JS.trim t))).
  rewrite (find_passed _ _ Hp).
  pose proof (writeProjects_succeeds
                (cat ++ [Spec.stored c candidate t f]) c (called ReadFile w)
                (listAll_not_faulty _ _ Hcat) Hw) as E.
  change (JObj (assign "createdAt" _ _)) with (Spec.stored c candidate t f).
  destruct (Server.writeProjects _ c (called ReadFile w)) as [[u|code m] w2];
    simpl in E; [|discriminate].
  simpl. now rewrite length_app.
Qed.

(** The record added by a successful [append] keeps the uniqueness
    invariant. *)
Lemma append_keeps_unique (c : Clock) (candidate : list (string * json))
    (t f : string) (cat : list json) :
  Spec.UniqueTitles cat ->
  Forall (Spec.Passed (JS.toLowerCase (JS.trim t))) cat ->
  Spec.UniqueTitles (cat ++ [Spec.stored c candidate t f]).
Proof.
  intros [Ht Hn] Hp. split.
  - apply Forall_app. split; [assumption|].
    repeat constructor. now exists (JS.toLowerCase (JS.trim t)).
  - rewrite map_app. simpl. apply NoDup_app; [assumption | | ].
    + repeat constructor. intros [].
    + intros a Ha [<- | []]. apply in_map_iff in Ha.
      destruct Ha as (p & E & Hin).
      rewrite Forall_forall in Hp. destruct (Hp p Hin) as [_ N].
      apply N. exact E.
Qed.

(** The first record with the title of the request is deleted whenever
    the catalog can be read and written. *)
Lemma delete_succeeds (decodeURIComponent : string -> option string)
    (c : Clock) (req : Server.Request) (w : World) (t : string)
    (before after : list json) (d : json) :
  decodeURIComponent (Server.paramTitle req) = Some t ->
  Server.listAll w = Ok (before ++ d :: after) ->
  Forall (Spec.Passed (JS.toLowerCase t)) before ->
  lowerTitle d = Some (JS.toLowerCase t) ->
  writable w = true ->
  fst (Server.deleteProject decodeURIComponent c req w)
  = Deleted d (length (before ++ after)).
Proof.
  intros Hd Hcat Hb Hk Hw. unfold Server.deleteProject.
  rewrite Hd, readProjects_pair, Hcat, (findIndex_middle _ _ _ _ Hb Hk).
  rewrite nth_middle_json, splice1_middle.
  pose proof (writeProjects_succeeds (before ++ after) c (called ReadFile w)
                (listAll_not_faulty _ _ Hcat) Hw) as E.
  destruct (Server.writeProjects _ c (called ReadFile w)) as [[u|code m] w2];
    simpl in E; [reflexivity | discriminate].
Qed.

End Properties.

(* ================================================================== *)
(** * Part III: further properties of the programs *)
(* ================================================================== *)

Section Further.
Context {platform : JS.Platform}.

(** ** [length] and [split] *)

Lemma length_pos_nonempty (s : string) :
  (0 <? String.length s)%nat = true <-> s <> "".
Proof.
  destruct s; simpl; split; intros H; try reflexivity; try discriminate;
    congruence.
Qed.

(** No part that [split] returns holds the separator. *)
Lemma split_parts_free (sep : ascii) (s : string) :
  Forall (fun part => ~ Spec.Occurs sep part) (JS.split sep s).
Proof.
  unfold Spec.Occurs.
  induction s as [|c r IH]; simpl.
  - repeat constructor. intros [].
  - destruct (Ascii.eqb c sep) eqn:E.
    + constructor; [intros [] | assumption].
    + assert (N : c <> sep) by (intros ->; now rewrite Ascii.eqb_refl in E).
      destruct (JS.split sep r) as [|h t].
      * repeat constructor. simpl. intros [H | []]. contradiction.
      * inversion IH; subst. constructor; [|assumption].
        simpl. intros [H | H]; contradiction.
Qed.

Lemma split_free (sep : ascii) (s : string) :
  ~ Spec.Occurs sep s -> JS.split sep s = [s].
Proof.
  unfold Spec.Occurs. induction s as [|c r IH]; simpl; [reflexivity|].
  intros H. destruct (Ascii.eqb c sep) eqn:E.
  - apply Ascii.eqb_eq in E. exfalso. apply H. now left.
  - rewrite IH; [reflexivity|]. intros Hr. apply H. now right.
Qed.

Lemma split_app (sep : ascii) (a b : string) :
  ~ Spec.Occurs sep a ->
  JS.split sep (a ++ String sep b)%string = a :: JS.split sep b.
Proof.
  unfold Spec.Occurs. induction a as [|c r IH]; simpl.
  - intros _. now rewrite Ascii.eqb_refl.
  - intros H. destruct (Ascii.eqb c sep) eqn:E.
    + apply Ascii.eqb_eq in E. exfalso. apply H. now left.
    + rewrite IH; [reflexivity|]. intros Hr. apply H. now right.
Qed.

(** ** Authentication *)

Lemma tokenOf_free (h : option string) (t : string) :
  Server.tokenOf h = Some t -> Notion.SpaceFree t.
Proof.
  unfold Server.tokenOf, Notion.SpaceFree. destruct h as [h|]; [|discriminate].
  destruct (String.eqb h ""); [intros H; inversion H; intros []|].
  intros H. apply nth_error_In in H.
  pose proof (split_parts_free " " h) as F. rewrite Forall_forall in F.
  now apply F.
Qed.

Lemma tokenOf_scheme (scheme t : string) :
  Notion.SpaceFree scheme -> Notion.SpaceFree t ->
  Server.tokenOf (Some (scheme ++ " " ++ t)%string) = Some t.
Proof.
  intros Hs Ht. unfold Server.tokenOf.
  destruct (String.eqb (scheme ++ " " ++ t) "") eqn:E.
  - apply String.eqb_eq in E. destruct scheme; discriminate.
  - change (scheme ++ " " ++ t)%string with (scheme ++ String " " t)%string.
    now rewrite (split_app " " scheme t Hs), (split_free " " t Ht).
Qed.

(** X1: the first word of the Authorization header is not looked at: a
    request whose header is any word without a space, a space, and the
    secret passes [authenticateToken], which then runs the handler that
    follows, provided the secret is not empty and holds no space. *)
Theorem any_scheme_authenticates (SECRET_TOKEN scheme : string)
    (req : Server.Request) (next : Server.handler) (w : World) :
  Notion.SpaceFree scheme -> Notion.SpaceFree SECRET_TOKEN ->
  SECRET_TOKEN <> "" ->
  Server.authorization req = Some (scheme ++ " " ++ SECRET_TOKEN)%string ->
  Server.authenticateToken SECRET_TOKEN req next w = next w.
Proof.
  intros Hs Ht Hn Hh. unfold Server.authenticateToken.
  rewrite Hh, (tokenOf_scheme _ _ Hs Ht). simpl.
  apply String.eqb_neq in Hn. now rewrite Hn, String.eqb_refl.
Qed.

(** X2: when the configured secret holds a space, no request is ever
    authenticated: the Express middleware answers 401 or 403 whatever the
    header, without running the handler that follows, and the serverless
    function answers 403 to every POST. *)
Theorem secret_with_space_locks_out (SECRET_TOKEN : string) (c : Clock)
    (w : World) :
  Spec.Occurs " " SECRET_TOKEN ->
  (forall req next,
      Server.authenticateToken SECRET_TOKEN req next w
        = (Failure 401 "Access token is required", w)
      \/ Server.authenticateToken SECRET_TOKEN req next w
        = (Failure 403 "Invalid access token", w))
  /\ (forall event,
      AddFunction.httpMethod event = "POST" ->
      AddFunction.handler SECRET_TOKEN c event w
      = (Some (AddFunction.mkReply 403 None), w)).
Proof.
  intros Hsp. split.
  - intros req next. unfold Server.authenticateToken.
    destruct (Server.tokenOf (Server.authorization req)) as [t|] eqn:Et;
      [|now left].
    simpl. destruct (String.eqb t "") eqn:E0; [now left|]. simpl.
    destruct (String.eqb t SECRET_TOKEN) eqn:E; [|now right].
    apply String.eqb_eq in E. subst t.
    exfalso. exact (tokenOf_free _ _ Et Hsp).
  - intros event Hm. unfold AddFunction.handler. rewrite Hm.
    destruct (AddFunction.tokenOf (AddFunction.authorization event)) as [t|] eqn:Et;
      [|reflexivity].
    destruct (String.eqb t SECRET_TOKEN) eqn:E; [|reflexivity].
    apply String.eqb_eq in E. subst t. exfalso.
    unfold AddFunction.tokenOf in Et. apply nth_error_In in Et.
    pose proof (split_parts_free " "
      (match AddFunction.authorization event with
       | Some h => if String.eqb h "" then "" else h
       | None => ""
       end)) as F.
    rewrite Forall_forall in F. exact (F _ Et Hsp).
Qed.

(** ** The Express server: validation *)

(** X3: [validateProject] lets a body through exactly when its title and
    file are strings that are not blank, the file parses as a URL, and
    [tags] is missing or an array; it then hands on the trimmed title,
    the trimmed file and the normalized tags, and nothing else of the
    body.  Every other body, one with [tags] that is not an array
    included, is answered 400 with the world untouched. *)
Theorem validateProject_decides (URL : string -> bool)
    (candidate : list (string * json)) (w : World) :
  (exists t f,
      Spec.Valid URL candidate t f
      /\ forall next,
           Server.validateProject URL candidate next w
           = next [ ("title", JStr (JS.trim t)); ("file", JStr (JS.trim f));
                    ("tags", JArr (Server.normalTags (lookup "tags" candidate))) ]
                  w)
  \/ ((forall t f, ~ Spec.Valid URL candidate t f)
      /\ forall next, exists e,
           Server.validateProject URL candidate next w = (Failure 400 e, w)).
Proof.
  destruct (validateProject_cases URL candidate
              (fun _ w0 => (Failure 500 "", w0)) w) as [(e & E) | (t & f & Hv)].
  - right.
    assert (N : forall t f, ~ Spec.Valid URL candidate t f).
    { intros t f Hv.
      rewrite (validateProject_accepts _ _ _ _ _ _ Hv) in E. discriminate. }
    split; [exact N|]. intros next.
    destruct (validateProject_cases URL candidate next w)
      as [H | (t & f & Hv)]; [exact H | now destruct (N t f)].
  - left. exists t, f. split; [exact Hv|]. intros next.
    now apply validateProject_accepts.
Qed.

Lemma cleanTags_stored (l : list json) :
  Forall Notion.StoredTag (Server.cleanTags l).
Proof.
  unfold Server.cleanTags. induction l as [|tag l IH]; simpl; [constructor|].
  destruct tag as [| b | n | s | l' | ms]; simpl; try exact IH.
  destruct (0 <? String.length (JS.trim s))%nat eqn:E; simpl; [|exact IH].
  constructor; [|exact IH].
  exists (JS.trim s). split; [reflexivity|]. split.
  - now apply length_pos_nonempty.
  - apply JS.trim_twice.
Qed.

Lemma normalTags_stored (v : value) :
  Forall Notion.StoredTag (Server.normalTags v).
Proof.
  unfold Server.normalTags.
  destruct v as [[| b | n | s | l | ms]|]; try constructor.
  apply cleanTags_stored.
Qed.

(** ** The Express server: what a reply tells about the world *)

Lemma backup_two (c : Clock) (w : World) :
  backups (Server.backup c w) = backups w
  \/ exists d, projectsFile w = Holds d
               /\ backups (Server.backup c w) = copied (nowMs c) d (backups w).
Proof.
  rewrite (proj1 (backup_backups c w)).
  destruct (projectsFile w) as [| | d]; auto.
  destruct (copyable w); eauto.
Qed.

(** The two outcomes of [writeProjects]: it throws and the projects file
    is as before, or it returns and the file holds the array; either way
    the backup files are those the backup left. *)
Lemma writeProjects_cases (ps : list json) (c : Clock) (w : World) :
  backups (snd (Server.writeProjects ps c w)) = backups (Server.backup c w)
  /\ calls (snd (Server.writeProjects ps c w)) = WriteFile :: CopyFile :: calls w
  /\ (((exists m, fst (Server.writeProjects ps c w) = Thrown None m)
       /\ projectsFile (snd (Server.writeProjects ps c w)) = projectsFile w)
      \/ (fst (Server.writeProjects ps c w) = Ok tt
          /\ projectsFile (snd (Server.writeProjects ps c w))
             = Holds (Parsed (JArr ps))
          /\ writable (snd (Server.writeProjects ps c w)) = true)).
Proof.
  unfold Server.writeProjects.
  destruct (backup_frame c w) as [E1 E2].
  destruct (backup_backups c w) as (_ & Ec & _).
  change (projectsFile (called WriteFile (Server.backup c w)))
    with (projectsFile (Server.backup c w)).
  change (writable (called WriteFile (Server.backup c w)))
    with (writable (Server.backup c w)).
  rewrite E1, E2.
  destruct (projectsFile w) as [| | d] eqn:Ef; destruct (writable w) eqn:Ew;
    simpl; rewrite ?Ec; (split; [reflexivity|]); (split; [reflexivity|]);
    first [ right; repeat split; reflexivity
          | left; split; [eauto | now rewrite ?E1] ].
Qed.

(** A reply 201 of the handler of POST, read backwards. *)
Lemma addProject_added (c : Clock) (newProject : list (string * json))
    (w : World) (p : json) (n : nat) :
  fst (Server.addProject c newProject w) = Added p n ->
  exists cat,
    Server.listAll w = Ok cat
    /\ p = JObj (assign "createdAt" (JStr (nowISO c)) newProject)
    /\ n = length (cat ++ [p])
    /\ Sys.find (lowerTitle (JObj newProject)) cat = Ok None
    /\ projectsFile (snd (Server.addProject c newProject w))
       = Holds (Parsed (JArr (cat ++ [p])))
    /\ writable (snd (Server.addProject c newProject w)) = true
    /\ backups (snd (Server.addProject c newProject w))
       = match projectsFile w with
         | Holds d => if copyable w then copied (nowMs c) d (backups w)
                      else backups w
         | _ => backups w
         end
    /\ calls (snd (Server.addProject c newProject w))
       = WriteFile :: CopyFile :: ReadFile :: calls w.
Proof.
  unfold Server.addProject. rewrite readProjects_pair.
  destruct (Server.listAll w) as [cat | code m] eqn:Hcat; [|discriminate].
  destruct (Sys.find (lowerTitle (JObj newProject)) cat) as [[q|]|] eqn:Ef;
    try discriminate.
  set (stored := JObj (assign "createdAt" (JStr (nowISO c)) newProject)).
  destruct (writeProjects_cases (cat ++ [stored]) c (called ReadFile w))
    as (Hb & Hc & [((m & E) & _) | (E & Hf & Hw)]);
    rewrite (proj1 (backup_backups c (called ReadFile w))) in Hb;
    destruct (Server.writeProjects (cat ++ [stored]) c (called ReadFile w))
      as [[u|code m'] w2]; simpl in *; try discriminate.
  intros H. inversion H; subst p n. exists cat. repeat split; assumption.
Qed.

(** A reply 200 of the handler of DELETE, read backwards. *)
Lemma deleteProject_deleted (decodeURIComponent : string -> option string)
    (c : Clock) (req : Server.Request) (w : World) (d : json) (n : nat) :
  fst (Server.deleteProject decodeURIComponent c req w) = Deleted d n ->
  exists t before after,
    decodeURIComponent (Server.paramTitle req) = Some t
    /\ Server.listAll w = Ok (before ++ d :: after)
    /\ lowerTitle d = Some (JS.toLowerCase t)
    /\ Forall (Spec.Passed (JS.toLowerCase t)) before
    /\ n = length (before ++ after)
    /\ projectsFile (snd (Server.deleteProject decodeURIComponent c req w))
       = Holds (Parsed (JArr (before ++ after)))
    /\ writable (snd (Server.deleteProject decodeURIComponent c req w)) = true
    /\ backups (snd (Server.deleteProject decodeURIComponent c req w))
       = match projectsFile w with
         | Holds doc => if copyable w then copied (nowMs c) doc (backups w)
                        else backups w
         | _ => backups w
         end
    /\ calls (snd (Server.deleteProject decodeURIComponent c req w))
       = WriteFile :: CopyFile :: ReadFile :: calls w.
Proof.
  unfold Server.deleteProject.
  destruct (decodeURIComponent (Server.paramTitle req)) as [t|] eqn:Hd;
    [|discriminate].
  rewrite readProjects_pair.
  destruct (Server.listAll w) as [cat | code m] eqn:Hcat; [|discriminate].
  destruct (Sys.findIndex (Some (JS.toLowerCase t)) cat) as [[i|]|] eqn:Ef;
    try discriminate.
  apply findIndex_found in Ef.
  destruct Ef as (before & d' & after & -> & <- & Hk & Hb).
  rewrite nth_middle_json, splice1_middle.
  destruct (writeProjects_cases (before ++ after) c (called ReadFile w))
    as (Hbk & Hc & [((m & E) & _) | (E & Hf & Hw)]);
    rewrite (proj1 (backup_backups c (called ReadFile w))) in Hbk;
    destruct (Server.writeProjects (before ++ after) c (called ReadFile w))
      as [[u|code m'] w2]; simpl in *; try discriminate.
  intros H. inversion H; subst d' n.
  exists t, before, after. repeat split; assumption.
Qed.

(** A reply of the POST route that is no failure went through both
    middlewares. *)
Lemma postRoute_added (SECRET_TOKEN : string) (URL : string -> bool)
    (c : Clock) (req : Server.Request) (w : World) (p : json) (n : nat) :
  fst (Server.postRoute SECRET_TOKEN URL c req w) = Added p n ->
  exists t f,
    Spec.Valid URL (Server.body req) t f
    /\ Server.postRoute SECRET_TOKEN URL c req w
       = Server.addProject c
           [ ("title", JStr (JS.trim t)); ("file", JStr (JS.trim f));
             ("tags", JArr (Server.normalTags (lookup "tags" (Server.body req)))) ]
           w.
Proof.
  unfold Server.postRoute, Server.authenticateToken.
  destruct (negb (Server.truthyText (Server.tokenOf (Server.authorization req))));
    [discriminate|].
  destruct (negb (String.eqb _ SECRET_TOKEN)); [discriminate|].
  destruct (validateProject_cases URL (Server.body req) (Server.addProject c) w)
    as [(e & E) | (t & f & Hv)].
  - rewrite E. discriminate.
  - intros _. exists t, f. split; [exact Hv|].
    now apply validateProject_accepts.
Qed.

Lemma deleteRoute_deleted (SECRET_TOKEN : string)
    (decodeURIComponent : string -> option string)
    (c : Clock) (req : Server.Request) (w : World) (d : json) (n : nat) :
  fst (Server.deleteRoute SECRET_TOKEN decodeURIComponent c req w) = Deleted d n ->
  Server.deleteRoute SECRET_TOKEN decodeURIComponent c req w
  = Server.deleteProject decodeURIComponent c req w.
Proof.
  unfold Server.deleteRoute, Server.authenticateToken.
  destruct (negb (Server.truthyText (Server.tokenOf (Server.authorization req))));
    [discriminate|].
  destruct (negb (String.eqb _ SECRET_TOKEN)); [discriminate | reflexivity].
Qed.

(** The three kinds of reply of the handler of POST. *)
Lemma addProject_outcomes (c : Clock) (newProject : list (string * json))
    (w : World) :
  (exists p n, fst (Server.addProject c newProject w) = Added p n)
  \/ Server.addProject c newProject w
     = (Failure 409 "Duplicate project", called ReadFile w)
  \/ (fst (Server.addProject c newProject w) = Failure 500 "Internal server error"
      /\ projectsFile (snd (Server.addProject c newProject w)) = projectsFile w
      /\ (backups (snd (Server.addProject c newProject w)) = backups w
          \/ exists d,
               projectsFile w = Holds d
               /\ backups (snd (Server.addProject c newProject w))
                  = copied (nowMs c) d (backups w))).
Proof.
  unfold Server.addProject. rewrite readProjects_pair.
  destruct (Server.listAll w) as [cat | code m]; [|right; right; auto].
  destruct (Sys.find (lowerTitle (JObj newProject)) cat) as [[q|]|];
    [right; left; reflexivity | | right; right; auto].
  set (stored := JObj (assign "createdAt" (JStr (nowISO c)) newProject)).
  pose proof (backup_two c (called ReadFile w)) as Hb2.
  destruct (writeProjects_cases (cat ++ [stored]) c (called ReadFile w))
    as (Hb & _ & [((m & E) & Hf) | (E & _)]);
    destruct (Server.writeProjects (cat ++ [stored]) c (called ReadFile w))
      as [[u|code m'] w2]; simpl in *; try discriminate.
  - right. right. rewrite Hb. auto.
  - left. eauto.
Qed.

(** The three kinds of reply of the handler of DELETE. *)
Lemma deleteProject_outcomes (decodeURIComponent : string -> option string)
    (c : Clock) (req : Server.Request) (w : World) :
  (exists d n, fst (Server.deleteProject decodeURIComponent c req w) = Deleted d n)
  \/ Server.deleteProject decodeURIComponent c req w
     = (Failure 404 "Project not found", called ReadFile w)
  \/ (fst (Server.deleteProject decodeURIComponent c req w)
        = Failure 500 "Internal server error"
      /\ projectsFile (snd (Server.deleteProject decodeURIComponent c req w))
         = projectsFile w
      /\ (backups (snd (Server.deleteProject decodeURIComponent c req w))
          = backups w
          \/ exists d,
               projectsFile w = Holds d
               /\ backups (snd (Server.deleteProject decodeURIComponent c req w))
                  = copied (nowMs c) d (backups w))).
Proof.
  unfold Server.deleteProject.
  destruct (decodeURIComponent (Server.paramTitle req)) as [t|];
    [|right; right; auto].
  rewrite readProjects_pair.
  destruct (Server.listAll w) as [cat | code m]; [|right; right; auto].
  destruct (Sys.findIndex (Some (JS.toLowerCase t)) cat) as [[i|]|];
    [ | right; left; reflexivity | right; right; auto].
  pose proof (backup_two c (called ReadFile w)) as Hb2.
  destruct (writeProjects_cases (Sys.splice1 i cat) c (called ReadFile w))
    as (Hb & _ & [((m & E) & Hf) | (E & _)]);
    destruct (Server.writeProjects (Sys.splice1 i cat) c (called ReadFile w))
      as [[u|code m'] w2]; simpl in *; try discriminate.
  - right. right. rewrite Hb. auto.
  - left. eauto.
Qed.

(** What [authenticateToken] does, whatever follows it. *)
Lemma authenticateToken_cases (SECRET_TOKEN : string) (req : Server.Request)
    (next : Server.handler) (w : World) :
  Server.authenticateToken SECRET_TOKEN req next w
    = (Failure 401 "Access token is required", w)
  \/ Server.authenticateToken SECRET_TOKEN req next w
    = (Failure 403 "Invalid access token", w)
  \/ Server.authenticateToken SECRET_TOKEN req next w = next w.
Proof.
  unfold Server.authenticateToken.
  destruct (negb (Server.truthyText (Server.tokenOf (Server.authorization req))));
    [now left|].
  destruct (negb (String.eqb _ SECRET_TOKEN)); auto.
Qed.

(** A reply of the POST route is 201, or a 4xx that left the world as it
    was but for the read, or a 500 that left the projects file and at
    most made a backup of it. *)
Lemma postRoute_outcomes (SECRET_TOKEN : string) (URL : string -> bool)
    (c : Clock) (req : Server.Request) (w : World) :
  (exists p n, fst (Server.postRoute SECRET_TOKEN URL c req w) = Added p n)
  \/ (exists st e,
        fst (Server.postRoute SECRET_TOKEN URL c req w) = Failure st e
        /\ (st = 400 \/ st = 401 \/ st = 403 \/ st = 409)
        /\ (snd (Server.postRoute SECRET_TOKEN URL c req w) = w
            \/ snd (Server.postRoute SECRET_TOKEN URL c req w)
               = called ReadFile w))
  \/ (fst (Server.postRoute SECRET_TOKEN URL c req w)
        = Failure 500 "Internal server error"
      /\ projectsFile (snd (Server.postRoute SECRET_TOKEN URL c req w))
         = projectsFile w
      /\ (backups (snd (Server.postRoute SECRET_TOKEN URL c req w)) = backups w
          \/ exists d,
               projectsFile w = Holds d
               /\ backups (snd (Server.postRoute SECRET_TOKEN URL c req w))
                  = copied (nowMs c) d (backups w))).
Proof.
  unfold Server.postRoute.
  destruct (authenticateToken_cases SECRET_TOKEN req
              (Server.validateProject URL (Server.body req) (Server.addProject c)) w)
    as [E | [E | E]]; rewrite E.
  - right. left. exists 401, "Access token is required". simpl. auto 6.
  - right. left. exists 403, "Invalid access token". simpl. auto 6.
  - destruct (validateProject_cases URL (Server.body req) (Server.addProject c) w)
      as [(e & E') | (t & f & Hv)].
    + rewrite E'. right. left. exists 400, e. simpl. auto 6.
    + rewrite (validateProject_accepts _ _ _ _ _ _ Hv).
      destruct (addProject_outcomes c
                  [ ("title", JStr (JS.trim t)); ("file", JStr (JS.trim f));
                    ("tags", JArr (Server.normalTags
                                     (lookup "tags" (Server.body req)))) ] w)
        as [H | [H | H]].
      * now left.
      * rewrite H. right. left. exists 409, "Duplicate project". simpl. auto 6.
      * now right; right.
Qed.

Lemma deleteRoute_outcomes (SECRET_TOKEN : string)
    (decodeURIComponent : string -> option string)
    (c : Clock) (req : Server.Request) (w : World) :
  (exists d n,
      fst (Server.deleteRoute SECRET_TOKEN decodeURIComponent c req w)
      = Deleted d n)
  \/ (exists st e,
        fst (Server.deleteRoute SECRET_TOKEN decodeURIComponent c req w)
        = Failure st e
        /\ (st = 401 \/ st = 403 \/ st = 404)
        /\ (snd (Server.deleteRoute SECRET_TOKEN decodeURIComponent c req w) = w
            \/ snd (Server.deleteRoute SECRET_TOKEN decodeURIComponent c req w)
               = called ReadFile w))
  \/ (fst (Server.deleteRoute SECRET_TOKEN decodeURIComponent c req w)
        = Failure 500 "Internal server error"
      /\ projectsFile (snd (Server.deleteRoute SECRET_TOKEN decodeURIComponent c req w))
         = projectsFile w
      /\ (backups (snd (Server.deleteRoute SECRET_TOKEN decodeURIComponent c req w))
          = backups w
          \/ exists d,
               projectsFile w = Holds d
               /\ backups (snd (Server.deleteRoute SECRET_TOKEN
                                  decodeURIComponent c req w))
                  = copied (nowMs c) d (backups w))).
Proof.
  unfold Server.deleteRoute.
  destruct (authenticateToken_cases SECRET_TOKEN req
              (Server.deleteProject decodeURIComponent c req) w)
    as [E | [E | E]]; rewrite E.
  - right. left. exists 401, "Access token is required". simpl. auto 6.
  - right. left. exists 403, "Invalid access token". simpl. auto 6.
  - destruct (deleteProject_outcomes decodeURIComponent c req w)
      as [H | [H | H]].
    + now left.
    + rewrite H. right. left. exists 404, "Project not found". simpl. auto 6.
    + now right; right.
Qed.

(** ** The Express server: invariants of the store *)

(** X4: a record that POST /api/projects adds has exactly four members:
    a title and a file that are strings, not empty and without white
    space at either end, a [tags] array of strings that are not empty and
    trimmed, and the [createdAt] read from the clock; whatever else the
    request body held, a [createdAt] of its own included, is dropped. *)
Theorem added_record_is_well_formed (SECRET_TOKEN : string)
    (URL : string -> bool) (c : Clock) (req : Server.Request) (w : World)
    (p : json) (n : nat) :
  fst (Server.postRoute SECRET_TOKEN URL c req w) = Added p n ->
  exists t f l,
    p = JObj [ ("title", JStr t); ("file", JStr f); ("tags", JArr l);
               ("createdAt", JStr (nowISO c)) ]
    /\ t <> "" /\ Notion.Trimmed t
    /\ f <> "" /\ Notion.Trimmed f
    /\ Forall Notion.StoredTag l.
Proof.
  intros H.
  destruct (postRoute_added _ _ _ _ _ _ _ H) as (t & f & Hv & E).
  rewrite E in H. apply addProject_added in H.
  destruct H as (cat & _ & Hp & _).
  destruct Hv as (_ & Nt & _ & Nf & _).
  exists (JS.trim t), (JS.trim f),
         (Server.normalTags (lookup "tags" (Server.body req))).
  split; [exact Hp|].
  split; [exact Nt|]. split; [apply JS.trim_twice|].
  split; [exact Nf|]. split; [apply JS.trim_twice|].
  apply normalTags_stored.
Qed.

Lemma UniqueTitles_remove (before after : list json) (d : json) :
  Spec.UniqueTitles (before ++ d :: after) -> Spec.UniqueTitles (before ++ after).
Proof.
  intros [Ht Hn]. split.
  - apply Forall_app in Ht. destruct Ht as [Hb Ha]. inversion Ha; subst.
    apply Forall_app. now split.
  - rewrite map_app in *. simpl in Hn. now apply NoDup_remove_1 in Hn.
Qed.

(** X5: the two mutating routes keep the uniqueness invariant: when the
    catalog on disk has string titles, no two of them equal up to case,
    then after any POST or DELETE request that is not answered 500 the
    catalog on disk is again such a catalog. *)
Theorem routes_keep_unique_titles (SECRET_TOKEN : string)
    (URL : string -> bool) (decodeURIComponent : string -> option string)
    (c : Clock) (req : Server.Request) (w : World) (cat : list json) :
  Server.listAll w = Ok cat ->
  Spec.UniqueTitles cat ->
  (status (fst (Server.postRoute SECRET_TOKEN URL c req w)) <> 500 ->
   exists cat',
     Server.listAll (snd (Server.postRoute SECRET_TOKEN URL c req w)) = Ok cat'
     /\ Spec.UniqueTitles cat')
  /\ (status (fst (Server.deleteRoute SECRET_TOKEN decodeURIComponent c req w))
        <> 500 ->
      exists cat',
        Server.listAll
          (snd (Server.deleteRoute SECRET_TOKEN decodeURIComponent c req w))
        = Ok cat'
        /\ Spec.UniqueTitles cat').
Proof.
  intros Hcat Hu. split; intros Hs.
  - destruct (postRoute_outcomes SECRET_TOKEN URL c req w)
      as [(p & n & H) | [(st & e & H & _ & Hw) | (H & _)]].
    + destruct (postRoute_added _ _ _ _ _ _ _ H) as (t & f & Hv & E).
      rewrite E in *. apply addProject_added in H.
      destruct H as (cat0 & Hcat0 & Hp & _ & Hfind & Hfile & _).
      assert (cat0 = cat) by congruence. subst cat0.
      exists (cat ++ [p]). split; [now apply listAll_holds|].
      change (lowerTitle (JObj _)) with (Some (JS.toLowerCase (JS.trim t)))
        in Hfind.
      apply find_none in Hfind. subst p.
      exact (append_keeps_unique c (Server.body req) t f cat Hu Hfind).
    + exists cat. split; [|exact Hu].
      destruct Hw as [-> | ->]; [exact Hcat|].
      rewrite <- Hcat. now apply listAll_file.
    + rewrite H in Hs. now destruct Hs.
  - destruct (deleteRoute_outcomes SECRET_TOKEN decodeURIComponent c req w)
      as [(d & n & H) | [(st & e & H & _ & Hw) | (H & _)]].
    + pose proof (deleteRoute_deleted _ _ _ _ _ _ _ H) as E. rewrite E in *.
      apply deleteProject_deleted in H.
      destruct H as (t & before & after & _ & Hcat0 & _ & _ & _ & Hfile & _).
      assert (cat = before ++ d :: after) by congruence. subst cat.
      exists (before ++ after). split; [now apply listAll_holds|].
      now apply UniqueTitles_remove in Hu.
    + exists cat. split; [|exact Hu].
      destruct Hw as [-> | ->]; [exact Hcat|].
      rewrite <- Hcat. now apply listAll_file.
    + rewrite H in Hs. now destruct Hs.
Qed.

(** X6: a POST or DELETE request that is answered with a 4xx status has
    changed nothing: the world after it is the world before, or differs
    by one recorded read; the projects file and the backups are the same
    and no copy or write was attempted. *)
Theorem client_errors_change_nothing (SECRET_TOKEN : string)
    (URL : string -> bool) (decodeURIComponent : string -> option string)
    (c : Clock) (req : Server.Request) (w : World) :
  (400 <= status (fst (Server.postRoute SECRET_TOKEN URL c req w)) < 500 ->
   snd (Server.postRoute SECRET_TOKEN URL c req w) = w
   \/ snd (Server.postRoute SECRET_TOKEN URL c req w) = called ReadFile w)
  /\ (400 <= status (fst (Server.deleteRoute SECRET_TOKEN decodeURIComponent
                            c req w)) < 500 ->
      snd (Server.deleteRoute SECRET_TOKEN decodeURIComponent c req w) = w
      \/ snd (Server.deleteRoute SECRET_TOKEN decodeURIComponent c req w)
         = called ReadFile w).
Proof.
  split; intros Hs.
  - destruct (postRoute_outcomes SECRET_TOKEN URL c req w)
      as [(p & n & H) | [(st & e & H & _ & Hw) | (H & _)]];
      [rewrite H in Hs; simpl in Hs; lia | exact Hw
      | rewrite H in Hs; simpl in Hs; lia].
  - destruct (deleteRoute_outcomes SECRET_TOKEN decodeURIComponent c req w)
      as [(d & n & H) | [(st & e & H & _ & Hw) | (H & _)]];
      [rewrite H in Hs; simpl in Hs; lia | exact Hw
      | rewrite H in Hs; simpl in Hs; lia].
Qed.

(** X7: a successful POST or DELETE makes three file-system calls, the
    read, the backup copy and the write, in this order; the backup files
    after it are those before it, or those before it with one copy
    written under the name the clock gives: the copy holds the document
    that was in the projects file before the request, never the one the
    request writes, it takes the place of a backup of the same name if
    there was one, and every backup under another name is kept as it
    was. *)
Theorem success_backs_up_first (SECRET_TOKEN : string)
    (URL : string -> bool) (decodeURIComponent : string -> option string)
    (c : Clock) (req : Server.Request) (w : World) :
  (status (fst (Server.postRoute SECRET_TOKEN URL c req w)) = 201 ->
   calls (snd (Server.postRoute SECRET_TOKEN URL c req w))
   = WriteFile :: CopyFile :: ReadFile :: calls w
   /\ (backups (snd (Server.postRoute SECRET_TOKEN URL c req w)) = backups w
       \/ exists d,
            projectsFile w = Holds d
            /\ backups (snd (Server.postRoute SECRET_TOKEN URL c req w))
               = (nowMs c, d)
                 :: filter (fun b => negb (Z.eqb (fst b) (nowMs c))) (backups w)))
  /\ (status (fst (Server.deleteRoute SECRET_TOKEN decodeURIComponent c req w))
        = 200 ->
      calls (snd (Server.deleteRoute SECRET_TOKEN decodeURIComponent c req w))
      = WriteFile :: CopyFile :: ReadFile :: calls w
      /\ (backups (snd (Server.deleteRoute SECRET_TOKEN decodeURIComponent c req w))
          = backups w
          \/ exists d,
               projectsFile w = Holds d
               /\ backups (snd (Server.deleteRoute SECRET_TOKEN
                                  decodeURIComponent c req w))
                  = (nowMs c, d)
                    :: filter (fun b => negb (Z.eqb (fst b) (nowMs c)))
                              (backups w))).
Proof.
  split; intros Hs.
  - destruct (postRoute_outcomes SECRET_TOKEN URL c req w)
      as [(p & n & H) | [(st & e & H & Hst & _) | (H & _)]].
    + destruct (postRoute_added _ _ _ _ _ _ _ H) as (t & f & Hv & E).
      rewrite E in *. apply addProject_added in H.
      destruct H as (cat0 & _ & _ & _ & _ & _ & _ & Hb & Hc).
      split; [exact Hc|]. rewrite Hb.
      destruct (projectsFile w) as [| | d]; auto.
      destruct (copyable w); eauto.
    + rewrite H in Hs. simpl in Hs. lia.
    + rewrite H in Hs. discriminate.
  - destruct (deleteRoute_outcomes SECRET_TOKEN decodeURIComponent c req w)
      as [(d & n & H) | [(st & e & H & Hst & _) | (H & _)]].
    + pose proof (deleteRoute_deleted _ _ _ _ _ _ _ H) as E. rewrite E in *.
      apply deleteProject_deleted in H.
      destruct H as (t & before & after & _ & _ & _ & _ & _ & _ & _ & Hb & Hc).
      split; [exact Hc|]. rewrite Hb.
      destruct (projectsFile w) as [| | doc]; auto.
      destruct (copyable w); eauto.
    + rewrite H in Hs. simpl in Hs. lia.
    + rewrite H in Hs. discriminate.
Qed.

(** X8: the [totalProjects] of a successful POST or DELETE is the [count]
    that GET /api/projects answers next; after a POST the added record
    is the last one listed. *)
Theorem total_agrees_with_next_list (SECRET_TOKEN : string)
    (URL : string -> bool) (decodeURIComponent : string -> option string)
    (c : Clock) (req : Server.Request) (w : World) :
  (forall p n,
      fst (Server.postRoute SECRET_TOKEN URL c req w) = Added p n ->
      exists cat,
        fst (Server.getProjects (snd (Server.postRoute SECRET_TOKEN URL c req w)))
        = Listed (cat ++ [p]) n)
  /\ (forall d n,
      fst (Server.deleteRoute SECRET_TOKEN decodeURIComponent c req w)
      = Deleted d n ->
      exists cat,
        fst (Server.getProjects
               (snd (Server.deleteRoute SECRET_TOKEN decodeURIComponent c req w)))
        = Listed cat n).
Proof.
  split.
  - intros p n H.
    destruct (postRoute_added _ _ _ _ _ _ _ H) as (t & f & Hv & E).
    rewrite E in *. apply addProject_added in H.
    destruct H as (cat & _ & _ & Hn & _ & Hf & _).
    exists cat. unfold Server.getProjects.
    rewrite readProjects_pair, (listAll_holds _ _ Hf). simpl. now rewrite Hn.
  - intros d n H.
    pose proof (deleteRoute_deleted _ _ _ _ _ _ _ H) as E. rewrite E in *.
    apply deleteProject_deleted in H.
    destruct H as (t & before & after & _ & _ & _ & _ & Hn & Hf & _).
    exists (before ++ after). unfold Server.getProjects.
    rewrite readProjects_pair, (listAll_holds _ _ Hf). simpl. now rewrite Hn.
Qed.

Lemma delete_succeeds_file (decodeURIComponent : string -> option string)
    (c : Clock) (req : Server.Request) (w : World) (t : string)
    (before after : list json) (d : json) :
  decodeURIComponent (Server.paramTitle req) = Some t ->
  Server.listAll w = Ok (before ++ d :: after) ->
  Forall (Spec.Passed (JS.toLowerCase t)) before ->
  lowerTitle d = Some (JS.toLowerCase t) ->
  writable w = true ->
  projectsFile (snd (Server.deleteProject decodeURIComponent c req w))
  = Holds (Parsed (JArr (before ++ after))).
Proof.
  intros Hd Hcat Hb Hk Hw. unfold Server.deleteProject.
  rewrite Hd, readProjects_pair, Hcat, (findIndex_middle _ _ _ _ Hb Hk).
  rewrite nth_middle_json, splice1_middle.
  pose proof (writeProjects_succeeds (before ++ after) c (called ReadFile w)
                (listAll_not_faulty _ _ Hcat) Hw) as E.
  destruct (writeProjects_cases (before ++ after) c (called ReadFile w))
    as (_ & _ & [((m & E') & _) | (_ & Hf & _)]); [congruence|].
  destruct (Server.writeProjects _ c (called ReadFile w)) as [[u|code m] w2];
    simpl in *; [exact Hf | discriminate].
Qed.

(** X9: appending and then deleting is a round trip: after a successful
    [append] of a candidate with title [t], a DELETE for any title equal
    to the trimmed [t] up to case that is not answered 500 returns the
    record that was added and leaves on disk exactly the catalog that was
    there before the two calls. *)
Theorem append_then_delete_restores (URL : string -> bool)
    (decodeURIComponent : string -> option string) (c c' : Clock)
    (candidate : list (string * json)) (t f t' : string)
    (req : Server.Request) (w : World) (cat : list json) :
  lookup "title" candidate = Some (JStr t) ->
  lookup "file" candidate = Some (JStr f) ->
  Server.listAll w = Ok cat ->
  status (fst (Server.append URL c candidate w)) = 201 ->
  decodeURIComponent (Server.paramTitle req) = Some t' ->
  JS.toLowerCase t' = JS.toLowerCase (JS.trim t) ->
  status (fst (Server.deleteProject decodeURIComponent c' req
                 (snd (Server.append URL c candidate w)))) <> 500 ->
  fst (Server.deleteProject decodeURIComponent c' req
         (snd (Server.append URL c candidate w)))
  = Deleted (Spec.stored c candidate t f) (length cat)
  /\ Server.listAll
       (snd (Server.deleteProject decodeURIComponent c' req
               (snd (Server.append URL c candidate w))))
     = Ok cat.
Proof.
  intros Ht Hf Hcat Hs Hd Hk _. unfold Server.append in *.
  destruct (validateProject_cases URL candidate (Server.addProject c) w)
    as [(e & E) | (t0 & f0 & Hv)].
  { rewrite E in Hs. discriminate. }
  assert (Et : t0 = t) by (destruct Hv as (H & _); congruence).
  assert (Ef : f0 = f) by (destruct Hv as (_ & _ & H & _); congruence).
  subst t0 f0.
  rewrite (validateProject_accepts _ _ _ _ _ _ Hv) in *.
  set (body := [ ("title", JStr (JS.trim t)); ("file", JStr (JS.trim f));
                 ("tags", JArr (Server.normalTags (lookup "tags" candidate))) ])
    in *.
  destruct (addProject_outcomes c body w) as [(p & n & H) | [H | (H & _)]];
    [ | rewrite H in Hs; discriminate | rewrite H in Hs; discriminate ].
  apply addProject_added in H.
  destruct H as (cat0 & Hcat0 & Hp & _ & Hfind & Hfile & Hw & _).
  assert (cat0 = cat) by congruence. subst cat0.
  change (lowerTitle (JObj body)) with (Some (JS.toLowerCase (JS.trim t)))
    in Hfind.
  apply find_none in Hfind. rewrite <- Hk in Hfind.
  change (JObj (assign "createdAt" (JStr (nowISO c)) body))
    with (Spec.stored c candidate t f) in Hp. subst p.
  set (w1 := snd (Server.addProject c body w)) in *.
  assert (Hl : Server.listAll w1
               = Ok (cat ++ Spec.stored c candidate t f :: []))
    by now apply listAll_holds.
  assert (Hk' : lowerTitle (Spec.stored c candidate t f)
                = Some (JS.toLowerCase t')).
  { rewrite Hk. reflexivity. }
  split.
  - rewrite (delete_succeeds decodeURIComponent c' req w1 t' cat []
               (Spec.stored c candidate t f) Hd Hl Hfind Hk' Hw).
    now rewrite app_nil_r.
  - apply listAll_holds.
    rewrite (delete_succeeds_file decodeURIComponent c' req w1 t' cat []
               (Spec.stored c candidate t f) Hd Hl Hfind Hk' Hw).
    now rewrite app_nil_r.
Qed.

(** X10: when the first record of the catalog has no string title, GET
    still lists the catalog, but every [append] of a valid candidate and
    every DELETE is answered 500 after the read, and nothing is written:
    the comparison of titles throws on that record. *)
Theorem untitled_first_record_blocks_mutations (w : World) (p : json)
    (rest : list json) :
  Server.listAll w = Ok (p :: rest) ->
  ~ Spec.Titled p ->
  fst (Server.getProjects w) = Listed (p :: rest) (S (length rest))
  /\ (forall URL c candidate t f,
        Spec.Valid URL candidate t f ->
        Server.append URL c candidate w
        = (Failure 500 "Internal server error", called ReadFile w))
  /\ (forall decodeURIComponent c req t,
        decodeURIComponent (Server.paramTitle req) = Some t ->
        Server.deleteProject decodeURIComponent c req w
        = (Failure 500 "Internal server error", called ReadFile w)).
Proof.
  intros Hcat Hp.
  assert (E : forall k, Sys.sameTitle k p = None).
  { intros k. unfold Sys.sameTitle.
    destruct (lowerTitle p) as [a|] eqn:Ea; [|reflexivity].
    exfalso. apply Hp. now exists a. }
  split; [|split].
  - unfold Server.getProjects. now rewrite readProjects_pair, Hcat.
  - intros URL c candidate t f Hv. unfold Server.append.
    rewrite (validateProject_accepts _ _ _ _ _ _ Hv).
    unfold Server.addProject. rewrite readProjects_pair, Hcat.
    simpl Sys.find. now rewrite E.
  - intros dec c req t Hd. unfold Server.deleteProject.
    rewrite Hd, readProjects_pair, Hcat. simpl Sys.findIndex. now rewrite E.
Qed.

(** ** The serverless functions *)

Lemma lookup_assign_same (k : string) (v : json) (ms : list (string * json)) :
  lookup k (assign k v ms) = Some v.
Proof.
  induction ms as [|[k' v'] ms IH]; simpl.
  - now rewrite String.eqb_refl.
  - destruct (String.eqb k k') eqn:E; simpl.
    + now rewrite String.eqb_refl.
    + now rewrite E.
Qed.

Lemma lookup_assign_other (k k' : string) (v : json)
    (ms : list (string * json)) :
  k' <> k -> lookup k' (assign k v ms) = lookup k' ms.
Proof.
  intros N. induction ms as [|[k0 v0] ms IH]; simpl.
  - apply String.eqb_neq in N. now rewrite N.
  - destruct (String.eqb k k0) eqn:E; simpl.
    + apply String.eqb_eq in E. subst k0.
      apply String.eqb_neq in N. now rewrite N.
    + now rewrite IH.
Qed.

(** The record the serverless function keeps for the object [ms]. *)
Lemma kept_members (c : Clock) (ms : list (string * json)) (tags : json) :
  let ms2 := assign "createdAt" (JStr (nowISO c)) (assign "tags" tags ms) in
  lookup "createdAt" ms2 = Some (JStr (nowISO c))
  /\ lookup "tags" ms2 = Some tags
  /\ lookup "title" ms2 = lookup "title" ms
  /\ lookup "file" ms2 = lookup "file" ms.
Proof.
  cbv zeta. repeat split.
  - apply lookup_assign_same.
  - rewrite lookup_assign_other by discriminate. apply lookup_assign_same.
  - rewrite !lookup_assign_other by discriminate. reflexivity.
  - rewrite !lookup_assign_other by discriminate. reflexivity.
Qed.

(** All the ways [exports.handler] of the add function can end. *)
Lemma addFunction_outcomes (SECRET_TOKEN : string) (c : Clock)
    (event : AddFunction.Event) (w : World) :
  (exists st, (st = 405 \/ st = 403 \/ st = 400)
      /\ AddFunction.handler SECRET_TOKEN c event w
         = (Some (AddFunction.mkReply st None), w))
  \/ AddFunction.handler SECRET_TOKEN c event w = (None, w)
  \/ (exists st, (st = 409 \/ st = 500)
      /\ AddFunction.handler SECRET_TOKEN c event w
         = (Some (AddFunction.mkReply st None), called ReadFile w))
  \/ (AddFunction.handler SECRET_TOKEN c event w
      = (Some (AddFunction.mkReply 500 None),
         called WriteFile (called ReadFile w))
      /\ writable w = false)
  \/ (exists ms cat tags,
        AddFunction.eventBody event = Parsed (JObj ms)
        /\ truthy (lookup "title" ms) = true
        /\ truthy (lookup "file" ms) = true
        /\ projectsFile w = Holds (Parsed (JArr cat))
        /\ Sys.find (lowerTitle (JObj ms)) cat = Ok None
        /\ truthy (Some tags) = true
        /\ (truthy (lookup "tags" ms) = true -> lookup "tags" ms = Some tags)
        /\ (truthy (lookup "tags" ms) = false -> tags = JArr [])
        /\ let p := JObj (assign "createdAt" (JStr (nowISO c))
                            (assign "tags" tags ms)) in
           AddFunction.handler SECRET_TOKEN c event w
           = (Some (AddFunction.mkReply 201 (Some p)),
              mkWorld (Holds (Parsed (JArr (cat ++ [p])))) true (backups w)
                      (WriteFile :: ReadFile :: calls w) (copyable w))).
Proof.
  unfold AddFunction.handler.
  destruct (negb (String.eqb (AddFunction.httpMethod event) "POST"));
    [left; exists 405; auto|].
  destruct (negb match AddFunction.tokenOf (AddFunction.authorization event) with
                 | Some t => String.eqb t SECRET_TOKEN
                 | None => false
                 end); [left; exists 403; auto|].
  destruct (AddFunction.eventBody event) as [|newProject] eqn:Eb;
    [left; exists 400; auto|].
  destruct newProject as [| b | n | s | l | ms];
    try (left; exists 400; split; [auto | reflexivity]);
    [right; left; reflexivity|].
  simpl member.
  destruct (truthy (lookup "title" ms)) eqn:T1; [|left; exists 400; auto].
  destruct (truthy (lookup "file" ms)) eqn:T2; [|left; exists 400; auto].
  simpl negb. cbv iota. simpl orb. cbv iota.
  destruct (projectsFile w) as [| | [|[| b | n | s | cat | ms']]] eqn:Ef;
    try (right; right; left; exists 500; split; [auto | reflexivity]).
  destruct (Sys.find (lowerTitle (JObj ms)) cat) as [[q|]|] eqn:Efind;
    [ right; right; left; exists 409; split; [auto | reflexivity]
    | | right; right; left; exists 500; split; [auto | reflexivity] ].
  change (writable (called WriteFile (called ReadFile w))) with (writable w).
  destruct (writable w) eqn:Ew.
  - right. right. right. right.
    destruct (truthy (lookup "tags" ms)) eqn:T3.
    + destruct (lookup "tags" ms) as [v|] eqn:El; [|discriminate].
      exists ms, cat, v. repeat split; auto; try discriminate.
      intros H. rewrite El in H. congruence.
    + exists ms, cat, (JArr []). repeat split; auto; try discriminate.
      intros H. congruence.
  - right. right. right. left. split; reflexivity.
Qed.

(** X11: the serverless add function never makes a backup and never
    copies a file: whatever the event, the backups are those it found,
    and its file-system calls are none, one read, or one read followed by
    one write. *)
Theorem addFunction_never_backs_up (SECRET_TOKEN : string) (c : Clock)
    (event : AddFunction.Event) (w : World) :
  backups (snd (AddFunction.handler SECRET_TOKEN c event w)) = backups w
  /\ (calls (snd (AddFunction.handler SECRET_TOKEN c event w)) = calls w
      \/ calls (snd (AddFunction.handler SECRET_TOKEN c event w))
         = ReadFile :: calls w
      \/ calls (snd (AddFunction.handler SECRET_TOKEN c event w))
         = WriteFile :: ReadFile :: calls w).
Proof.
  destruct (addFunction_outcomes SECRET_TOKEN c event w)
    as [(st & _ & E) | [E | [(st & _ & E) | [(E & _)
       | (ms & cat & tags & _ & _ & _ & _ & _ & _ & _ & _ & E)]]]];
    rewrite E; simpl; auto.
Qed.


(** X13: the serverless add function does not ask for a string title.  A
    body whose title is truthy and not a string is added when the
    catalog is empty, and the record it adds has no string title; when
    the catalog holds a record, the same request is answered 500 after
    the read, the comparison of titles having thrown. *)
Theorem addFunction_title_not_checked (SECRET_TOKEN : string) (c : Clock)
    (event : AddFunction.Event) (w : World) (ms : list (string * json)) :
  AddFunction.httpMethod event = "POST" ->
  AddFunction.tokenOf (AddFunction.authorization event) = Some SECRET_TOKEN ->
  AddFunction.eventBody event = Parsed (JObj ms) ->
  truthy (lookup "title" ms) = true ->
  truthy (lookup "file" ms) = true ->
  isString (lookup "title" ms) = false ->
  writable w = true ->
  (projectsFile w = Holds (Parsed (JArr [])) ->
   exists p,
     fst (AddFunction.handler SECRET_TOKEN c event w)
     = Some (AddFunction.mkReply 201 (Some p))
     /\ projectsFile (snd (AddFunction.handler SECRET_TOKEN c event w))
        = Holds (Parsed (JArr [p]))
     /\ ~ Spec.Titled p)
  /\ (forall q rest,
        projectsFile w = Holds (Parsed (JArr (q :: rest))) ->
        AddFunction.handler SECRET_TOKEN c event w
        = (Some (AddFunction.mkReply 500 None), called ReadFile w)).
Proof.
  intros Hm Ha Hb T1 T2 Hs Hw.
  assert (Hk : lowerTitle (JObj ms) = None).
  { unfold lowerTitle. simpl.
    destruct (lookup "title" ms) as [[| b | n | s | l | ms0]|];
      try reflexivity; discriminate. }
  split.
  - intros Hf. unfold AddFunction.handler.
    rewrite Hm, Ha, !String.eqb_refl, Hb. simpl negb. cbv iota.
    simpl member. rewrite T1, T2, Hf. simpl.
    rewrite Hw. eexists. split; [reflexivity|]. split; [reflexivity|].
    intros (a & H). unfold lowerTitle in H. simpl in H.
    rewrite !lookup_assign_other in H by discriminate.
    unfold lowerTitle in Hk. simpl in Hk. rewrite Hk in H. discriminate.
  - intros q rest Hf. unfold AddFunction.handler.
    rewrite Hm, Ha, !String.eqb_refl, Hb. simpl negb. cbv iota.
    simpl member. rewrite T1, T2, Hf, Hk. simpl.
    unfold Sys.sameTitle. now destruct (lowerTitle q).
Qed.

(** X14: how each entry point treats a projects file that does not
    exist.  On the Express server GET lists nothing, DELETE answers 404
    without creating the file, and a valid [append] creates the file with
    the one record and makes no backup.  The serverless add function
    never creates the file and never answers 201, and the serverless list
    function answers 500. *)
Theorem missing_projects_file (w : World) :
  projectsFile w = Absent ->
  fst (Server.getProjects w) = Listed [] 0
  /\ (forall decodeURIComponent c req t,
        decodeURIComponent (Server.paramTitle req) = Some t ->
        Server.deleteProject decodeURIComponent c req w
        = (Failure 404 "Project not found", called ReadFile w))
  /\ (forall URL c candidate t f,
        Spec.Valid URL candidate t f -> writable w = true ->
        fst (Server.append URL c candidate w)
          = Added (Spec.stored c candidate t f) 1
        /\ projectsFile (snd (Server.append URL c candidate w))
           = Holds (Parsed (JArr [Spec.stored c candidate t f]))
        /\ backups (snd (Server.append URL c candidate w)) = backups w)
  /\ (forall SECRET_TOKEN c event,
        projectsFile (snd (AddFunction.handler SECRET_TOKEN c event w)) = Absent
        /\ forall r, fst (AddFunction.handler SECRET_TOKEN c event w) = Some r ->
                     AddFunction.statusCode r <> 201)
  /\ fst (ListFunction.handler w) = ListFunction.mkReply 500 None None.
Proof.
  intros Hf.
  assert (Hl : Server.listAll w = Ok []).
  { unfold Server.listAll, Server.readProjects, Server.readProjectsTry.
    now rewrite Hf. }
  split; [|split; [|split; [|split]]].
  - unfold Server.getProjects. now rewrite readProjects_pair, Hl.
  - intros dec c req t Hd. unfold Server.deleteProject.
    now rewrite Hd, readProjects_pair, Hl.
  - intros URL c candidate t f Hv Hw. unfold Server.append.
    rewrite (validateProject_accepts _ _ _ _ _ _ Hv).
    set (body := [ ("title", JStr (JS.trim t)); ("file", JStr (JS.trim f));
                   ("tags", JArr (Server.normalTags (lookup "tags" candidate))) ]).
    destruct (addProject_outcomes c body w) as [(p & n & H) | [H | (H & _)]].
    + pose proof (addProject_added _ _ _ _ _ H) as (cat & Hcat & Hp & Hn & _ & Hfile & _ & Hb & _).
      assert (cat = []) by congruence. subst cat.
      rewrite H, Hfile, Hb, Hf, Hn, Hp. simpl. auto.
    + exfalso. unfold Server.addProject in H.
      rewrite readProjects_pair, Hl in H. simpl in H.
      destruct (Server.writeProjects _ c (called ReadFile w)) as [[u|? ?] ?];
        discriminate.
    + exfalso. unfold Server.addProject in H.
      rewrite readProjects_pair, Hl in H. simpl in H.
      pose proof (writeProjects_succeeds
                    ([] ++ [JObj (assign "createdAt" (JStr (nowISO c)) body)])
                    c (called ReadFile w)) as E.
      simpl in E. rewrite Hf in E. specialize (E ltac:(discriminate) Hw).
      destruct (Server.writeProjects _ c (called ReadFile w)) as [[u|? ?] ?];
        simpl in *; discriminate.
  - intros SECRET_TOKEN c event.
    destruct (addFunction_outcomes SECRET_TOKEN c event w)
      as [(st & Hst & E) | [E | [(st & Hst & E) | [(E & _)
         | (ms & cat & tags & _ & _ & _ & Hc & _)]]]];
      try (rewrite E; simpl; split; [exact Hf|]; intros r Hr;
           inversion Hr; subst r; simpl;
           repeat match goal with
                  | H : _ \/ _ |- _ => destruct H
                  end; subst; discriminate).
    congruence.
  - unfold ListFunction.handler. now rewrite Hf.
Qed.

(** X15: the serverless list function only reads, and has no check that
    the document is an array: it serves an array as the Express GET does,
    with the same count, but it also answers 200 with any other document
    than [null], which the Express GET refuses with 500. *)
Theorem listFunction_serves_any_document (w : World) :
  snd (ListFunction.handler w) = called ReadFile w
  /\ (forall ps,
        projectsFile w = Holds (Parsed (JArr ps)) ->
        fst (ListFunction.handler w)
        = ListFunction.mkReply 200 (Some (JArr ps))
            (Some (JNum (Z.of_nat (length ps))))
        /\ fst (Server.getProjects w) = Listed ps (length ps))
  /\ (forall v,
        projectsFile w = Holds (Parsed v) -> v <> JNull ->
        isArray (Some v) = false ->
        ListFunction.statusCode (fst (ListFunction.handler w)) = 200
        /\ ListFunction.projects (fst (ListFunction.handler w)) = Some v
        /\ status (fst (Server.getProjects w)) = 500).
Proof.
  unfold ListFunction.handler, Server.getProjects.
  rewrite readProjects_pair.
  unfold Server.listAll, Server.readProjects, Server.readProjectsTry.
  split; [|split].
  - destruct (projectsFile w) as [| | [|[]]]; reflexivity.
  - intros ps ->. split; reflexivity.
  - intros v -> Hn Ha. destruct v; try contradiction; try discriminate;
      repeat split.
Qed.

(** ** The archive page: loading *)

(** X16: [loadProjects] takes the snapshot from a response that is ok
    and whose body is either an array or an object with an array under
    [projects], and from nothing else: a rejected fetch, a response that
    is not ok, a body that is not JSON and any other document make it
    throw. *)
Theorem loadProjects_accepts_two_shapes (f : Page.Fetched) (l : list json) :
  Page.loadProjects f = Some l
  <-> f = Page.Response true (Parsed (JArr l))
      \/ exists ms, f = Page.Response true (Parsed (JObj ms))
                    /\ lookup "projects" ms = Some (JArr l).
Proof.
  split.
  - destruct f as [|[] [|data]]; simpl; try discriminate.
    destruct data as [| b | n | s | l' | ms]; simpl; try discriminate.
    + destruct b; discriminate.
    + destruct (negb (n =? 0)%Z); discriminate.
    + destruct (negb (String.eqb s "")); discriminate.
    + intros H. inversion H. now left.
    + destruct (lookup "projects" ms) as [[| b | n | s | l' | ms']|] eqn:E;
        simpl; try discriminate.
      intros H. inversion H; subst. right. now exists ms.
  - intros [-> | (ms & -> & E)]; simpl; [reflexivity|]. now rewrite E.
Qed.

(** X17: a projects file in the wrapped shape is read by the page and
    refused by both back ends: [loadProjects] returns its records, while
    the Express GET answers 500, every valid [append] and every DELETE
    answers 500 after the read, and the serverless add function never
    answers 201 or 409. *)
Theorem wrapped_document_breaks_the_servers (w : World)
    (ms : list (string * json)) (l : list json) :
  projectsFile w = Holds (Parsed (JObj ms)) ->
  lookup "projects" ms = Some (JArr l) ->
  Page.loadProjects (Page.Response true (Parsed (JObj ms))) = Some l
  /\ status (fst (Server.getProjects w)) = 500
  /\ (forall URL c candidate t f,
        Spec.Valid URL candidate t f ->
        Server.append URL c candidate w
        = (Failure 500 "Internal server error", called ReadFile w))
  /\ (forall decodeURIComponent c req t,
        decodeURIComponent (Server.paramTitle req) = Some t ->
        Server.deleteProject decodeURIComponent c req w
        = (Failure 500 "Internal server error", called ReadFile w))
  /\ (forall SECRET_TOKEN c event r,
        fst (AddFunction.handler SECRET_TOKEN c event w) = Some r ->
        AddFunction.statusCode r <> 201 /\ AddFunction.statusCode r <> 409).
Proof.
  intros Hf Hp.
  assert (Hl : Server.listAll w = Thrown None "Failed to read projects file").
  { unfold Server.listAll, Server.readProjects, Server.readProjectsTry.
    now rewrite Hf. }
  split; [|split; [|split; [|split]]].
  - simpl. now rewrite Hp.
  - unfold Server.getProjects. now rewrite readProjects_pair, Hl.
  - intros URL c candidate t f Hv. unfold Server.append.
    rewrite (validateProject_accepts _ _ _ _ _ _ Hv).
    unfold Server.addProject. now rewrite readProjects_pair, Hl.
  - intros dec c req t Hd. unfold Server.deleteProject.
    now rewrite Hd, readProjects_pair, Hl.
  - intros SECRET_TOKEN c event r Hr.
    destruct (addFunction_outcomes SECRET_TOKEN c event w)
      as [(st & Hst & E) | [E | [(st & Hst & E) | [(E & _)
         | (ms0 & cat & tags & _ & _ & _ & Hc & _)]]]];
      try congruence;
      try (rewrite E in Hr; simpl in Hr; inversion Hr; subst r; simpl;
           repeat match goal with
                  | H : _ \/ _ |- _ => destruct H
                  end; subst; split; discriminate).
    destruct Hst as [-> | ->].
    + exfalso. unfold AddFunction.handler in E. rewrite Hf in E.
      repeat match type of E with
             | context [if ?b then _ else _] => destruct b
             | context [match ?x with _ => _ end] => destruct x
             end; discriminate.
    + rewrite E in Hr. simpl in Hr. inversion Hr; subst r. simpl.
      split; discriminate.
Qed.

(** ** The archive page: filtering *)

Lemma filter_all {A : Type} (f : A -> bool) (l : list A) :
  (forall x, f x = true) -> filter f l = l.
Proof.
  intros H. induction l as [|x l IH]; simpl; [reflexivity|].
  now rewrite H, IH.
Qed.

Lemma string_app_assoc (a b c : string) :
  ((a ++ b) ++ c = a ++ b ++ c)%string.
Proof. induction a as [|x a IH]; simpl; [reflexivity | now rewrite IH]. Qed.

Lemma Substring_trans (a b c : string) :
  Spec.Substring a b -> Spec.Substring b c -> Spec.Substring a c.
Proof.
  intros (p1 & s1 & ->) (p2 & s2 & ->).
  exists (p2 ++ p1)%string, (s1 ++ s2)%string.
  now rewrite !string_app_assoc.
Qed.

Lemma Substring_empty (a : string) : Spec.Substring a "" -> a = "".
Proof.
  intros (p & q & H). destruct p; [|discriminate].
  destruct a; [reflexivity | discriminate].
Qed.

(** X18: with no tag filter active and a search box that is empty or
    holds white space only, [filterProjects] shows every record of the
    snapshot, in the order of the snapshot. *)
Theorem no_filter_shows_everything (allProjects : list Archive.Project)
    (searchInput : string) :
  Archive.searchTerm searchInput = "" ->
  Archive.filterProjects allProjects [] searchInput = allProjects.
Proof.
  intros H. unfold Archive.filterProjects. rewrite H.
  apply filter_all. intros p. reflexivity.
Qed.

(** X19: a longer search never shows more: when the term of one search
    occurs in the term of another, every record the second search shows
    is shown by the first, under the same tag filters. *)
Theorem longer_search_narrows (allProjects : list Archive.Project)
    (activeTagFilters : list string) (input1 input2 : string) :
  Spec.Substring (Archive.searchTerm input1) (Archive.searchTerm input2) ->
  incl (Archive.filterProjects allProjects activeTagFilters input2)
       (Archive.filterProjects allProjects activeTagFilters input1).
Proof.
  intros Hsub p. unfold Archive.filterProjects.
  rewrite !filter_In, !keeps_spec.
  intros (Hin & Hsearch & Htag). split; [exact Hin|]. split; [|exact Htag].
  destruct Hsearch as [E | [H | (tag & Ht & H)]].
  - left. rewrite E in Hsub. now apply Substring_empty.
  - right. left. exact (Substring_trans _ _ _ Hsub H).
  - right. right. exists tag. split; [exact Ht|].
    exact (Substring_trans _ _ _ Hsub H).
Qed.

(** X20: tag filters are combined by "or": once a filter is active,
    activating one more never hides a record that was shown; and no
    record is shown under some filters that is hidden when no filter is
    active. *)
Theorem tag_filters_are_or_combined (allProjects : list Archive.Project)
    (activeTagFilters : list string) (tag searchInput : string) :
  activeTagFilters <> [] ->
  incl (Archive.filterProjects allProjects activeTagFilters searchInput)
       (Archive.filterProjects allProjects (JS.add activeTagFilters tag)
                               searchInput)
  /\ incl (Archive.filterProjects allProjects activeTagFilters searchInput)
          (Archive.filterProjects allProjects [] searchInput).
Proof.
  intros Hne. split; intros p; unfold Archive.filterProjects;
    rewrite !filter_In, !keeps_spec; intros (Hin & Hsearch & Htag);
    (split; [exact Hin|]); (split; [exact Hsearch|]).
  - destruct Htag as [E | (t & Ht & H)]; [contradiction|].
    right. exists t. split; [exact Ht|]. apply add_In. now left.
  - now left.
Qed.

Lemma searchTerm_nothing : Archive.searchTerm "" = "".
Proof.
  unfold Archive.searchTerm. rewrite JS.fold_nothing. apply JS.trim_nothing.
Qed.

Lemma renderTagFilters_In (allProjects : list Archive.Project) (x : string) :
  In x (Archive.renderTagFilters allProjects)
  <-> exists p tag, In p allProjects /\ Spec.HasTag p tag
                    /\ x = JS.trim (JS.toLowerCase tag).
Proof.
  destruct (allTags_spec allProjects [] (NoDup_nil _)) as [_ Hin].
  unfold Archive.renderTagFilters. rewrite sort_In, Hin. simpl. tauto.
Qed.

(** X21: the filter controls and the filter agree: clicking any one
    control that [renderTagFilters] made, with an empty search box, shows
    at least one record, and every record that has a tag is shown by the
    control made for that tag. *)
Theorem every_control_selects_a_record (allProjects : list Archive.Project) :
  (forall t, In t (Archive.renderTagFilters allProjects) ->
             Archive.filterProjects allProjects [t] "" <> [])
  /\ (forall p tag,
        In p allProjects -> Spec.HasTag p tag ->
        In (JS.trim (JS.toLowerCase tag)) (Archive.renderTagFilters allProjects)
        /\ In p (Archive.filterProjects allProjects
                   [JS.trim (JS.toLowerCase tag)] "")).
Proof.
  assert (H : forall p tag, In p allProjects -> Spec.HasTag p tag ->
            In p (Archive.filterProjects allProjects
                    [JS.trim (JS.toLowerCase tag)] "")).
  { intros p tag Hp Ht. unfold Archive.filterProjects.
    rewrite filter_In, keeps_spec. split; [exact Hp|]. split.
    - left. apply searchTerm_nothing.
    - right. exists tag. split; [exact Ht | now left]. }
  split.
  - intros t Ht. apply renderTagFilters_In in Ht.
    destruct Ht as (p & tag & Hp & Htag & ->).
    intros E. specialize (H p tag Hp Htag). rewrite E in H. destruct H.
  - intros p tag Hp Ht. split; [|now apply H].
    apply renderTagFilters_In. now exists p, tag.
Qed.

(** ** The archive page: events and display states *)

Lemma filterProjects_fields (st : Page.State) :
  Page.allProjects (Page.filterProjects st) = Page.allProjects st
  /\ Page.filteredProjects (Page.filterProjects st)
     = Archive.filterProjects (Page.allProjects st) (Page.activeTagFilters st)
                              (Page.searchInput st)
  /\ Page.activeTagFilters (Page.filterProjects st) = Page.activeTagFilters st
  /\ Page.searchInput (Page.filterProjects st) = Page.searchInput st
  /\ Page.tagFilters (Page.filterProjects st) = Page.tagFilters st
  /\ Page.loadingState (Page.display (Page.filterProjects st))
     = Page.loadingState (Page.display st)
  /\ Page.errorState (Page.display (Page.filterProjects st))
     = Page.errorState (Page.display st)
  /\ Page.projectsContainer (Page.display (Page.filterProjects st))
     = Page.projectsContainer (Page.display st).
Proof.
  unfold Page.filterProjects, Page.renderProjects. simpl.
  destruct (length _ =? 0)%nat; simpl; repeat split.
Qed.

Lemma filterProjects_Rendered (st : Page.State) :
  Notion.Rendered (Page.filterProjects st).
Proof.
  unfold Notion.Rendered, Page.filterProjects, Page.renderProjects. simpl.
  destruct (length (Archive.filterProjects _ _ _) =? 0)%nat eqn:E; simpl;
    rewrite E; repeat split.
  - apply Nat.eqb_eq, length_zero_iff_nil in E. now rewrite E.
  - intros p Hp. unfold Archive.filterProjects in Hp.
    now apply filter_In in Hp.
  - intros p Hp. unfold Archive.filterProjects in Hp.
    now apply filter_In in Hp.
Qed.

(** [Ready] looks at the snapshot, the three display values, the active
    filters and the controls only. *)
Lemma Ready_ext (projects : list Archive.Project) (st st' : Page.State) :
  Page.allProjects st' = Page.allProjects st ->
  Page.activeTagFilters st' = Page.activeTagFilters st ->
  Page.tagFilters st' = Page.tagFilters st ->
  Page.loadingState (Page.display st') = Page.loadingState (Page.display st) ->
  Page.errorState (Page.display st') = Page.errorState (Page.display st) ->
  Page.projectsContainer (Page.display st')
  = Page.projectsContainer (Page.display st) ->
  Notion.Ready projects st -> Notion.Ready projects st'.
Proof.
  unfold Notion.Ready. intros -> -> -> -> -> ->. trivial.
Qed.

Lemma filterProjects_Ready (projects : list Archive.Project) (st : Page.State) :
  Notion.Ready projects st -> Notion.Ready projects (Page.filterProjects st).
Proof.
  destruct (filterProjects_fields st) as (H1 & _ & H3 & _ & H5 & H6 & H7 & H8).
  now apply Ready_ext.
Qed.

Lemma has_delete (s : list string) (t x : string) :
  JS.has (Text.delete s t) x = JS.has s x && negb (String.eqb x t).
Proof.
  apply eq_true_iff_eq.
  rewrite andb_true_iff, !has_In, negb_true_iff, String.eqb_neq.
  unfold Text.delete. rewrite filter_In, negb_true_iff, String.eqb_neq.
  tauto.
Qed.

Lemma has_add (s : list string) (t x : string) :
  JS.has (JS.add s t) x = JS.has s x || String.eqb x t.
Proof.
  apply eq_true_iff_eq.
  rewrite orb_true_iff, !has_In, add_In, String.eqb_eq. tauto.
Qed.

Lemma setActive_fst (tag : string) (on : bool) (controls : list (string * bool)) :
  map fst (Page.setActive tag on controls) = map fst controls.
Proof.
  unfold Page.setActive. induction controls as [|[t b] r IH]; simpl;
    [reflexivity|].
  rewrite IH. now destruct (String.eqb t tag).
Qed.

Lemma setActive_In (tag : string) (on : bool) (controls : list (string * bool))
    (t : string) (b : bool) :
  In (t, b) (Page.setActive tag on controls) ->
  exists b0, In (t, b0) controls
             /\ b = if String.eqb t tag then on else b0.
Proof.
  unfold Page.setActive. rewrite in_map_iff.
  intros ([t0 b0] & E & Hin). simpl in E.
  destruct (String.eqb t0 tag) eqn:Et; injection E as <- <-;
    exists b0; rewrite Et; auto.
Qed.

Lemma toggle_Ready (projects : list Archive.Project) (st : Page.State)
    (tag : string) :
  Notion.Ready projects st ->
  In tag (map fst (Page.tagFilters st)) ->
  Notion.Ready projects (Page.toggleTagFilter tag st).
Proof.
  intros (H1 & H2 & H3 & H4 & H5 & H6 & H7 & H8) Hin.
  unfold Page.toggleTagFilter.
  destruct (JS.has (Page.activeTagFilters st) tag) eqn:Eh;
    apply filterProjects_Ready; unfold Notion.Ready; simpl;
    rewrite setActive_fst; repeat split; auto.
  - unfold Text.delete. now apply NoDup_filter.
  - intros x Hx. unfold Text.delete in Hx. apply filter_In in Hx.
    now apply H6.
  - intros t b Hb. apply setActive_In in Hb. destruct Hb as (b0 & Hb0 & ->).
    rewrite has_delete, (H8 t b0 Hb0).
    destruct (String.eqb t tag); simpl;
      [now rewrite andb_false_r | now rewrite andb_true_r].
  - now apply add_NoDup.
  - intros x Hx. apply add_In in Hx. destruct Hx as [Hx | ->].
    + now apply H6.
    + now rewrite <- H7.
  - intros t b Hb. apply setActive_In in Hb. destruct Hb as (b0 & Hb0 & ->).
    rewrite has_add, (H8 t b0 Hb0).
    destruct (String.eqb t tag); simpl;
      [now rewrite orb_true_r | now rewrite orb_false_r].
Qed.

Lemma init_Ready (projects : list Archive.Project) (d : Page.Display) :
  Notion.Ready projects (Page.initializeArchive (Some projects) (Page.fresh d))
  /\ Notion.Rendered (Page.initializeArchive (Some projects) (Page.fresh d)).
Proof.
  unfold Page.initializeArchive, Page.renderProjects, Page.fresh,
    Notion.Ready, Notion.Rendered. simpl.
  destruct (length projects =? 0)%nat eqn:E; simpl; rewrite E;
    rewrite map_map; simpl; rewrite map_id; repeat split;
    try constructor; try apply incl_refl; try apply incl_nil_l;
    try (intros t b Hb; apply in_map_iff in Hb; destruct Hb as (x & Hx & _);
         now inversion Hx).
  apply Nat.eqb_eq, length_zero_iff_nil in E. now rewrite E.
Qed.

(** X22: in every state the page reaches after a successful
    initialization, whatever is clicked and typed, the loading and error
    elements are hidden and the container is shown, the empty-state
    element is shown exactly when the filtered list is empty (so it is
    then shown together with the container), there is one card for each
    filtered record, every filtered record is a record of the snapshot,
    the snapshot is the one that was loaded, and a filter control carries
    the [active] class exactly when its tag is an active filter. *)
Theorem page_invariant (projects : list Archive.Project) (d : Page.Display)
    (st : Page.State) :
  Page.reachable projects d st ->
  Notion.Ready projects st /\ Notion.Rendered st.
Proof.
  induction 1 as [|st e Hr [IHr IHd] Hclick].
  - apply init_Ready.
  - destruct e as [tag | value | | |]; simpl.
    + assert (Hin : In tag (map fst (Page.tagFilters st))) by now apply Hclick.
      split; [now apply toggle_Ready|].
      unfold Page.toggleTagFilter.
      destruct (JS.has (Page.activeTagFilters st) tag);
        apply filterProjects_Rendered.
    + split.
      * revert IHr. now apply Ready_ext.
      * exact IHd.
    + split; [now apply filterProjects_Ready | apply filterProjects_Rendered].
    + split; [|apply filterProjects_Rendered].
      unfold Page.escape. apply filterProjects_Ready.
      revert IHr. now apply Ready_ext.
    + split; [|apply filterProjects_Rendered].
      unfold Page.clearFilters. apply filterProjects_Ready.
      destruct IHr as (H1 & H2 & H3 & H4 & H5 & H6 & H7 & H8).
      unfold Notion.Ready. simpl. rewrite map_map. simpl.
      repeat split; auto.
      * constructor.
      * intros x [].
      * intros t b Hb. apply in_map_iff in Hb. destruct Hb as (x & Hx & _).
        now inversion Hx.
Qed.

(** X23: clicking the same filter control twice restores the filtered
    list of a state whose list is up to date, that is, a state whose list
    is what its snapshot, active tags and search box filter to (no edit
    of the search box is waiting for the timer).  In every state the two
    clicks give the list that the state before them filters to: the same
    tags are active (possibly in another order), and the snapshot and the
    search box are untouched. *)
Theorem toggling_twice_restores (tag : string) (st : Page.State) :
  (Page.filteredProjects st
   = Archive.filterProjects (Page.allProjects st) (Page.activeTagFilters st)
                            (Page.searchInput st) ->
   Page.filteredProjects (Page.toggleTagFilter tag (Page.toggleTagFilter tag st))
   = Page.filteredProjects st)
  /\ Page.filteredProjects
       (Page.toggleTagFilter tag (Page.toggleTagFilter tag st))
     = Archive.filterProjects (Page.allProjects st) (Page.activeTagFilters st)
                              (Page.searchInput st)
  /\ (forall x,
        JS.has (Page.activeTagFilters
                  (Page.toggleTagFilter tag (Page.toggleTagFilter tag st))) x
        = JS.has (Page.activeTagFilters st) x)
  /\ Page.allProjects (Page.toggleTagFilter tag (Page.toggleTagFilter tag st))
     = Page.allProjects st
  /\ Page.searchInput (Page.toggleTagFilter tag (Page.toggleTagFilter tag st))
     = Page.searchInput st.
Proof.
  assert (Hhas : forall x,
            JS.has (Page.activeTagFilters
                      (Page.toggleTagFilter tag (Page.toggleTagFilter tag st))) x
            = JS.has (Page.activeTagFilters st) x).
  { intros x. unfold Page.toggleTagFilter at 2.
    destruct (JS.has (Page.activeTagFilters st) tag) eqn:E1.
    - unfold Page.toggleTagFilter.
      destruct (filterProjects_fields
                  (Page.mkState (Page.allProjects st) (Page.filteredProjects st)
                     (Text.delete (Page.activeTagFilters st) tag)
                     (Page.searchInput st)
                     (Page.setActive tag false (Page.tagFilters st))
                     (Page.cards st) (Page.display st)))
        as (_ & _ & -> & _). simpl.
      rewrite has_delete, String.eqb_refl, andb_false_r.
      match goal with
      | |- context [Page.filterProjects ?s] =>
          destruct (filterProjects_fields s) as (_ & _ & -> & _)
      end. simpl.
      rewrite has_add, has_delete.
      destruct (String.eqb x tag) eqn:Ex; simpl.
      + apply String.eqb_eq in Ex. subst x. now rewrite orb_true_r.
      + now rewrite andb_true_r, orb_false_r.
    - unfold Page.toggleTagFilter.
      destruct (filterProjects_fields
                  (Page.mkState (Page.allProjects st) (Page.filteredProjects st)
                     (JS.add (Page.activeTagFilters st) tag)
                     (Page.searchInput st)
                     (Page.setActive tag true (Page.tagFilters st))
                     (Page.cards st) (Page.display st)))
        as (_ & _ & -> & _). simpl.
      rewrite has_add, String.eqb_refl, orb_true_r.
      match goal with
      | |- context [Page.filterProjects ?s] =>
          destruct (filterProjects_fields s) as (_ & _ & -> & _)
      end. simpl.
      rewrite has_delete, has_add.
      destruct (String.eqb x tag) eqn:Ex; simpl.
      + apply String.eqb_eq in Ex. subst x. now rewrite andb_false_r.
      + now rewrite orb_false_r, andb_true_r. }
  assert (Hfields : forall t s,
            Page.allProjects (Page.toggleTagFilter t s) = Page.allProjects s
            /\ Page.searchInput (Page.toggleTagFilter t s) = Page.searchInput s
            /\ Page.filteredProjects (Page.toggleTagFilter t s)
               = Archive.filterProjects (Page.allProjects s)
                   (Page.activeTagFilters (Page.toggleTagFilter t s))
                   (Page.searchInput s)).
  { intros t s. unfold Page.toggleTagFilter.
    destruct (JS.has (Page.activeTagFilters s) t);
      match goal with
      | |- context [Page.filterProjects ?s0] =>
          destruct (filterProjects_fields s0) as (-> & -> & -> & -> & _)
      end; simpl; auto. }
  destruct (Hfields tag st) as (A1 & S1 & _).
  destruct (Hfields tag (Page.toggleTagFilter tag st)) as (A2 & S2 & F2).
  rewrite A2, S2, A1, S1 in *.
  assert (Hlist : Page.filteredProjects
                    (Page.toggleTagFilter tag (Page.toggleTagFilter tag st))
                  = Archive.filterProjects (Page.allProjects st)
                      (Page.activeTagFilters st) (Page.searchInput st));
    [|split; [intros E; now rewrite E | repeat split; auto]].
  rewrite F2. unfold Archive.filterProjects. apply filter_ext. intros p.
  apply eq_true_iff_eq. rewrite !keeps_spec.
  assert (Hin : forall x,
            In x (Page.activeTagFilters
                    (Page.toggleTagFilter tag (Page.toggleTagFilter tag st)))
            <-> In x (Page.activeTagFilters st)).
  { intros x. rewrite <- !has_In. now rewrite Hhas. }
  unfold Spec.TagMatch.
  set (A2' := Page.activeTagFilters
                (Page.toggleTagFilter tag (Page.toggleTagFilter tag st))) in *.
  assert (Hnil : A2' = [] <-> Page.activeTagFilters st = []).
  { split; intros E.
    - destruct (Page.activeTagFilters st) as [|x r]; [reflexivity|].
      exfalso. assert (In x A2') by (apply Hin; now left).
      rewrite E in H. destruct H.
    - destruct A2' as [|x r]; [reflexivity|].
      exfalso. assert (In x (Page.activeTagFilters st)) by (apply Hin; now left).
      rewrite E in H. destruct H. }
  rewrite Hnil.
  assert (Hex : (exists t, Spec.HasTag p t
                   /\ In (JS.trim (JS.toLowerCase t)) A2')
                <-> (exists t, Spec.HasTag p t
                   /\ In (JS.trim (JS.toLowerCase t)) (Page.activeTagFilters st))).
  { split; intros (t & Ht & Hi); exists t; split; auto; now apply Hin. }
  rewrite Hex. tauto.
Qed.

(** ** The archive page: the markup of a card *)

Lemma count_app (c : ascii) (a b : string) :
  Text.count c (a ++ b)%string = Text.count c a + Text.count c b.
Proof.
  induction a as [|d a IH]; simpl; [reflexivity|]. rewrite IH. lia.
Qed.

Lemma count_replaceAll (x c : ascii) (rep s : string) :
  Text.count x (JS.replaceAll c rep s)
  = (if Ascii.eqb x c then 0 else Text.count x s)
    + Text.count x rep * Text.count c s.
Proof.
  induction s as [|d r IH]; simpl.
  - destruct (Ascii.eqb x c); lia.
  - destruct (Ascii.eqb d c) eqn:Edc.
    + rewrite count_app, IH. apply Ascii.eqb_eq in Edc. subst d.
      rewrite (Ascii.eqb_sym c x).
      destruct (Ascii.eqb x c); simpl; rewrite Nat.mul_succ_r; lia.
    + simpl. rewrite IH.
      destruct (Ascii.eqb x c) eqn:Exc.
      * apply Ascii.eqb_eq in Exc. subst x. rewrite Edc. lia.
      * lia.
Qed.

Lemma count_escapeHtml (s : string) :
  Text.count "<" (Archive.escapeHtml s) = 0
  /\ Text.count ">" (Archive.escapeHtml s) = 0
  /\ Text.count Archive.quote (Archive.escapeHtml s) = 0
  /\ Text.count "'" (Archive.escapeHtml s) = 0.
Proof.
  unfold Archive.escapeHtml. repeat split;
    rewrite !count_replaceAll; simpl; lia.
Qed.

(** The count of a character that [escapeHtml] never returns, in the
    markup of a card: that of the card of a record without title, tags
    and file, and that of an empty [span] for each tag. *)
Lemma count_card (c : ascii) (project : Archive.Project) :
  (forall s, Text.count c (Archive.escapeHtml s) = 0) ->
  Text.count c (Page.createProjectCard project)
  = Text.count c (Page.createProjectCard (Archive.mkProject "" None ""))
    + length (match Archive.tags project with Some ts => ts | None => [] end)
      * Text.count c (Page.tagSpan "").
Proof.
  intros H.
  assert (Hspans : forall ts,
            Text.count c (Text.join (map Page.tagSpan ts))
            = length ts * Text.count c (Page.tagSpan "")).
  { induction ts as [|t ts IH]; [reflexivity|].
    cbn [map Text.join Datatypes.length Nat.mul].
    rewrite count_app, IH. f_equal.
    unfold Page.tagSpan. rewrite !count_app, !H. reflexivity. }
  unfold Page.createProjectCard.
  rewrite !count_app, !H, !Hspans.
  cbn [Archive.tags Datatypes.length]. lia.
Qed.

(** X24: the text of a record cannot add markup to its card: whatever
    the title, the tags and the file hold, the [innerHTML] built by
    [createProjectCard] has six [<], six [>] and ten double quotes, plus
    two of each for every tag, and no single quote. *)
Theorem card_markup_is_fixed (project : Archive.Project) :
  let n := length (match Archive.tags project with
                   | Some ts => ts
                   | None => []
                   end) in
  Text.count "<" (Page.createProjectCard project) = 6 + 2 * n
  /\ Text.count ">" (Page.createProjectCard project) = 6 + 2 * n
  /\ Text.count Archive.quote (Page.createProjectCard project) = 10 + 2 * n
  /\ Text.count "'" (Page.createProjectCard project) = 0.
Proof.
  cbv zeta. repeat split.
  - rewrite (count_card "<" project (fun s => proj1 (count_escapeHtml s))).
    change (Text.count "<" (Page.createProjectCard (Archive.mkProject "" None "")))
      with 6.
    change (Text.count "<" (Page.tagSpan "")) with 2. lia.
  - rewrite (count_card ">" project
               (fun s => proj1 (proj2 (count_escapeHtml s)))).
    change (Text.count ">" (Page.createProjectCard (Archive.mkProject "" None "")))
      with 6.
    change (Text.count ">" (Page.tagSpan "")) with 2. lia.
  - rewrite (count_card Archive.quote project
               (fun s => proj1 (proj2 (proj2 (count_escapeHtml s))))).
    change (Text.count Archive.quote
              (Page.createProjectCard (Archive.mkProject "" None "")))
      with 10.
    change (Text.count Archive.quote (Page.tagSpan "")) with 2. lia.
  - rewrite (count_card "'" project
               (fun s => proj2 (proj2 (proj2 (count_escapeHtml s))))).
    change (Text.count "'" (Page.createProjectCard (Archive.mkProject "" None "")))
      with 0.
    change (Text.count "'" (Page.tagSpan "")) with 0. lia.
Qed.

(** ** The admin page *)

Lemma cleanTags_fixed (l : list string) :
  Forall (fun tag => tag <> "" /\ Notion.Trimmed tag) l ->
  Server.cleanTags (map JStr l) = map JStr l.
Proof.
  unfold Server.cleanTags.
  induction 1 as [|tag l [Hn Ht] Hl IH]; simpl; [reflexivity|].
  unfold Notion.Trimmed in Ht. rewrite Ht.
  apply length_pos_nonempty in Hn. rewrite Hn. simpl.
  f_equal; [now rewrite Ht | exact IH].
Qed.

Lemma collected_tags (f : Admin.Form) :
  Forall (fun tag => tag <> "" /\ Notion.Trimmed tag)
         (Admin.tags (Admin.collectFormData f)).
Proof.
  apply Forall_forall. intros tag H. simpl in H.
  apply filter_In in H. destruct H as [H Hlen].
  apply in_map_iff in H. destruct H as (part & <- & _).
  split; [now apply length_pos_nonempty | apply JS.trim_twice].
Qed.

(** X25: the tags the admin form sends are what the server keeps: each
    is a text that is not empty and has no white space at either end,
    and the normalization of [validateProject] returns them unchanged,
    in the same order. *)
Theorem form_tags_survive_validation (f : Admin.Form) :
  Forall (fun tag => tag <> "" /\ Notion.Trimmed tag)
         (Admin.tags (Admin.collectFormData f))
  /\ Server.normalTags
       (Some (JArr (map JStr (Admin.tags (Admin.collectFormData f)))))
     = map JStr (Admin.tags (Admin.collectFormData f)).
Proof.
  split; [apply collected_tags|].
  unfold Server.normalTags. apply cleanTags_fixed, collected_tags.
Qed.

(** X26: a form that [validateForm] accepts and whose trimmed token is
    the secret goes through both middlewares of the server, provided the
    secret holds no space and the server parses URLs as the browser does:
    the request that [handleFormSubmit] sends reaches the handler of
    POST with the trimmed title, the trimmed file and the collected tags,
    none of them changed by the server's own trimming. *)
Theorem valid_form_reaches_the_handler (SECRET_TOKEN : string)
    (URL : string -> bool) (c : Clock) (f : Admin.Form) (w : World) :
  Admin.validateForm URL f = true ->
  JS.trim (Admin.tokenInput f) = SECRET_TOKEN ->
  Notion.SpaceFree SECRET_TOKEN ->
  exists req,
    Admin.handleFormSubmit URL f = Some req
    /\ Server.postRoute SECRET_TOKEN URL c req w
       = Server.addProject c
           [ ("title", JStr (JS.trim (Admin.titleInput f)));
             ("file", JStr (JS.trim (Admin.fileInput f)));
             ("tags", JArr (map JStr (Admin.tags (Admin.collectFormData f)))) ]
           w.
Proof.
  intros Hv Htok Hfree. unfold Admin.handleFormSubmit. rewrite Hv. simpl negb.
  cbv iota. eexists. split; [reflexivity|].
  unfold Admin.validateForm in Hv. rewrite Htok in Hv.
  destruct (String.eqb SECRET_TOKEN "") eqn:E1; [discriminate|].
  destruct (String.eqb (JS.trim (Admin.titleInput f)) "") eqn:E2; [discriminate|].
  destruct (String.eqb (JS.trim (Admin.fileInput f)) "") eqn:E3; [discriminate|].
  apply String.eqb_neq in E1, E2, E3.
  assert (Hb : Notion.SpaceFree "Bearer").
  { unfold Notion.SpaceFree, Spec.Occurs. simpl. intuition discriminate. }
  assert (Htoken : Server.tokenOf (Some ("Bearer " ++ SECRET_TOKEN)%string)
                   = Some SECRET_TOKEN)
    by exact (tokenOf_scheme "Bearer" SECRET_TOKEN Hb Hfree).
  unfold Server.postRoute, Server.authenticateToken, Admin.submitProject.
  cbn [Server.authorization Server.body Admin.token Admin.title Admin.file
       Admin.collectFormData].
  rewrite Htok, Htoken. cbn [Server.truthyText].
  apply String.eqb_neq in E1. rewrite E1, String.eqb_refl.
  cbn [negb]. apply String.eqb_neq in E1.
  assert (Valid : Spec.Valid URL
            [ ("title", JStr (JS.trim (Admin.titleInput f)));
              ("tags", JArr (map JStr (Admin.tags (Admin.collectFormData f))));
              ("file", JStr (JS.trim (Admin.fileInput f))) ]
            (JS.trim (Admin.titleInput f)) (JS.trim (Admin.fileInput f))).
  { unfold Spec.Valid. simpl. rewrite !JS.trim_twice.
    repeat split; auto. right. eauto. }
  rewrite (validateProject_accepts _ _ _ _ _ _ Valid).
  rewrite !JS.trim_twice. simpl lookup.
  unfold Server.normalTags.
  pose proof (cleanTags_fixed _ (collected_tags f)) as Hfix.
  cbn [Admin.tags Admin.collectFormData] in Hfix |- *.
  now rewrite Hfix.
Qed.

Lemma replaceFirst_unfold (pat rep s : string) :
  Text.replaceFirst pat rep s
  = if String.prefix pat s
    then (rep ++ Text.slice (String.length pat) s)%string
    else match s with
         | EmptyString => EmptyString
         | String c r => String c (Text.replaceFirst pat rep r)
         end.
Proof. destruct s; reflexivity. Qed.

(** Where the pattern occurs, [replaceFirst] puts the replacement. *)
Lemma replaceFirst_Substring (pat rep s : string) :
  JS.includes s pat = true ->
  Spec.Substring rep (Text.replaceFirst pat rep s).
Proof.
  induction s as [|c r IH]; rewrite includes_unfold, replaceFirst_unfold;
    intros H; destruct (String.prefix pat _) eqn:Ep.
  - exists EmptyString, (Text.slice (String.length pat) ""). reflexivity.
  - discriminate.
  - exists EmptyString, (Text.slice (String.length pat) (String c r)).
    reflexivity.
  - simpl in H. destruct (IH H) as (a & b & E).
    exists (String c a), b. simpl. now rewrite E.
Qed.

(** X27: [processDropboxLink] leaves the file input as it is, white space
    included, when its trimmed value does not name dropbox.com; when it
    does, the new value always carries [dl=1]. *)
Theorem dropbox_links_ask_for_download (value : string) :
  (JS.includes (JS.trim value) "dropbox.com" = false ->
   Admin.processDropboxLink value = value)
  /\ (JS.includes (JS.trim value) "dropbox.com" = true ->
      JS.includes (Admin.processDropboxLink value) "dl=1" = true).
Proof.
  unfold Admin.processDropboxLink. split; intros H; rewrite H.
  - now rewrite andb_false_r.
  - assert (Hne : String.eqb (JS.trim value) "" = false).
    { destruct (JS.trim value); [discriminate | reflexivity]. }
    rewrite Hne. simpl negb. cbv iota. simpl andb. cbv iota.
    apply includes_Substring.
    assert (Hq : Spec.Substring "dl=1" "?dl=1") by (now exists "?", "").
    destruct (JS.includes (JS.trim value) "?dl=0") eqn:E0.
    + exact (Substring_trans _ _ _ Hq
               (replaceFirst_Substring "?dl=0" "?dl=1" _ E0)).
    + destruct (JS.includes (JS.trim value) "?dl=1") eqn:E1; simpl negb; cbv iota.
      * apply includes_Substring in E1.
        exact (Substring_trans _ _ _ Hq E1).
      * exists (JS.trim value
                ++ (if JS.includes (JS.trim value) "?" then "&" else "?"))%string,
               EmptyString.
        now rewrite string_app_assoc.
Qed.

(** ** Repeating a request *)

Lemma find_middle (k : string) (before after : list json) (d : json) :
  Forall (Spec.Passed k) before -> lowerTitle d = Some k ->
  Sys.find (Some k) (before ++ d :: after) = Ok (Some d).
Proof.
  intros Hb Hd. induction Hb as [|p ps [Ht Hp] Hps IH]; simpl.
  - unfold Sys.sameTitle. now rewrite Hd, String.eqb_refl.
  - destruct (sameTitle_cases k p) as [[E N] | [[E Hk] | [E _]]]; rewrite E.
    + contradiction.
    + contradiction.
    + exact IH.
Qed.

Lemma findIndex_passed (k : string) (ps : list json) :
  Forall (Spec.Passed k) ps -> Sys.findIndex (Some k) ps = Ok None.
Proof.
  induction 1 as [|p ps [Ht Hp] Hps IH]; simpl; [reflexivity|].
  destruct (sameTitle_cases k p) as [[E N] | [[E Hk] | [E _]]]; rewrite E.
  - contradiction.
  - contradiction.
  - now rewrite IH.
Qed.

(** X28: sending a candidate again is refused: after a successful
    [append], every [append] of a valid candidate whose trimmed title is
    the same up to case is answered 409, and leaves the projects file and
    the backups as the first call left them. *)
Theorem repeated_append_conflicts (URL : string -> bool) (c c' : Clock)
    (candidate again : list (string * json)) (t f t' f' : string)
    (w : World) :
  Spec.Valid URL candidate t f ->
  status (fst (Server.append URL c candidate w)) = 201 ->
  Spec.Valid URL again t' f' ->
  JS.toLowerCase (JS.trim t') = JS.toLowerCase (JS.trim t) ->
  Server.append URL c' again (snd (Server.append URL c candidate w))
  = (Failure 409 "Duplicate project",
     called ReadFile (snd (Server.append URL c candidate w))).
Proof.
  intros Hv Hs Hv' Hk. unfold Server.append in *.
  rewrite (validateProject_accepts _ _ _ _ _ _ Hv) in *.
  rewrite (validateProject_accepts _ _ _ _ _ _ Hv').
  set (body := [ ("title", JStr (JS.trim t)); ("file", JStr (JS.trim f));
                 ("tags", JArr (Server.normalTags (lookup "tags" candidate))) ])
    in *.
  destruct (addProject_outcomes c body w) as [(p & n & H) | [H | (H & _)]];
    [ | rewrite H in Hs; discriminate | rewrite H in Hs; discriminate ].
  apply addProject_added in H.
  destruct H as (cat & _ & Hp & _ & Hfind & Hfile & _).
  change (lowerTitle (JObj body)) with (Some (JS.toLowerCase (JS.trim t)))
    in Hfind.
  apply find_none in Hfind.
  unfold Server.addProject at 1.
  rewrite readProjects_pair, (listAll_holds _ _ Hfile).
  change (lowerTitle (JObj [ ("title", JStr (JS.trim t')); _; _ ]))
    with (Some (JS.toLowerCase (JS.trim t'))).
  rewrite Hk, (find_middle _ cat [] p Hfind); [reflexivity|].
  subst p. reflexivity.
Qed.

(** X29: deleting again finds nothing: on a catalog that satisfies the
    uniqueness invariant, after a DELETE that answered 200, the same
    request is answered 404 and nothing more is written. *)
Theorem repeated_delete_finds_nothing
    (decodeURIComponent : string -> option string) (c c' : Clock)
    (req : Server.Request) (w : World) (cat : list json) :
  Server.listAll w = Ok cat ->
  Spec.UniqueTitles cat ->
  status (fst (Server.deleteProject decodeURIComponent c req w)) = 200 ->
  Server.deleteProject decodeURIComponent c' req
    (snd (Server.deleteProject decodeURIComponent c req w))
  = (Failure 404 "Project not found",
     called ReadFile (snd (Server.deleteProject decodeURIComponent c req w))).
Proof.
  intros Hcat [Ht Hn] Hs.
  destruct (deleteProject_outcomes decodeURIComponent c req w)
    as [(d & n & H) | [H | (H & _)]];
    [ | rewrite H in Hs; discriminate | rewrite H in Hs; discriminate ].
  apply deleteProject_deleted in H.
  destruct H as (t & before & after & Hd & Hcat' & Hk & Hb & _ & Hfile & _).
  assert (cat = before ++ d :: after) by congruence. subst cat.
  assert (Ha : Forall (Spec.Passed (JS.toLowerCase t)) after).
  { apply Forall_app in Ht. destruct Ht as [_ Ht]. inversion Ht; subst.
    rewrite map_app in Hn. simpl in Hn. apply NoDup_remove_2 in Hn.
    apply Forall_forall. intros p Hp. split.
    - rewrite Forall_forall in H2. now apply H2.
    - intros E. apply Hn. apply in_or_app. right.
      rewrite Hk, <- E. now apply in_map. }
  unfold Server.deleteProject at 1.
  rewrite Hd, readProjects_pair, (listAll_holds _ _ Hfile).
  rewrite findIndex_passed; [reflexivity|].
  apply Forall_app. now split.
Qed.

(** X30: the serverless add function keeps the uniqueness invariant when
    the title it is sent is a string: on a catalog with string titles, no
    two of them equal up to case, a reply 201 leaves such a catalog. *)
Theorem addFunction_keeps_unique_titles (SECRET_TOKEN : string) (c : Clock)
    (event : AddFunction.Event) (w : World) (cat : list json)
    (p : json) (ms : list (string * json)) (k : string) :
  projectsFile w = Holds (Parsed (JArr cat)) ->
  Spec.UniqueTitles cat ->
  AddFunction.eventBody event = Parsed (JObj ms) ->
  lowerTitle (JObj ms) = Some k ->
  fst (AddFunction.handler SECRET_TOKEN c event w)
  = Some (AddFunction.mkReply 201 (Some p)) ->
  projectsFile (snd (AddFunction.handler SECRET_TOKEN c event w))
  = Holds (Parsed (JArr (cat ++ [p])))
  /\ Spec.UniqueTitles (cat ++ [p]).
Proof.
  intros Hf [Ht Hn] Hb Hk Hr.
  destruct (addFunction_outcomes SECRET_TOKEN c event w)
    as [(st & Hst & E) | [E | [(st & Hst & E) | [(E & _)
       | (ms0 & cat0 & tags & Hb0 & _ & _ & Hf0 & Hfind & _ & _ & _ & E)]]]];
    try (rewrite E in Hr; simpl in Hr; inversion Hr; subst;
         repeat match goal with
                | H : _ \/ _ |- _ => destruct H
                end; discriminate).
  assert (ms0 = ms) by congruence. assert (cat0 = cat) by congruence.
  subst ms0 cat0. cbv zeta in E. rewrite E in *. simpl in Hr.
  inversion Hr; subst p. simpl. split; [reflexivity|].
  rewrite Hk in Hfind. apply find_none in Hfind.
  assert (Hp : lowerTitle (JObj (assign "createdAt" (JStr (nowISO c))
                                   (assign "tags" tags ms))) = Some k).
  { unfold lowerTitle in *. simpl in *.
    now rewrite !lookup_assign_other by discriminate. }
  split.
  - apply Forall_app. split; [assumption|]. repeat constructor. now exists k.
  - rewrite map_app. simpl. apply NoDup_app; [assumption | | ].
    + repeat constructor. intros [].
    + intros a Ha [<- | []]. apply in_map_iff in Ha.
      destruct Ha as (q & Eq & Hin).
      rewrite Forall_forall in Hfind. destruct (Hfind q Hin) as [_ N].
      apply N. now rewrite Eq.
Qed.

End Further.

(* ================================================================== *)
(** * Part IV: the programs on sample inputs *)
(* ================================================================== *)

Section Samples.
Local Existing Instance Sample.platform.

(** The three sample records have three different titles. *)
Lemma Sample_catalog_unique :
  Spec.UniqueTitles [Sample.dune; Sample.wetland; Sample.heath].
Proof.
  split.
  - repeat constructor;
      [exists "dune map" | exists "wetland survey" | exists "heath fires"];
      reflexivity.
  - repeat constructor; simpl; intuition discriminate.
Defined.

(** C2 as stated fails: a record whose only tag is [" GIS"] is included
    when the filter ["gis"] is active, although none of its case-folded
    tags is an active filter. *)
Lemma filterProjects_untrimmed_tag :
  In Sample.marshView (Archive.filterProjects [Sample.marshView] ["gis"] "")
  /\ ~ (Spec.SearchMatch (Archive.searchTerm "") Sample.marshView
        /\ Spec.TagMatch JS.toLowerCase ["gis"] Sample.marshView).
Proof.
  split.
  - simpl. now left.
  - intros [_ [H | (tag & (ts & E & Hin) & H)]]; [discriminate|].
    inversion E; subst ts; clear E.
    destruct Hin as [<- | []].
    simpl in H. destruct H as [H | []]. discriminate.
Qed.

(** The stand-ins of the platform on the sample texts, and the controls
    that [renderTagFilters] makes for two sample records: the tag [" GIS"]
    of the first and the tag ["gis"] of the second give one control. *)
Example renderTagFilters_sample :
  JS.toLowerCase " Wetland SURVEY" = " wetland survey"
  /\ JS.trim "  Marsh Atlas " = "Marsh Atlas"
  /\ Archive.renderTagFilters [Sample.marshView; Sample.wetlandView]
     = ["ecology"; "gis"]
  /\ Archive.renderTagFilters [Sample.wetlandView; Sample.marshView]
     = ["ecology"; "gis"]
  /\ Spec.vocabulary [Sample.marshView; Sample.wetlandView]
     = ["ecology"; "gis"]
  /\ map (fun tag => JS.toLowerCase tag) [" GIS"; "gis"] = [" gis"; "gis"].
Proof. repeat split. Qed.

Lemma readProjects_outcomes_witness :
  fst (Server.readProjects (mkWorld Absent true [] [] true)) = Ok []
  /\ fst (Server.readProjects (Sample.disk [Sample.wetland]))
     = Ok [Sample.wetland]
  /\ fst (Server.readProjects
            (mkWorld (Holds (Parsed (JObj [("projects", JArr [])]))) true [] [] true))
     = Thrown None "Failed to read projects file".
Proof.
  split; [|split].
  - destruct (readProjects_outcomes (mkWorld Absent true [] [] true)) as (H & _).
    exact (proj1 (H eq_refl)).
  - destruct (readProjects_outcomes (Sample.disk [Sample.wetland]))
      as (_ & _ & _ & _ & H).
    exact (proj1 (H [Sample.wetland] eq_refl)).
  - destruct (readProjects_outcomes
                (mkWorld (Holds (Parsed (JObj [("projects", JArr [])]))) true [] [] true))
      as (_ & H & _).
    exact (proj1 (H (JObj [("projects", JArr [])]) eq_refl eq_refl)).
Defined.

(** C6 as stated fails: a projects file whose parsed content is an array
    of values that are no records is not refused, it is returned as the
    catalog and listed by GET /api/projects. *)
Lemma readProjects_accepts_non_records :
  Forall (fun p => ~ Spec.Titled p) [JNum 7; JNull]
  /\ fst (Server.readProjects (Sample.disk [JNum 7; JNull]))
     = Ok [JNum 7; JNull]
  /\ fst (Server.getProjects (Sample.disk [JNum 7; JNull]))
     = Listed [JNum 7; JNull] 2.
Proof.
  split; [|split; reflexivity].
  repeat constructor; intros (a & H); discriminate.
Qed.

Lemma unauthenticated_requests_rejected_witness :
  status (fst (Server.postRoute Sample.secret Sample.URL Sample.clock
                 (Server.mkRequest None Sample.again "")
                 (Sample.disk [Sample.wetland]))) = 401
  /\ status (fst (Server.deleteRoute Sample.secret Sample.decodeURIComponent
                    Sample.clock
                    (Server.mkRequest (Some "Bearer nope") [] "wetland survey")
                    (Sample.disk [Sample.wetland]))) = 403
  /\ Server.post Sample.secret Sample.URL Sample.clock
       (Server.mkArrival (Some "Bearer") (Some Sample.again) None)
       (Sample.disk [Sample.wetland])
     = (Failure 401 "Access token is required", Sample.disk [Sample.wetland])
  /\ Server.delete Sample.secret Sample.decodeURIComponent Sample.clock
       (Server.mkArrival (Some "Bearer nope") (Some []) (Some "wetland survey"))
       (Sample.disk [Sample.wetland])
     = (Failure 403 "Invalid access token", Sample.disk [Sample.wetland])
  /\ Server.post Sample.secret Sample.URL Sample.clock
       (Server.mkArrival None None None) (Sample.disk [Sample.wetland])
     = (Failure 500 "Internal server error", Sample.disk [Sample.wetland])
  /\ Server.delete Sample.secret Sample.decodeURIComponent Sample.clock
       (Server.mkArrival None (Some []) None) (Sample.disk [Sample.wetland])
     = (Failure 500 "Internal server error", Sample.disk [Sample.wetland]).
Proof.
  destruct (unauthenticated_requests_rejected Sample.secret Sample.URL
              Sample.decodeURIComponent Sample.clock
              (Sample.disk [Sample.wetland]))
    as (H401 & H403 & A401 & A403 & Hbody & Hpath & _).
  assert (N1 : "nope" <> "") by discriminate.
  assert (N2 : "nope" <> Sample.secret) by discriminate.
  repeat apply conj.
  - destruct (H401 (Server.mkRequest None Sample.again "")
                (fun w => (Failure 500 "", w)) eq_refl) as (_ & H & _).
    exact H.
  - destruct (H403 (Server.mkRequest (Some "Bearer nope") [] "wetland survey")
                (fun w => (Failure 500 "", w)) "nope" eq_refl N1 N2)
      as (_ & _ & _ & H & _).
    exact H.
  - exact (proj1 (A401 (Server.mkArrival (Some "Bearer") (Some Sample.again) None)
                    Sample.again eq_refl eq_refl)).
  - exact (proj2 (A403 (Server.mkArrival (Some "Bearer nope") (Some [])
                          (Some "wetland survey"))
                    [] "nope" eq_refl eq_refl N1 N2)
             "wetland survey" eq_refl).
  - exact (proj1 (Hbody (Server.mkArrival None None None) eq_refl)).
  - exact (Hpath (Server.mkArrival None (Some []) None) eq_refl).
Defined.

(** C4 as stated fails on the serverless function: a POST without an
    Authorization header is answered 403, not 401. *)
Lemma serverless_missing_token_403 :
  AddFunction.tokenOf None = None
  /\ fst (AddFunction.handler Sample.secret Sample.clock
            (AddFunction.mkEvent "POST" None (Parsed Sample.wetland))
            (Sample.disk []))
     = Some (AddFunction.mkReply 403 None).
Proof. split; reflexivity. Qed.

Lemma invalid_candidate_rejected_witness :
  (exists f, lookup "file" Sample.noURL = Some (JStr f) /\ Sample.URL f = false)
  /\ status (fst (Server.append Sample.URL Sample.clock Sample.noURL
                    (Sample.disk [Sample.wetland]))) = 400
  /\ snd (Server.append Sample.URL Sample.clock Sample.noURL
            (Sample.disk [Sample.wetland])) = Sample.disk [Sample.wetland].
Proof.
  assert (H : exists f, lookup "file" Sample.noURL = Some (JStr f)
                        /\ Sample.URL f = false).
  { exists "a.pdf". split; reflexivity. }
  split; [exact H|].
  destruct (invalid_candidate_rejected Sample.URL Sample.clock Sample.noURL
              (Sample.disk [Sample.wetland]) (or_intror (or_intror H)))
    as (_ & H1 & H2 & _).
  split; assumption.
Defined.

Lemma duplicate_title_conflict_witness :
  Spec.Valid Sample.URL Sample.again "wetland survey" "https://x/b.pdf"
  /\ lowerTitle Sample.wetland = Some (JS.toLowerCase (JS.trim "wetland survey"))
  /\ Server.append Sample.URL Sample.clock Sample.again
       (Sample.disk [Sample.dune; Sample.wetland; Sample.heath])
     = (Failure 409 "Duplicate project",
        called ReadFile (Sample.disk [Sample.dune; Sample.wetland; Sample.heath])).
Proof.
  assert (Hv : Spec.Valid Sample.URL Sample.again "wetland survey"
                 "https://x/b.pdf").
  { unfold Spec.Valid. simpl. repeat split; try discriminate; auto. }
  assert (Ht : Forall Spec.Titled [Sample.dune]).
  { repeat constructor. now exists "dune map". }
  split; [exact Hv|]. split; [reflexivity|].
  exact (proj1 (duplicate_title_conflict Sample.secret Sample.URL Sample.clock
           (Sample.disk [Sample.dune; Sample.wetland; Sample.heath])
           [Sample.dune] [Sample.heath] Sample.wetland
           "wetland survey" eq_refl Ht eq_refl)
           Sample.again "wetland survey" "https://x/b.pdf" Hv eq_refl).
Defined.

(** C1 as stated fails: a candidate that has the title of an existing
    record in another case, and a blank file, is answered 400, not 409. *)
Lemma duplicate_title_blank_file_400 :
  lowerTitle (JObj Sample.noFile) = lowerTitle Sample.wetland
  /\ Server.append Sample.URL Sample.clock Sample.noFile
       (Sample.disk [Sample.wetland])
     = (Failure 400 "Invalid file", Sample.disk [Sample.wetland])
  /\ Server.postRoute Sample.secret Sample.URL Sample.clock
       (Server.mkRequest Sample.bearer Sample.noFile "")
       (Sample.disk [Sample.wetland])
     = (Failure 400 "Invalid file", Sample.disk [Sample.wetland]).
Proof. repeat split. Qed.



Lemma delete_removes_first_match_witness :
  fst (Server.deleteProject Sample.decodeURIComponent Sample.clock
         Sample.removal (Sample.disk Sample.twice))
  = Deleted Sample.wetland 1
  /\ exists before after,
       Sample.twice = before ++ Sample.wetland :: after
       /\ lowerTitle Sample.wetland = Some (JS.toLowerCase "wetland survey")
       /\ Forall (Spec.OtherTitle (JS.toLowerCase "wetland survey")) before
       /\ Server.listAll
            (snd (Server.deleteProject Sample.decodeURIComponent Sample.clock
                    Sample.removal (Sample.disk Sample.twice)))
          = Ok (before ++ after)
       /\ 1 = length Sample.twice - 1.
Proof.
  split; [reflexivity|].
  exact (delete_removes_first_match Sample.decodeURIComponent Sample.clock
           Sample.removal (Sample.disk Sample.twice) "wetland survey"
           Sample.twice Sample.wetland 1 eq_refl eq_refl eq_refl).
Defined.

Lemma delete_then_list_has_no_match_witness :
  Spec.UniqueTitles [Sample.dune; Sample.wetland; Sample.heath]
  /\ fst (Server.deleteProject Sample.decodeURIComponent Sample.clock
            Sample.removal
            (Sample.disk [Sample.dune; Sample.wetland; Sample.heath]))
     = Deleted Sample.wetland 2
  /\ Server.listAll
       (snd (Server.deleteProject Sample.decodeURIComponent Sample.clock
               Sample.removal
               (Sample.disk [Sample.dune; Sample.wetland; Sample.heath])))
     = Ok [Sample.dune; Sample.heath]
  /\ exists cat',
       Server.listAll
         (snd (Server.deleteProject Sample.decodeURIComponent Sample.clock
                 Sample.removal
                 (Sample.disk [Sample.dune; Sample.wetland; Sample.heath])))
       = Ok cat'
       /\ Forall (Spec.OtherTitle (JS.toLowerCase "wetland survey")) cat'.
Proof.
  split; [exact Sample_catalog_unique|].
  split; [reflexivity|]. split; [reflexivity|].
  exact (delete_then_list_has_no_match Sample.decodeURIComponent Sample.clock
           Sample.removal
           (Sample.disk [Sample.dune; Sample.wetland; Sample.heath])
           "wetland survey" [Sample.dune; Sample.wetland; Sample.heath]
           eq_refl eq_refl Sample_catalog_unique (or_introl eq_refl)).
Defined.

(** C3 as stated fails: on a catalog with two records whose titles differ
    in case only, DELETE answers 200 and the catalog read afterwards still
    holds the second one. *)
Lemma delete_leaves_second_match :
  status (fst (Server.deleteRoute Sample.secret Sample.decodeURIComponent
                 Sample.clock Sample.removal (Sample.disk Sample.twice))) = 200
  /\ Server.listAll
       (snd (Server.deleteRoute Sample.secret Sample.decodeURIComponent
               Sample.clock Sample.removal (Sample.disk Sample.twice)))
     = Ok [ JObj [ ("title", JStr "WETLAND survey") ] ]
  /\ lowerTitle (JObj [ ("title", JStr "WETLAND survey") ])
     = Some (JS.toLowerCase "wetland survey").
Proof. repeat split. Qed.

(** The scenarios of the design on the one-record catalog: the duplicate
    POST is answered 409 and the DELETE in another case empties the
    catalog. *)
Example scenario_wetland :
  status (fst (Server.postRoute Sample.secret Sample.URL Sample.clock
                 (Server.mkRequest Sample.bearer
                    [ ("title", JStr "WETLAND SURVEY");
                      ("file", JStr "https://x/a.pdf") ] "")
                 (Sample.disk [Sample.wetland]))) = 409
  /\ fst (Server.deleteRoute Sample.secret Sample.decodeURIComponent
            Sample.clock Sample.removal (Sample.disk [Sample.wetland]))
     = Deleted Sample.wetland 0
  /\ Archive.filterProjects [Sample.wetlandView] [] "wetland" = [Sample.wetlandView]
  /\ Archive.filterProjects [Sample.wetlandView] [] "forest" = []
  /\ Archive.filterProjects [Sample.wetlandView] ["gis"] "" = [Sample.wetlandView]
  /\ Archive.filterProjects [Sample.wetlandView] ["ocean"] "" = [].
Proof. repeat split. Qed.

Lemma any_scheme_authenticates_witness :
  Server.authenticateToken Sample.secret
    (Server.mkRequest (Some "Basic s3cret") [] "")
    (Server.getProjects) (Sample.disk [])
  = Server.getProjects (Sample.disk []).
Proof.
  assert (H1 : Notion.SpaceFree "Basic").
  { unfold Notion.SpaceFree, Spec.Occurs. simpl. intuition discriminate. }
  assert (H2 : Notion.SpaceFree Sample.secret).
  { unfold Notion.SpaceFree, Spec.Occurs. simpl. intuition discriminate. }
  assert (H3 : Sample.secret <> "") by discriminate.
  exact (any_scheme_authenticates Sample.secret "Basic"
           (Server.mkRequest (Some "Basic s3cret") [] "")
           Server.getProjects (Sample.disk []) H1 H2 H3 eq_refl).
Defined.

Lemma secret_with_space_locks_out_witness :
  Server.postRoute "my secret" Sample.URL Sample.clock
    (Server.mkRequest (Some "Bearer my secret") Sample.marsh "")
    (Sample.disk [])
  = (Failure 403 "Invalid access token", Sample.disk []).
Proof.
  assert (H : Spec.Occurs " " "my secret").
  { unfold Spec.Occurs. simpl. auto. }
  destruct (proj1 (secret_with_space_locks_out "my secret" Sample.clock
                     (Sample.disk []) H)
              (Server.mkRequest (Some "Bearer my secret") Sample.marsh "")
              (Server.validateProject Sample.URL Sample.marsh
                 (Server.addProject Sample.clock)))
    as [E | E].
  - discriminate E.
  - exact E.
Defined.

Lemma added_record_is_well_formed_witness :
  exists t f l,
    Spec.stored Sample.clock Sample.marsh " Marsh Atlas" "https://x/b.pdf "
    = JObj [ ("title", JStr t); ("file", JStr f); ("tags", JArr l);
             ("createdAt", JStr (nowISO Sample.clock)) ]
    /\ t <> "" /\ Notion.Trimmed t
    /\ f <> "" /\ Notion.Trimmed f
    /\ Forall Notion.StoredTag l.
Proof.
  exact (added_record_is_well_formed Sample.secret Sample.URL Sample.clock
           (Server.mkRequest Sample.bearer Sample.marsh "")
           (Sample.disk [Sample.wetland])
           (Spec.stored Sample.clock Sample.marsh " Marsh Atlas" "https://x/b.pdf ")
           2 eq_refl).
Defined.

Lemma routes_keep_unique_titles_witness :
  Spec.UniqueTitles [Sample.wetland]
  /\ exists cat',
       Server.listAll
         (snd (Server.postRoute Sample.secret Sample.URL Sample.clock
                 (Server.mkRequest Sample.bearer Sample.marsh "")
                 (Sample.disk [Sample.wetland])))
       = Ok cat'
       /\ Spec.UniqueTitles cat'.
Proof.
  assert (Hu : Spec.UniqueTitles [Sample.wetland]).
  { split.
    - repeat constructor. now exists "wetland survey".
    - repeat constructor. intros []. }
  split; [exact Hu|].
  refine (proj1 (routes_keep_unique_titles Sample.secret Sample.URL
                   Sample.decodeURIComponent Sample.clock
                   (Server.mkRequest Sample.bearer Sample.marsh "")
                   (Sample.disk [Sample.wetland]) [Sample.wetland]
                   eq_refl Hu) _).
  simpl. discriminate.
Defined.

Lemma client_errors_change_nothing_witness :
  snd (Server.deleteRoute Sample.secret Sample.decodeURIComponent Sample.clock
         (Server.mkRequest Sample.bearer [] "Dune Map")
         (Sample.disk [Sample.wetland]))
  = Sample.disk [Sample.wetland]
  \/ snd (Server.deleteRoute Sample.secret Sample.decodeURIComponent Sample.clock
            (Server.mkRequest Sample.bearer [] "Dune Map")
            (Sample.disk [Sample.wetland]))
     = called ReadFile (Sample.disk [Sample.wetland]).
Proof.
  refine (proj2 (client_errors_change_nothing Sample.secret Sample.URL
                   Sample.decodeURIComponent Sample.clock
                   (Server.mkRequest Sample.bearer [] "Dune Map")
                   (Sample.disk [Sample.wetland])) _).
  simpl. lia.
Defined.

Lemma success_backs_up_first_witness :
  calls (snd (Server.postRoute Sample.secret Sample.URL Sample.clock
                (Server.mkRequest Sample.bearer Sample.marsh "")
                (mkWorld (Holds (Parsed (JArr [Sample.wetland]))) true
                   [(5%Z, Garbled); (nowMs Sample.clock, Garbled)] [] true)))
  = [WriteFile; CopyFile; ReadFile]
  /\ backups (snd (Server.postRoute Sample.secret Sample.URL Sample.clock
                     (Server.mkRequest Sample.bearer Sample.marsh "")
                     (mkWorld (Holds (Parsed (JArr [Sample.wetland]))) true
                        [(5%Z, Garbled); (nowMs Sample.clock, Garbled)] []
                        true)))
     = [(nowMs Sample.clock, Parsed (JArr [Sample.wetland])); (5%Z, Garbled)].
Proof.
  split; [|reflexivity].
  exact (proj1 (proj1 (success_backs_up_first Sample.secret Sample.URL
                         Sample.decodeURIComponent Sample.clock
                         (Server.mkRequest Sample.bearer Sample.marsh "")
                         (mkWorld (Holds (Parsed (JArr [Sample.wetland]))) true
                            [(5%Z, Garbled); (nowMs Sample.clock, Garbled)] []
                            true))
                 eq_refl)).
Defined.

(** The backup copy and the write fail apart: when the copy cannot be
    written the POST still answers 201 and leaves no backup; when the
    projects file cannot be written the POST answers 500 and the backup
    it made stays. *)
Example backup_and_write_fail_apart :
  (let w := mkWorld (Holds (Parsed (JArr [Sample.wetland]))) true [] [] false in
   status (fst (Server.postRoute Sample.secret Sample.URL Sample.clock
                  (Server.mkRequest Sample.bearer Sample.marsh "") w)) = 201
   /\ backups (snd (Server.postRoute Sample.secret Sample.URL Sample.clock
                      (Server.mkRequest Sample.bearer Sample.marsh "") w)) = [])
  /\ (let w := mkWorld (Holds (Parsed (JArr [Sample.wetland]))) false [] [] true in
      status (fst (Server.postRoute Sample.secret Sample.URL Sample.clock
                     (Server.mkRequest Sample.bearer Sample.marsh "") w)) = 500
      /\ projectsFile
           (snd (Server.postRoute Sample.secret Sample.URL Sample.clock
                   (Server.mkRequest Sample.bearer Sample.marsh "") w))
         = Holds (Parsed (JArr [Sample.wetland]))
      /\ backups (snd (Server.postRoute Sample.secret Sample.URL Sample.clock
                         (Server.mkRequest Sample.bearer Sample.marsh "") w))
         = [(nowMs Sample.clock, Parsed (JArr [Sample.wetland]))]).
Proof. repeat split. Qed.

Lemma total_agrees_with_next_list_witness :
  exists cat,
    fst (Server.getProjects
           (snd (Server.postRoute Sample.secret Sample.URL Sample.clock
                   (Server.mkRequest Sample.bearer Sample.marsh "")
                   (Sample.disk [Sample.wetland]))))
    = Listed
        (cat ++ [Spec.stored Sample.clock Sample.marsh " Marsh Atlas"
                   "https://x/b.pdf "]) 2.
Proof.
  exact (proj1 (total_agrees_with_next_list Sample.secret Sample.URL
                  Sample.decodeURIComponent Sample.clock
                  (Server.mkRequest Sample.bearer Sample.marsh "")
                  (Sample.disk [Sample.wetland]))
           (Spec.stored Sample.clock Sample.marsh " Marsh Atlas" "https://x/b.pdf ")
           2 eq_refl).
Defined.

Lemma append_then_delete_restores_witness :
  Server.listAll
    (snd (Server.deleteProject Sample.decodeURIComponent Sample.clock
            (Server.mkRequest Sample.bearer [] "MARSH atlas")
            (snd (Server.append Sample.URL Sample.clock Sample.marsh
                    (Sample.disk [Sample.wetland])))))
  = Ok [Sample.wetland].
Proof.
  exact (proj2 (append_then_delete_restores Sample.URL
                  Sample.decodeURIComponent Sample.clock Sample.clock
                  Sample.marsh " Marsh Atlas" "https://x/b.pdf " "MARSH atlas"
                  (Server.mkRequest Sample.bearer [] "MARSH atlas")
                  (Sample.disk [Sample.wetland]) [Sample.wetland]
                  eq_refl eq_refl eq_refl eq_refl eq_refl eq_refl
                  ltac:(simpl; discriminate))).
Defined.

Lemma untitled_first_record_blocks_mutations_witness :
  Server.append Sample.URL Sample.clock Sample.marsh
    (Sample.disk [JObj [("title", JNum 7)]; Sample.wetland])
  = (Failure 500 "Internal server error",
     called ReadFile (Sample.disk [JObj [("title", JNum 7)]; Sample.wetland])).
Proof.
  assert (N : ~ Spec.Titled (JObj [("title", JNum 7)])).
  { intros (a & H). discriminate. }
  assert (Hv : Spec.Valid Sample.URL Sample.marsh " Marsh Atlas"
                 "https://x/b.pdf ").
  { unfold Spec.Valid. simpl. repeat split; try discriminate. eauto. }
  exact (proj1 (proj2 (untitled_first_record_blocks_mutations
                  (Sample.disk [JObj [("title", JNum 7)]; Sample.wetland])
                  (JObj [("title", JNum 7)]) [Sample.wetland] eq_refl N))
           Sample.URL Sample.clock Sample.marsh _ _ Hv).
Defined.


Lemma addFunction_title_not_checked_witness :
  exists p,
    fst (AddFunction.handler Sample.secret Sample.clock
           (AddFunction.mkEvent "POST" Sample.bearer
              (Parsed (JObj [("title", JNum 7); ("file", JStr "x")])))
           (Sample.disk []))
    = Some (AddFunction.mkReply 201 (Some p))
    /\ projectsFile
         (snd (AddFunction.handler Sample.secret Sample.clock
                 (AddFunction.mkEvent "POST" Sample.bearer
                    (Parsed (JObj [("title", JNum 7); ("file", JStr "x")])))
                 (Sample.disk [])))
       = Holds (Parsed (JArr [p]))
    /\ ~ Spec.Titled p.
Proof.
  exact (proj1 (addFunction_title_not_checked Sample.secret Sample.clock
                  (AddFunction.mkEvent "POST" Sample.bearer
                     (Parsed (JObj [("title", JNum 7); ("file", JStr "x")])))
                  (Sample.disk []) [("title", JNum 7); ("file", JStr "x")]
                  eq_refl eq_refl eq_refl eq_refl eq_refl eq_refl eq_refl)
           eq_refl).
Defined.

Lemma missing_projects_file_witness :
  fst (Server.append Sample.URL Sample.clock Sample.marsh
         (mkWorld Absent true [] [] true))
  = Added (Spec.stored Sample.clock Sample.marsh " Marsh Atlas"
             "https://x/b.pdf ") 1.
Proof.
  assert (Hv : Spec.Valid Sample.URL Sample.marsh " Marsh Atlas"
                 "https://x/b.pdf ").
  { unfold Spec.Valid. simpl. repeat split; try discriminate. eauto. }
  destruct (missing_projects_file (mkWorld Absent true [] [] true) eq_refl)
    as (_ & _ & H & _).
  exact (proj1 (H Sample.URL Sample.clock Sample.marsh _ _ Hv eq_refl)).
Defined.

Lemma wrapped_document_breaks_the_servers_witness :
  Page.loadProjects
    (Page.Response true (Parsed (JObj [("projects", JArr [Sample.wetland])])))
  = Some [Sample.wetland]
  /\ status (fst (Server.getProjects
                    (mkWorld (Holds (Parsed (JObj [("projects",
                                                    JArr [Sample.wetland])])))
                             true [] [] true))) = 500.
Proof.
  destruct (wrapped_document_breaks_the_servers
              (mkWorld (Holds (Parsed (JObj [("projects", JArr [Sample.wetland])])))
                       true [] [] true)
              [("projects", JArr [Sample.wetland])] [Sample.wetland]
              eq_refl eq_refl) as (H1 & H2 & _).
  split; assumption.
Defined.

Lemma no_filter_shows_everything_witness :
  Archive.filterProjects [Sample.wetlandView; Sample.marshView] [] "   "
  = [Sample.wetlandView; Sample.marshView].
Proof.
  exact (no_filter_shows_everything [Sample.wetlandView; Sample.marshView]
           "   " eq_refl).
Defined.

Lemma longer_search_narrows_witness :
  incl (Archive.filterProjects [Sample.wetlandView; Sample.marshView] []
          "wetland")
       (Archive.filterProjects [Sample.wetlandView; Sample.marshView] []
          "La").
Proof.
  apply longer_search_narrows.
  exists "wet", "nd". reflexivity.
Defined.

Lemma tag_filters_are_or_combined_witness :
  incl (Archive.filterProjects [Sample.wetlandView; Sample.marshView]
          ["ecology"] "")
       (Archive.filterProjects [Sample.wetlandView; Sample.marshView]
          (JS.add ["ecology"] "gis") "").
Proof.
  refine (proj1 (tag_filters_are_or_combined
                   [Sample.wetlandView; Sample.marshView] ["ecology"] "gis" "" _)).
  discriminate.
Defined.

Lemma page_invariant_witness :
  Notion.Rendered
    (Page.react (Page.Click "gis")
       (Page.initializeArchive (Some [Sample.wetlandView; Sample.marshView])
          (Page.fresh (Page.mkDisplay "block" "none" "none" "none")))).
Proof.
  refine (proj2 (page_invariant [Sample.wetlandView; Sample.marshView]
                   (Page.mkDisplay "block" "none" "none" "none") _
                   (Page.reach_step _ _ _ (Page.Click "gis")
                      (Page.reach_init _ _) _))).
  intros tag E. inversion E; subst. simpl. auto.
Defined.

Lemma toggling_twice_restores_witness :
  Page.filteredProjects
    (Page.toggleTagFilter "ecology"
       (Page.initializeArchive (Some [Sample.wetlandView; Sample.marshView])
          (Page.fresh (Page.mkDisplay "block" "none" "none" "none"))))
  = [Sample.wetlandView]
  /\ Page.filteredProjects
       (Page.toggleTagFilter "ecology"
          (Page.toggleTagFilter "ecology"
             (Page.initializeArchive (Some [Sample.wetlandView; Sample.marshView])
                (Page.fresh (Page.mkDisplay "block" "none" "none" "none")))))
     = Page.filteredProjects
         (Page.initializeArchive (Some [Sample.wetlandView; Sample.marshView])
            (Page.fresh (Page.mkDisplay "block" "none" "none" "none"))).
Proof.
  split; [reflexivity|].
  exact (proj1 (toggling_twice_restores "ecology"
                  (Page.initializeArchive
                     (Some [Sample.wetlandView; Sample.marshView])
                     (Page.fresh (Page.mkDisplay "block" "none" "none" "none"))))
           eq_refl).
Defined.

Lemma valid_form_reaches_the_handler_witness :
  exists req,
    Admin.handleFormSubmit Sample.URL Notion.dunes = Some req
    /\ Server.postRoute Sample.secret Sample.URL Sample.clock req
         (Sample.disk [Sample.wetland])
       = Server.addProject Sample.clock
           [ ("title", JStr "Dune Map");
             ("file", JStr "https://x/d.pdf");
             ("tags", JArr [JStr "coast"; JStr "GIS"]) ]
           (Sample.disk [Sample.wetland]).
Proof.
  assert (H : Notion.SpaceFree Sample.secret).
  { unfold Notion.SpaceFree, Spec.Occurs. simpl. intuition discriminate. }
  exact (valid_form_reaches_the_handler Sample.secret Sample.URL Sample.clock
           Notion.dunes (Sample.disk [Sample.wetland]) eq_refl eq_refl H).
Defined.

Lemma dropbox_links_ask_for_download_witness :
  JS.includes
    (Admin.processDropboxLink " https://www.dropbox.com/s/abc/a.pdf?dl=0 ")
    "dl=1" = true.
Proof.
  exact (proj2 (dropbox_links_ask_for_download
                  " https://www.dropbox.com/s/abc/a.pdf?dl=0 ") eq_refl).
Defined.

(** The three branches of [processDropboxLink] on Dropbox links. *)
Example processDropboxLink_samples :
  Admin.processDropboxLink " https://www.dropbox.com/s/abc/a.pdf?dl=0 "
  = "https://www.dropbox.com/s/abc/a.pdf?dl=1"
  /\ Admin.processDropboxLink "https://www.dropbox.com/s/abc/a.pdf"
     = "https://www.dropbox.com/s/abc/a.pdf?dl=1"
  /\ Admin.processDropboxLink "https://www.dropbox.com/s/abc/a.pdf?raw=1"
     = "https://www.dropbox.com/s/abc/a.pdf?raw=1&dl=1"
  /\ Admin.processDropboxLink " https://x/a.pdf" = " https://x/a.pdf".
Proof. repeat split. Qed.

Lemma repeated_append_conflicts_witness :
  Server.append Sample.URL Sample.clock Sample.marsh
    (snd (Server.append Sample.URL Sample.clock Sample.marsh
            (Sample.disk [Sample.wetland])))
  = (Failure 409 "Duplicate project",
     called ReadFile
       (snd (Server.append Sample.URL Sample.clock Sample.marsh
               (Sample.disk [Sample.wetland])))).
Proof.
  assert (Hv : Spec.Valid Sample.URL Sample.marsh " Marsh Atlas"
                 "https://x/b.pdf ").
  { unfold Spec.Valid. simpl. repeat split; try discriminate. eauto. }
  exact (repeated_append_conflicts Sample.URL Sample.clock Sample.clock
           Sample.marsh Sample.marsh _ _ _ _ (Sample.disk [Sample.wetland])
           Hv eq_refl Hv eq_refl).
Defined.

Lemma repeated_delete_finds_nothing_witness :
  Spec.UniqueTitles [Sample.dune; Sample.wetland; Sample.heath]
  /\ fst (Server.deleteProject Sample.decodeURIComponent Sample.clock
            Sample.removal
            (Sample.disk [Sample.dune; Sample.wetland; Sample.heath]))
     = Deleted Sample.wetland 2
  /\ Server.deleteProject Sample.decodeURIComponent Sample.clock Sample.removal
       (snd (Server.deleteProject Sample.decodeURIComponent Sample.clock
               Sample.removal
               (Sample.disk [Sample.dune; Sample.wetland; Sample.heath])))
     = (Failure 404 "Project not found",
        called ReadFile
          (snd (Server.deleteProject Sample.decodeURIComponent Sample.clock
                  Sample.removal
                  (Sample.disk [Sample.dune; Sample.wetland; Sample.heath])))).
Proof.
  split; [exact Sample_catalog_unique|]. split; [reflexivity|].
  exact (repeated_delete_finds_nothing Sample.decodeURIComponent Sample.clock
           Sample.clock Sample.removal
           (Sample.disk [Sample.dune; Sample.wetland; Sample.heath])
           [Sample.dune; Sample.wetland; Sample.heath]
           eq_refl Sample_catalog_unique eq_refl).
Defined.

Lemma addFunction_keeps_unique_titles_witness :
  Spec.UniqueTitles [Sample.wetland]
  /\ exists p,
       projectsFile
         (snd (AddFunction.handler Sample.secret Sample.clock
                 (AddFunction.mkEvent "POST" Sample.bearer
                    (Parsed (JObj Sample.marsh)))
                 (Sample.disk [Sample.wetland])))
       = Holds (Parsed (JArr ([Sample.wetland] ++ [p])))
       /\ Spec.UniqueTitles ([Sample.wetland] ++ [p]).
Proof.
  assert (Hu : Spec.UniqueTitles [Sample.wetland]).
  { split.
    - repeat constructor. now exists "wetland survey".
    - repeat constructor. intros []. }
  split; [exact Hu|]. eexists.
  exact (addFunction_keeps_unique_titles Sample.secret Sample.clock
           (AddFunction.mkEvent "POST" Sample.bearer (Parsed (JObj Sample.marsh)))
           (Sample.disk [Sample.wetland]) [Sample.wetland] _ Sample.marsh
           " marsh atlas" eq_refl Hu eq_refl eq_refl eq_refl).
Defined.

End Samples.
